(** * Land-deed registry: ledger chaincode, ledger gateway, document store
      and the deed / verification routes, embedded and verified.

    Sources embedded here:
    - [fabric-network/chaincode/land-registry/land_registry.go]  (module [Chaincode])
    - [backend/src/services/BlockchainService.js]                (module [BlockchainService])
    - [backend/src/services/IPFSService.js]                      (module [IPFSService])
    - [backend/src/routes/deeds.js]                              (module [DeedRoutes])
    - the verification-request routes                            (module [VerificationRoutes])
*)

From Stdlib Require Import ZArith NArith Lia Ascii String List.
From Stdlib.Strings Require Import Byte.
From stdpp Require Import base option gmap strings list pretty.

Local Open Scope Z_scope.
Local Open Scope string_scope.

(* ===================================================================== *)
(** * Hashing: hex encoding and SHA-256 (Node's [crypto])                 *)
(* ===================================================================== *)

Module Hex.

(** One lowercase hexadecimal digit. *)
Definition digit (n : N) : ascii :=
  match n with
  | 0%N => "0" | 1%N => "1" | 2%N => "2" | 3%N => "3"
  | 4%N => "4" | 5%N => "5" | 6%N => "6" | 7%N => "7"
  | 8%N => "8" | 9%N => "9" | 10%N => "a" | 11%N => "b"
  | 12%N => "c" | 13%N => "d" | 14%N => "e" | _ => "f"
  end%char.

(** [buf.toString('hex')]: two lowercase digits per byte, high nibble first. *)
Fixpoint encode (bs : list byte) : string :=
  match bs with
  | [] => EmptyString
  | b :: bs' =>
      String (digit (Byte.to_N b / 16)) (String (digit (Byte.to_N b mod 16)) (encode bs'))
  end.

Definition is_digit (a : ascii) : bool :=
  let n := N_of_ascii a in
  ((48 <=? n) && (n <=? 57) || (97 <=? n) && (n <=? 102))%N.

Fixpoint all_digits (s : string) : bool :=
  match s with
  | EmptyString => true
  | String a s' => is_digit a && all_digits s'
  end.

End Hex.

Module Sha256.
Local Open Scope N_scope.

Definition w32 (x : N) : N := x mod 4294967296.
Definition add32 (x y : N) : N := w32 (x + y).
Definition rotr (n x : N) : N :=
  N.lor (N.shiftr x n) (w32 (N.shiftl x (32 - n))).
Definition not32 (x : N) : N := N.lxor x 4294967295.

Definition Ch (x y z : N) : N := N.lxor (N.land x y) (N.land (not32 x) z).
Definition Maj (x y z : N) : N :=
  N.lxor (N.lxor (N.land x y) (N.land x z)) (N.land y z).
Definition Sigma0 (x : N) : N := N.lxor (N.lxor (rotr 2 x) (rotr 13 x)) (rotr 22 x).
Definition Sigma1 (x : N) : N := N.lxor (N.lxor (rotr 6 x) (rotr 11 x)) (rotr 25 x).
Definition sigma0 (x : N) : N := N.lxor (N.lxor (rotr 7 x) (rotr 18 x)) (N.shiftr x 3).
Definition sigma1 (x : N) : N := N.lxor (N.lxor (rotr 17 x) (rotr 19 x)) (N.shiftr x 10).

(** Trial division, for the short list of primes the constants rest on. *)
Definition is_prime (p : N) : bool :=
  (1 <? p) && forallb (fun q => negb (p mod q =? 0))
                      (map N.of_nat (seq 2 (N.to_nat p - 2))).

Definition primes : list N := filter (fun p => is_prime p) (map N.of_nat (seq 2 310)).

(** Integer cube root, bit by bit from the top. *)
Fixpoint icbrt_go (bits : nat) (n r : N) : N :=
  match bits with
  | O => r
  | S i =>
      let r' := r + 2 ^ N.of_nat i in
      icbrt_go i n (if r' * r' * r' <=? n then r' else r)
  end.
Definition icbrt (n : N) : N := icbrt_go 48 n 0.

(** Round constants: the first 32 bits of the fractional parts of the cube
    roots of the first sixty-four primes. *)
Definition K : list N :=
  Eval vm_compute in map (fun p => w32 (icbrt (p * 2 ^ 96))) (take 64 primes).

(** The eight working words. *)
Record State := mkState { a : N; b : N; c : N; d : N; e : N; f : N; g : N; h : N }.

(** Initial hash value: the first 32 bits of the fractional parts of the
    square roots of the first eight primes. *)
Definition frac_sqrt (i : nat) : N := w32 (N.sqrt (nth i primes 0 * 2 ^ 64)).

Definition H0 : State :=
  Eval vm_compute in
    mkState (frac_sqrt 0) (frac_sqrt 1) (frac_sqrt 2) (frac_sqrt 3)
            (frac_sqrt 4) (frac_sqrt 5) (frac_sqrt 6) (frac_sqrt 7).

(** Padding: the byte 0x80, zero bytes up to 56 mod 64, then the bit length
    as a 64-bit big-endian integer. *)
Definition be_bytes (n : nat) (x : N) : list N :=
  map (fun i => (N.shiftr x (8 * N.of_nat i)) mod 256) (rev (seq 0 n)).

Definition pad (msg : list N) : list N :=
  let len := N.of_nat (length msg) in
  let zeros := N.to_nat ((55 + 64 - len mod 64) mod 64) in
  msg ++ [128] ++ repeat 0 zeros ++ be_bytes 8 ((8 * len) mod 2 ^ 64).

Fixpoint words (fuel : nat) (bs : list N) : list N :=
  match fuel, bs with
  | S fuel', b0 :: b1 :: b2 :: b3 :: rest =>
      (b0 * 16777216 + b1 * 65536 + b2 * 256 + b3) :: words fuel' rest
  | _, _ => []
  end.

(** Message schedule: sixteen block words extended to sixty-four. *)
Fixpoint schedule (n : nat) (w : list N) : list N :=
  match n with
  | O => w
  | S n' =>
      let t := length w in
      let x := add32 (add32 (sigma1 (nth (t - 2) w 0)) (nth (t - 7) w 0))
                     (add32 (sigma0 (nth (t - 15) w 0)) (nth (t - 16) w 0)) in
      schedule n' (w ++ [x])
  end.

Definition round (s : State) (kw : N * N) : State :=
  let t1 := add32 (add32 (add32 (h s) (Sigma1 (e s))) (Ch (e s) (f s) (g s)))
                  (add32 kw.1 kw.2) in
  let t2 := add32 (Sigma0 (a s)) (Maj (a s) (b s) (c s)) in
  mkState (add32 t1 t2) (a s) (b s) (c s) (add32 (d s) t1) (e s) (f s) (g s).

Definition compress (s : State) (block : list N) : State :=
  let w := schedule 48 block in
  let s' := fold_left round (combine K w) s in
  mkState (add32 (a s) (a s')) (add32 (b s) (b s')) (add32 (c s) (c s'))
          (add32 (d s) (d s')) (add32 (e s) (e s')) (add32 (f s) (f s'))
          (add32 (g s) (g s')) (add32 (h s) (h s')).

Fixpoint blocks (fuel : nat) (ws : list N) : list (list N) :=
  match fuel with
  | O => []
  | S fuel' =>
      match ws with
      | [] => []
      | _ => take 16 ws :: blocks fuel' (drop 16 ws)
      end
  end.

Definition hash_words (msg : list N) : State :=
  let ws := words (length msg + 72) (pad msg) in
  fold_left compress (blocks (length ws) ws) H0.

Definition word_bytes (x : N) : list byte :=
  map (fun v => match Byte.of_N v with Some b => b | None => x00 end) (be_bytes 4 x).

(** The 32-byte digest. *)
Definition digest (msg : list byte) : list byte :=
  let s := hash_words (map Byte.to_N msg) in
  word_bytes (a s) ++ word_bytes (b s) ++ word_bytes (c s) ++ word_bytes (d s) ++
  word_bytes (e s) ++ word_bytes (f s) ++ word_bytes (g s) ++ word_bytes (h s).

(** [crypto.createHash('sha256').update(buf).digest('hex')]. *)
Definition sha256_hex (msg : list byte) : string := Hex.encode (digest msg).
Arguments sha256_hex : simpl never.

End Sha256.

(* ===================================================================== *)
(** * The chaincode (land_registry.go)                                    *)
(* ===================================================================== *)

Module Chaincode.

(** [time.Time], as an instant in nanoseconds since the Unix epoch. *)
Definition Time := Z.

(** [t.Unix()]: whole seconds since the epoch. *)
Definition Unix (t : Time) : Z := t `div` 1000000000.

(** [float64] payload of [Deed.LandArea]; no operation of the contract
    inspects it, it is only carried from input to storage. *)
Definition float64 := Z.

(** [type Deed struct]. *)
Record Deed := mkDeed {
  ID : string;
  DeedNumber : string;
  OwnerID : string;
  PropertyAddress : string;
  PropertyType : string;
  LandArea : float64;
  LandAreaUnit : string;
  IPFSHash : string;
  Status : string;
  VerificationStatus : string;
  CreatedAt : Time;
  UpdatedAt : Time;
  VerifiedAt : option Time;
  VerifiedBy : string
}.

(** [type Transfer struct]. *)
Record Transfer := mkTransfer {
  tID : string;
  tDeedID : string;
  FromOwnerID : string;
  ToOwnerID : string;
  TransferReason : string;
  TransferDate : Time;
  tCreatedAt : Time
}.

(** Go's zero time is year 1, not the epoch. *)
Definition zeroTime : Time := -62135596800 * 1000000000.

Definition zeroDeed : Deed :=
  mkDeed "" "" "" "" "" 0 "" "" "" "" zeroTime zeroTime None "".

(** Field assignments of the Go code, one setter per assigned field. *)
Definition set_OwnerID (v : string) (d : Deed) : Deed :=
  mkDeed (ID d) (DeedNumber d) v (PropertyAddress d) (PropertyType d)
         (LandArea d) (LandAreaUnit d) (IPFSHash d) (Status d)
         (VerificationStatus d) (CreatedAt d) (UpdatedAt d) (VerifiedAt d)
         (VerifiedBy d).

Definition set_Status (v : string) (d : Deed) : Deed :=
  mkDeed (ID d) (DeedNumber d) (OwnerID d) (PropertyAddress d) (PropertyType d)
         (LandArea d) (LandAreaUnit d) (IPFSHash d) v
         (VerificationStatus d) (CreatedAt d) (UpdatedAt d) (VerifiedAt d)
         (VerifiedBy d).

Definition set_VerificationStatus (v : string) (d : Deed) : Deed :=
  mkDeed (ID d) (DeedNumber d) (OwnerID d) (PropertyAddress d) (PropertyType d)
         (LandArea d) (LandAreaUnit d) (IPFSHash d) (Status d)
         v (CreatedAt d) (UpdatedAt d) (VerifiedAt d) (VerifiedBy d).

Definition set_CreatedAt (v : Time) (d : Deed) : Deed :=
  mkDeed (ID d) (DeedNumber d) (OwnerID d) (PropertyAddress d) (PropertyType d)
         (LandArea d) (LandAreaUnit d) (IPFSHash d) (Status d)
         (VerificationStatus d) v (UpdatedAt d) (VerifiedAt d) (VerifiedBy d).

Definition set_UpdatedAt (v : Time) (d : Deed) : Deed :=
  mkDeed (ID d) (DeedNumber d) (OwnerID d) (PropertyAddress d) (PropertyType d)
         (LandArea d) (LandAreaUnit d) (IPFSHash d) (Status d)
         (VerificationStatus d) (CreatedAt d) v (VerifiedAt d) (VerifiedBy d).

Definition set_tID (v : string) (t : Transfer) : Transfer :=
  mkTransfer v (tDeedID t) (FromOwnerID t) (ToOwnerID t) (TransferReason t)
             (TransferDate t) (tCreatedAt t).

Definition set_tCreatedAt (v : Time) (t : Transfer) : Transfer :=
  mkTransfer (tID t) (tDeedID t) (FromOwnerID t) (ToOwnerID t)
             (TransferReason t) (TransferDate t) v.

(** ** World state

    The world state maps keys to byte values.  The contract writes three
    kinds of values: [json.Marshal(deed)], [json.Marshal(transfer)] and the
    bare bytes of a deed identifier (the deed-number index).  A value is
    represented by what was marshalled into it. *)
Inductive Doc :=
| DeedJSON (d : Deed)
| TransferJSON (t : Transfer)
| Raw (s : string).

(** [json.Unmarshal(bytes, &deed)].  A marshalled deed reads back as itself.
    A marshalled transfer is a JSON object too: the keys it shares with
    [Deed] ("id", "createdAt") are taken, every other field keeps its zero
    value.  Bare identifier bytes are read as an identifier that is not
    itself JSON text: one that spells [null] or a JSON object decodes
    without error, and is not covered here. *)
Definition unmarshalDeed (v : Doc) : string + Deed :=
  match v with
  | DeedJSON d => inr d
  | TransferJSON t =>
      inr (mkDeed (tID t) "" "" "" "" 0 "" "" "" "" (tCreatedAt t) zeroTime None "")
  | Raw _ => inl "invalid character looking for beginning of value"
  end.

(** The transaction context: the committed world state the transaction
    reads from, the writes it has issued so far (applied only if the
    transaction returns without error), and the clock behind [time.Now()]:
    reading number [n] of the transaction yields [clock n]. *)
Record Ctx := mkCtx {
  committed : gmap string Doc;
  writes : list (string * Doc);
  clock : nat -> Time;
  tick : nat
}.

(** Contract code runs in an error-and-state monad over [Ctx]; the left
    injection carries the message of the returned Go [error]. *)
Definition M (A : Type) : Type := Ctx -> (string + A) * Ctx.

Definition ret {A} (a : A) : M A := fun c => (inr a, c).
Definition fail {A} (e : string) : M A := fun c => (inl e, c).
Definition bind {A B} (m : M A) (k : A -> M B) : M B :=
  fun c => match m c with
           | (inl e, c') => (inl e, c')
           | (inr a, c') => k a c'
           end.

Notation "'let*' x ':=' m 'in' k" := (bind m (fun x => k))
  (at level 10, x name, m at level 100, k at level 200).
Notation "'do' m 'then' k" := (bind m (fun _ => k))
  (at level 10, m at level 100, k at level 200).

(** [ctx.GetStub().GetState(key)]: reads the committed state. *)
Definition GetState (key : string) : M (option Doc) :=
  fun c => (inr (committed c !! key), c).

(** [ctx.GetStub().PutState(key, value)]: the shim refuses the empty key,
    any other write is recorded in the transaction's write set. *)
Definition PutState (key : string) (v : Doc) : M unit :=
  fun c =>
    if decide (key = "") then (inl "key must not be an empty string", c)
    else (inr tt, mkCtx (committed c) (writes c ++ [(key, v)]) (clock c) (tick c)).

(** [time.Now()]. *)
Definition Now : M Time :=
  fun c => (inr (clock c (tick c)),
            mkCtx (committed c) (writes c) (clock c) (S (tick c))).

Fixpoint has_char (a : ascii) (s : string) : bool :=
  match s with
  | EmptyString => false
  | String b s' => if decide (a = b) then true else has_char a s'
  end.

Definition NUL : string := String "000"%char EmptyString.

(** U+10FFFF in UTF-8. *)
Definition maxUnicodeRune : string :=
  String "244"%char (String "143"%char (String "191"%char (String "191"%char EmptyString))).

(** The shim's check of one part of a composite key: neither U+0000 nor
    U+10FFFF may occur in it. *)
Definition validCompositeKeyAttribute (s : string) : bool :=
  negb (has_char "000"%char s)
  && negb (bool_decide (is_Some (String.index 0 maxUnicodeRune s))).

(** [ctx.GetStub().CreateCompositeKey(objectType, []string{attr})]: both
    parts are checked; the key is the parts, each closed by U+0000, behind
    a leading U+0000. *)
Definition CreateCompositeKey (objectType attr : string) : M string :=
  if validCompositeKeyAttribute objectType && validCompositeKeyAttribute attr
  then ret (NUL +:+ objectType +:+ NUL +:+ attr +:+ NUL)
  else fail "invalid composite key attribute".

(** Committing a write set: writes are applied in the order issued. *)
Definition apply_writes (ws : list (string * Doc)) (w : gmap string Doc)
  : gmap string Doc :=
  foldl (fun m kv => <[kv.1 := kv.2]> m) w ws.

(** Submitting a transaction against world state [w]: a transaction that
    returns an error commits nothing. *)
Definition submit (tx : M unit) (clk : nat -> Time) (w : gmap string Doc)
  : option string * gmap string Doc :=
  match tx (mkCtx w [] clk 0%nat) with
  | (inl e, _) => (Some e, w)
  | (inr _, c) => (None, apply_writes (writes c) w)
  end.

(** ** Contract functions *)

(** [DeedExists]. *)
Definition DeedExists (deedID : string) : M bool :=
  let* deedJSON := GetState deedID in
  ret (bool_decide (deedJSON <> None)).

(** [CreateDeed].  The argument is the result of
    [json.Unmarshal([]byte(deedData), &deed)]: [None] when the text does not
    unmarshal into a [Deed]. *)
Definition CreateDeed (deedData : option Deed) : M unit :=
  match deedData with
  | None => fail "failed to unmarshal deed data"
  | Some deed =>
      let* exists_ := DeedExists (ID deed) in
      if (exists_ : bool)
      then fail ("deed with ID " +:+ ID deed +:+ " already exists")
      else
        let* now := Now in
        let deed := set_CreatedAt now deed in
        let deed := set_UpdatedAt now deed in
        let deed := set_Status "pending" deed in
        let deed := set_VerificationStatus "pending" deed in
        do PutState (ID deed) (DeedJSON deed) then
        let* deedNumberKey := CreateCompositeKey "deedNumber" (DeedNumber deed) in
        PutState deedNumberKey (Raw (ID deed))
  end.

(** [GetDeed]. *)
Definition GetDeed (deedID : string) : M Deed :=
  let* deedJSON := GetState deedID in
  match deedJSON with
  | None => fail ("deed " +:+ deedID +:+ " does not exist")
  | Some v =>
      match unmarshalDeed v with
      | inl e => fail e
      | inr deed => ret deed
      end
  end.

(** The message of the ownership guard of [TransferDeed]. *)
Definition OwnershipMismatch : string :=
  "current owner does not match transfer from owner".

(** [fmt.Sprintf("transfer_%s_%d", deedID, unix)]. *)
Definition transferKey (deedID : string) (unix : Z) : string :=
  "transfer_" +:+ deedID +:+ "_" +:+ pretty unix.

(** [TransferDeed].  The argument is the result of unmarshalling
    [transferData] into a [Transfer]. *)
Definition TransferDeed (transferData : option Transfer) : M unit :=
  match transferData with
  | None => fail "failed to unmarshal transfer data"
  | Some transfer =>
      let* deed := GetDeed (tDeedID transfer) in
      if decide (OwnerID deed <> FromOwnerID transfer)
      then fail OwnershipMismatch
      else
        let deed := set_OwnerID (ToOwnerID transfer) deed in
        let deed := set_Status "transferred" deed in
        let* now1 := Now in
        let deed := set_UpdatedAt now1 deed in
        do PutState (tDeedID transfer) (DeedJSON deed) then
        let* now2 := Now in
        let transfer := set_tID (transferKey (tDeedID transfer) (Unix now2)) transfer in
        let* now3 := Now in
        let transfer := set_tCreatedAt now3 transfer in
        PutState (tID transfer) (TransferJSON transfer)
  end.

End Chaincode.

(* ===================================================================== *)
(** * JavaScript values                                                   *)
(* ===================================================================== *)

Module JS.

(** The JSON-shaped values that cross the service boundaries: envelopes
    returned by the gateway, response bodies, contract arguments.  Numbers
    that occur are integers (clock readings, sizes, keys).  A database
    timestamp placed in a body is carried as its instant, and an integer
    column as its number, whatever text they take on the wire. *)
#[local] Unset Elimination Schemes.
Inductive Value :=
| Null
| Bool (b : bool)
| Num (z : Z)
| Str (s : string)
| Arr (items : list Value)
| Obj (members : list (string * Value)).
#[local] Set Elimination Schemes.

(** [v.k] on an object: the first member named [k]. *)
Definition field (k : string) (v : Value) : option Value :=
  match v with
  | Obj ms => snd <$> List.find (fun kv => bool_decide (kv.1 = k)) ms
  | _ => None
  end.

(** [Object.keys(v)]. *)
Definition keys (v : Value) : list string :=
  match v with
  | Obj ms => map fst ms
  | _ => []
  end.

Definition of_option (o : option string) : Value :=
  match o with Some s => Str s | None => Null end.

(** The runtime functions the services call and whose text output is not
    reproduced here: [JSON.stringify], [JSON.parse] ([None] when it
    throws) and [Date.prototype.toISOString] of an instant in ms. *)
Record Runtime := mkRuntime {
  JSON_stringify : Value -> string;
  JSON_parse : string -> option Value;
  toISOString : Z -> string
}.

(** A thrown [Error] (its message) or a returned value. *)
Definition Result (A : Type) : Type := string + A.

End JS.

(* ===================================================================== *)
(** * The ledger gateway (BlockchainService.js)                           *)
(* ===================================================================== *)

Module BlockchainService.
Import JS.

(** The fabric-network [Contract] handle over a ledger of type [L]:
    [submitTransaction] may change the ledger and yields the result bytes
    as text or throws; [evaluateTransaction] only reads. *)
Record Contract (L : Type) := mkContract {
  submitTransaction : string -> list Value -> L -> Result string * L;
  evaluateTransaction : string -> list Value -> L -> Result string
}.
Arguments submitTransaction {L}.
Arguments evaluateTransaction {L}.

(** [class BlockchainService]: [this.mockMode] and [this.contract]
    ([None] is [null]). *)
Record Service (L : Type) := mkService {
  mockMode : bool;
  contract : option (Contract L)
}.
Arguments mockMode {L}.
Arguments contract {L}.

(** The object literal the create route passes to [createDeed]. *)
Record DeedData := mkDeedData {
  deedNumber : string;
  ownerId : Z;
  propertyAddress : string;
  documentHash : option string;
  createdBy : Z;
  timestamp : string
}.

Definition DeedData_value (d : DeedData) : Value :=
  Obj [("deedNumber", Str (deedNumber d)); ("ownerId", Num (ownerId d));
       ("propertyAddress", Str (propertyAddress d));
       ("documentHash", of_option (documentHash d));
       ("createdBy", Num (createdBy d)); ("timestamp", Str (timestamp d))].

(** The object literal the verify route passes to [verifyDeed]. *)
Record VerificationData := mkVerificationData {
  verifierId : Z;
  verificationResult : string;
  notes : Value;
  vtimestamp : string
}.

Definition VerificationData_value (d : VerificationData) : Value :=
  Obj [("verifierId", Num (verifierId d));
       ("verificationResult", Str (verificationResult d));
       ("notes", notes d); ("timestamp", Str (vtimestamp d))].

Definition null_contract : string :=
  "Cannot read properties of null".

Section Methods.
Context {L : Type} (rt : Runtime).

(** [createDeed(deedData)].  [now] is the reading of [Date.now()] and
    [draw] the value of [Math.floor(Math.random() * 1000)], both taken only
    in mock mode. *)
Definition createDeed (this : Service L) (deedData : DeedData)
    (now draw : Z) (l : L) : Result Value * L :=
  if mockMode this then
    (inr (Obj [("transactionId", Str ("mock_tx_" +:+ pretty now));
               ("blockNumber", Num draw);
               ("success", Bool true)]), l)
  else
    match contract this with
    | None => (inl null_contract, l)
    | Some c =>
        match submitTransaction c "CreateDeed"
                [Str (deedNumber deedData); Num (ownerId deedData);
                 Str (propertyAddress deedData);
                 of_option (documentHash deedData);
                 Str (JSON_stringify rt (DeedData_value deedData))] l with
        | (inl e, l') => (inl e, l')
        | (inr result, l') =>
            (inr (Obj [("transactionId", Str result); ("success", Bool true)]), l')
        end
    end.

(** [getDeed(deedNumber)].  [now] is the instant of [new Date()]. *)
Definition getDeed (this : Service L) (deedNumber : string) (now : Z) (l : L)
  : Result Value :=
  if mockMode this then
    inr (Obj [("deedNumber", Str deedNumber);
              ("owner", Str "Mock Owner");
              ("status", Str "verified");
              ("timestamp", Str (toISOString rt now))])
  else
    match contract this with
    | None => inl null_contract
    | Some c =>
        match evaluateTransaction c "GetDeed" [Str deedNumber] l with
        | inl e => inl e
        | inr result =>
            match JSON_parse rt result with
            | Some v => inr v
            | None => inl "Unexpected token in JSON"
            end
        end
    end.

(** [verifyDeed(deedNumber, verificationData)].  [now] is the reading of
    [Date.now()], [now'] the instant of [new Date()]. *)
Definition verifyDeed (this : Service L) (deedNumber : string)
    (verificationData : VerificationData) (now now' : Z) (l : L)
  : Result Value * L :=
  if mockMode this then
    (inr (Obj [("transactionId", Str ("mock_verification_" +:+ pretty now));
               ("verified", Bool true);
               ("timestamp", Str (toISOString rt now'))]), l)
  else
    match contract this with
    | None => (inl null_contract, l)
    | Some c =>
        match submitTransaction c "VerifyDeed"
                [Str deedNumber; Num (verifierId verificationData);
                 Str (verificationResult verificationData);
                 Str (JSON_stringify rt (VerificationData_value verificationData))] l with
        | (inl e, l') => (inl e, l')
        | (inr result, l') =>
            (inr (Obj [("transactionId", Str result); ("verified", Bool true)]), l')
        end
    end.

End Methods.

End BlockchainService.

(* ===================================================================== *)
(** * The document store (IPFSService.js)                                 *)
(* ===================================================================== *)

Module IPFSService.
Import JS.

(** The ipfs-http-client handle: [add] yields the CID text and the size or
    throws; [cat] yields the chunks of the content or throws. *)
Record Client := mkClient {
  add : string -> list byte -> Value -> Result (string * Z);
  cat : string -> Result (list (list byte))
}.

(** [class IPFSService]: [this.ipfs] and [this.initialized]. *)
Record Service := mkService {
  ipfs : option Client;
  initialized : bool
}.

(** The object [uploadFile] and [uploadBuffer] return. *)
Record Upload := mkUpload {
  hash : string;
  size : Z;
  path : string;
  mock : bool
}.

Definition Upload_value (u : Upload) : Value :=
  Obj [("hash", Str (hash u)); ("size", Num (size u));
       ("path", Str (path u)); ("mock", Bool (mock u))].

Definition null_client : string := "Cannot read properties of null".

(** ['Qm' + crypto.randomBytes(32).toString('hex')], [random] being the
    bytes drawn. *)
Definition mockHash (random : list byte) : string :=
  "Qm" +:+ Hex.encode random.

(** [path.basename(filePath)]: the part after the last '/'. *)
Fixpoint basename_go (acc s : string) : string :=
  match s with
  | EmptyString => acc
  | String a s' =>
      if decide (a = "/"%char) then basename_go "" s'
      else basename_go (acc +:+ String a EmptyString) s'
  end.
Definition basename (p : string) : string := basename_go "" p.

(** [uploadFile(filePath, metadata)] over the local files [files]. *)
Definition uploadFile (this : Service) (files : gmap string (list byte))
    (filePath : string) (metadata : Value) (random : list byte)
  : Result Upload :=
  if negb (initialized this) then
    match files !! filePath with
    | None => inl "ENOENT: no such file or directory"
    | Some content =>
        inr (mkUpload (mockHash random) (Z.of_nat (length content))
                      ("/ipfs/" +:+ mockHash random) true)
    end
  else
    match files !! filePath with
    | None => inl "ENOENT: no such file or directory"
    | Some fileBuffer =>
        match ipfs this with
        | None => inl null_client
        | Some client =>
            match add client (basename filePath) fileBuffer metadata with
            | inl e => inl e
            | inr (cid, sz) => inr (mkUpload cid sz ("/ipfs/" +:+ cid) false)
            end
        end
    end.

(** [uploadBuffer(buffer, filename, metadata)]. *)
Definition uploadBuffer (this : Service) (buffer : list byte)
    (filename : string) (metadata : Value) (random : list byte)
  : Result Upload :=
  if negb (initialized this) then
    inr (mkUpload (mockHash random) (Z.of_nat (length buffer))
                  ("/ipfs/" +:+ mockHash random) true)
  else
    match ipfs this with
    | None => inl null_client
    | Some client =>
        match add client filename buffer metadata with
        | inl e => inl e
        | inr (cid, sz) => inr (mkUpload cid sz ("/ipfs/" +:+ cid) false)
        end
    end.

Definition not_initialized_get : string :=
  "IPFS not initialized - cannot retrieve file".

(** [getFileBuffer(ipfsHash)]: [Buffer.concat] of the chunks. *)
Definition getFileBuffer (this : Service) (ipfsHash : string)
  : Result (list byte) :=
  if negb (initialized this) then inl not_initialized_get
  else
    match ipfs this with
    | None => inl null_client
    | Some client =>
        match cat client ipfsHash with
        | inl e => inl e
        | inr chunks => inr (concat chunks)
        end
    end.

(** [generateBufferHash(buffer)]. *)
Definition generateBufferHash (buffer : list byte) : string :=
  Sha256.sha256_hex buffer.

End IPFSService.

(* ===================================================================== *)
(** * The relational store                                                *)
(* ===================================================================== *)

Module Database.

(** ** Column types (001_initial_schema.sql)

    A text is held as its UTF-8 bytes.  A character is a byte that is not
    a continuation byte together with the continuation bytes that follow
    it. *)
Definition continuation (a : ascii) : bool :=
  let n := N_of_ascii a in ((128 <=? n) && (n <? 192))%N.

(** [char_length(s)]. *)
Fixpoint char_length (s : string) : nat :=
  match s with
  | EmptyString => 0%nat
  | String a s' =>
      ((if continuation a then 0 else 1) + char_length s')%nat
  end.

(** The first [n] characters of a text, and what follows them. *)
Fixpoint take_chars (n : nat) (s : string) : string :=
  match s with
  | EmptyString => EmptyString
  | String a s' =>
      if continuation a then String a (take_chars n s')
      else match n with
           | O => EmptyString
           | S n' => String a (take_chars n' s')
           end
  end.

Fixpoint drop_chars (n : nat) (s : string) : string :=
  match s with
  | EmptyString => EmptyString
  | String a s' =>
      if continuation a then drop_chars n s'
      else match n with
           | O => s
           | S n' => drop_chars n' s'
           end
  end.

Fixpoint all_spaces (s : string) : bool :=
  match s with
  | EmptyString => true
  | String a s' => bool_decide (a = " "%char) && all_spaces s'
  end.

(** Assignment of a text to a [VARCHAR(n)] column: a text of at most [n]
    characters is stored as it is; a longer one is an error, unless all
    the characters past the [n]-th are spaces, in which case the first
    [n] characters are stored. *)
Definition varchar (n : nat) (s : string) : option string :=
  if (char_length s <=? n)%nat then Some s
  else if all_spaces (drop_chars n s) then Some (take_chars n s)
  else None.

(** The same for a parameter that may be NULL. *)
Definition varchar_null (n : nat) (o : option string) : option (option string) :=
  match o with
  | None => Some None
  | Some s => Some <$> varchar n s
  end.

(** A text the server takes as a parameter: one without the NUL
    character.  A parameter with one is refused when the parameters are
    read, before the statement runs. *)
Fixpoint nul_free (s : string) : bool :=
  match s with
  | EmptyString => true
  | String a s' => negb (bool_decide (a = "000"%char)) && nul_free s'
  end.

Definition nul_free_null (o : option string) : bool :=
  match o with
  | None => true
  | Some s => nul_free s
  end.

(** A text parameter, which may be NULL, assigned to a [VARCHAR(n)]
    column. *)
Definition assign (n : nat) (o : option string) : option (option string) :=
  if nul_free_null o then varchar_null n o else None.

(** The values of [INTEGER] and of a [SERIAL] key. *)
Definition integer (z : Z) : bool :=
  ((-2147483648 <=? z) && (z <=? 2147483647))%Z.

(** A row of [users], with the columns the routes select. *)
Record UserRow := mkUserRow {
  usr_id : Z;
  username : string;
  usr_email : string;
  usr_role : string;
  full_name : option string;
  is_active : bool
}.

(** A row of [deeds].  Columns a route always fills, or that carry a
    default, are plain; the others are nullable. *)
Record DeedRow := mkDeedRow {
  id : Z;
  deed_number : string;
  title : string;
  description : option string;
  owner_id : Z;
  property_address : string;
  survey_plan_number : option string;
  extent : string;
  boundaries : option string;
  document_hash : option string;
  ipfs_hash : option string;
  blockchain_transaction_id : option string;
  verification_status : string;
  created_by : Z;
  verified_by : option Z;
  created_at : Z;
  updated_at : Z
}.

(** A row of [verification_logs]. *)
Record LogRow := mkLogRow {
  log_id : Z;
  log_deed_id : Z;
  log_verified_by : Z;
  verification_type : string;
  verification_result : string;
  log_notes : option string;
  log_created_at : Z
}.

(** A row of [land_deeds], with the columns the verification routes read. *)
Record LandDeed := mkLandDeed {
  ld_id : string;
  ld_deed_number : string;
  ld_owner_id : string;
  ld_verification_status : string;
  ld_transaction_hash : option string
}.

(** A row of [verification_requests]. *)
Record VRequest := mkVRequest {
  vr_id : string;
  vr_deed_id : string;
  requester_id : string;
  request_type : string;
  request_details : option string;
  vr_status : string;
  response_details : option string;
  processed_at : option Z;
  processed_by : option string;
  vr_created_at : Z
}.

(** The database: each keyed table is a finite map from its primary key;
    [deeds_seq] and [logs_seq] are the SERIAL sequences; the log table is
    only ever appended to and is kept in insertion order. *)
Record DB := mkDB {
  deeds : gmap Z DeedRow;
  deeds_seq : Z;
  verification_logs : list LogRow;
  logs_seq : Z;
  land_deeds : gmap string LandDeed;
  verification_requests : gmap string VRequest
}.

Definition empty : DB := mkDB ∅ 0 [] 0 ∅ ∅.

Definition with_deeds (m : gmap Z DeedRow) (d : DB) : DB :=
  mkDB m (deeds_seq d) (verification_logs d) (logs_seq d) (land_deeds d)
       (verification_requests d).

Definition with_requests (m : gmap string VRequest) (d : DB) : DB :=
  mkDB (deeds d) (deeds_seq d) (verification_logs d) (logs_seq d)
       (land_deeds d) m.

(** [SELECT id FROM deeds WHERE deed_number = $1]. *)
Definition select_deeds_by_number (n : string) (d : DB) : gmap Z DeedRow :=
  filter (fun kv => deed_number kv.2 = n) (deeds d).

(** The row an INSERT into [deeds] stores under [key]: every VARCHAR
    column holds its text as [varchar] assigns it, [verification_status]
    takes its default, both timestamps are CURRENT_TIMESTAMP.  [None] when
    a column refuses its text. *)
Definition new_deed_row (key : Z) (number title : string)
    (description : option string) (owner_id : Z) (property_address : string)
    (survey_plan_number : option string) (extent : string)
    (boundaries document_hash ipfs_hash : option string) (created_by : Z)
    (now : Z) : option DeedRow :=
  number ← varchar 100 number;
  title ← varchar 255 title;
  survey ← varchar_null 100 survey_plan_number;
  extent ← varchar 100 extent;
  document_hash ← varchar_null 255 document_hash;
  ipfs_hash ← varchar_null 255 ipfs_hash;
  Some (mkDeedRow key number title description owner_id property_address
                  survey extent boundaries document_hash ipfs_hash None
                  "pending" created_by None now now).

(** [INSERT INTO deeds (...) VALUES (...) RETURNING *] with [users] the
    table the two references point into.  An integer parameter outside
    INTEGER and a text parameter with a NUL character are refused when the
    parameters are read, and so is a key past the end of the sequence: the
    sequence stays.  Past that the key is
    drawn, and the sequence has advanced even when the row is refused:
    when a VARCHAR column refuses its text, when the key or the deed
    number (UNIQUE) is taken, when [owner_id] or [created_by] names no
    row of [users]. *)
Definition insert_deed (users : gmap Z UserRow) (number title : string)
    (description : option string) (owner_id : Z) (property_address : string)
    (survey_plan_number : option string) (extent : string)
    (boundaries document_hash ipfs_hash : option string) (created_by : Z)
    (now : Z) (d : DB) : option DeedRow * DB :=
  let key := deeds_seq d + 1 in
  if negb (integer owner_id && integer created_by && integer key
           && nul_free number && nul_free title && nul_free_null description
           && nul_free property_address && nul_free_null survey_plan_number
           && nul_free extent && nul_free_null boundaries
           && nul_free_null document_hash && nul_free_null ipfs_hash)
  then (None, d)
  else
    let d' := mkDB (deeds d) key (verification_logs d) (logs_seq d)
                   (land_deeds d) (verification_requests d) in
    match new_deed_row key number title description owner_id
            property_address survey_plan_number extent boundaries
            document_hash ipfs_hash created_by now with
    | None => (None, d')
    | Some row =>
        if decide (is_Some (deeds d !! key)) then (None, d')
        else if decide (select_deeds_by_number (deed_number row) d <> ∅)
        then (None, d')
        else if negb (bool_decide (is_Some (users !! owner_id))
                      && bool_decide (is_Some (users !! created_by)))
        then (None, d')
        else (Some row, with_deeds (<[key := row]> (deeds d)) d')
    end.

Definition set_blockchain_transaction_id (tx : option string) (now : Z)
    (r : DeedRow) : DeedRow :=
  mkDeedRow (id r) (deed_number r) (title r) (description r) (owner_id r)
            (property_address r) (survey_plan_number r) (extent r)
            (boundaries r) (document_hash r) (ipfs_hash r) tx
            (verification_status r) (created_by r) (verified_by r)
            (created_at r) now.

(** [UPDATE deeds SET blockchain_transaction_id = $1 WHERE id = $2] once
    the VARCHAR(255) column has taken the text; the update trigger stamps
    [updated_at]. *)
Definition update_blockchain_transaction_id (tx : option string) (key : Z)
    (now : Z) (d : DB) : DB :=
  with_deeds (alter (set_blockchain_transaction_id tx now) key (deeds d)) d.

Definition set_verification (result : string) (by_ : Z) (now : Z)
    (r : DeedRow) : DeedRow :=
  mkDeedRow (id r) (deed_number r) (title r) (description r) (owner_id r)
            (property_address r) (survey_plan_number r) (extent r)
            (boundaries r) (document_hash r) (ipfs_hash r)
            (blockchain_transaction_id r) result (created_by r) (Some by_)
            (created_at r) now.

(** [UPDATE deeds SET verification_status = $1, verified_by = $2,
    updated_at = CURRENT_TIMESTAMP WHERE id = $3]. *)
Definition update_verification (result : string) (by_ : Z) (key : Z)
    (now : Z) (d : DB) : DB :=
  with_deeds (alter (set_verification result by_ now) key (deeds d)) d.

(** [INSERT INTO verification_logs (deed_id, verified_by,
    verification_type, verification_result, notes) VALUES (...)]. *)
Definition insert_log (deed_id by_ : Z) (type result : string)
    (notes : option string) (now : Z) (d : DB) : DB :=
  let key := logs_seq d + 1 in
  mkDB (deeds d) (deeds_seq d)
       (verification_logs d ++ [mkLogRow key deed_id by_ type result notes now])
       key (land_deeds d) (verification_requests d).

Definition quote : string := String "034"%char EmptyString.

Definition invalid_byte : string :=
  "invalid byte sequence for encoding " +:+ quote +:+ "UTF8" +:+ quote
  +:+ ": 0x00".

Definition too_long (n : string) : string :=
  "value too long for type character varying(" +:+ n +:+ ")".

Definition dangling (column : string) : string :=
  "insert or update on table " +:+ quote +:+ "verification_logs" +:+ quote
  +:+ " violates foreign key constraint " +:+ quote +:+ "verification_logs_"
  +:+ column +:+ "_fkey" +:+ quote.

(** The same INSERT with parameters no handler has checked, [users] being
    the table [verified_by] points into: the error it throws, if any, and
    the database it leaves.  A text with a NUL character is refused when
    the parameters are read.  Past that the key is drawn first, so the
    sequence has advanced when a VARCHAR column refuses its text or a
    reference dangles. *)
Definition try_insert_log (users : gmap Z UserRow) (deed_id by_ : Z)
    (type result : string) (notes : option string) (now : Z) (d : DB)
  : option string * DB :=
  let key := logs_seq d + 1 in
  if negb (nul_free type && nul_free result && nul_free_null notes) then
    (Some invalid_byte, d)
  else if negb (integer key) then
    (Some "nextval: reached maximum value of sequence", d)
  else
    let d' := mkDB (deeds d) (deeds_seq d) (verification_logs d) key
                   (land_deeds d) (verification_requests d) in
    match varchar 100 type, varchar 50 result with
    | None, _ => (Some (too_long "100"), d')
    | _, None => (Some (too_long "50"), d')
    | Some type, Some result =>
        if negb (bool_decide (is_Some (deeds d !! deed_id))) then
          (Some (dangling "deed_id"), d')
        else if negb (bool_decide (is_Some (users !! by_))) then
          (Some (dangling "verified_by"), d')
        else (None, insert_log deed_id by_ type result notes now d)
    end.

(** [SELECT id FROM verification_requests WHERE deed_id = $1 AND
    request_type = $2 AND status = 'pending']. *)
Definition select_pending_requests (deed_id type : string) (d : DB)
  : gmap string VRequest :=
  filter (fun kv => vr_deed_id kv.2 = deed_id /\ request_type kv.2 = type
                    /\ vr_status kv.2 = "pending")
         (verification_requests d).

(** [INSERT INTO verification_requests (deed_id, requester_id,
    request_type, request_details, status) VALUES (...)] with the generated
    key [key]; refused when the key is taken. *)
Definition insert_request (key deed_id requester type : string)
    (details : option string) (status : string) (now : Z) (d : DB)
  : option (VRequest * DB) :=
  let row := mkVRequest key deed_id requester type details status None None
                        None now in
  if decide (is_Some (verification_requests d !! key)) then None
  else Some (row, with_requests (<[key := row]> (verification_requests d)) d).

Definition set_processed (status : string) (response : option string)
    (now : Z) (by_ : string) (r : VRequest) : VRequest :=
  mkVRequest (vr_id r) (vr_deed_id r) (requester_id r) (request_type r)
             (request_details r) status response (Some now) (Some by_)
             (vr_created_at r).

(** [UPDATE verification_requests SET status = $1, response_details = $2,
    processed_at = CURRENT_TIMESTAMP, processed_by = $3 WHERE id = $4]. *)
Definition update_request (status : string) (response : option string)
    (now : Z) (by_ : string) (key : string) (d : DB) : DB :=
  with_requests
    (alter (set_processed status response now by_) key (verification_requests d)) d.

End Database.

(** An HTTP response: status code and JSON body. *)
Record Response := mkResponse {
  status : Z;
  body : JS.Value
}.

(* ===================================================================== *)
(** * The deed routes (routes/deeds.js)                                   *)
(* ===================================================================== *)

Module DeedRoutes.
Import JS Database.

(** What the route handlers act on: the database, the ledger behind the
    gateway, and the upload directory. *)
Record World (L : Type) := mkWorld {
  db : DB;
  ledger : L;
  files : gmap string (list byte)
}.
Arguments mkWorld {L}.
Arguments db {L}.
Arguments ledger {L}.
Arguments files {L}.

(** What a handler draws from its surroundings while it runs: the clock
    ([clock n] is the reading at the handler's [n]-th reading site), the
    bytes of [crypto.randomBytes(32)] and the value of
    [Math.floor(Math.random() * 1000)]. *)
Record Env := mkEnv {
  clock : nat -> Z;
  random : list byte;
  draw : Z
}.

(** [req.body] of POST /create.  [owner_id] is [Some z] when the field is
    the text of the integer [z] (what [isInt()] accepts). *)
Record CreateBody := mkCreateBody {
  b_deed_number : option string;
  b_title : option string;
  b_description : option string;
  b_owner_id : option Z;
  b_property_address : option string;
  b_survey_plan_number : option string;
  b_extent : option string;
  b_boundaries : option string
}.

(** [body(f).notEmpty()]. *)
Definition notEmpty (f : option string) : bool :=
  match f with
  | Some s => negb (bool_decide (s = ""))
  | None => false
  end.

Definition check (ok : bool) (msg : string) : list string :=
  if ok then [] else [msg].

(** The validation chain of POST /create, as [validationResult(req)]. *)
Definition validate_create (b : CreateBody) : list string :=
  check (notEmpty (b_deed_number b)) "Deed number is required" ++
  check (notEmpty (b_title b)) "Title is required" ++
  check (bool_decide (is_Some (b_owner_id b))) "Valid owner ID is required" ++
  check (notEmpty (b_property_address b)) "Property address is required" ++
  check (notEmpty (b_extent b)) "Property extent is required".

(** [errors.array()], each error reduced to its message. *)
Definition errors_value (errors : list string) : Value :=
  Arr (map (fun m => Obj [("msg", Str m)]) errors).

Definition of_optionZ (o : option Z) : Value :=
  match o with Some z => Num z | None => Null end.

(** A [deeds] row as the JSON object of [RETURNING *]. *)
Definition DeedRow_value (r : DeedRow) : Value :=
  Obj [("id", Num (id r)); ("deed_number", Str (deed_number r));
       ("title", Str (title r)); ("description", of_option (description r));
       ("owner_id", Num (owner_id r));
       ("property_address", Str (property_address r));
       ("survey_plan_number", of_option (survey_plan_number r));
       ("extent", Str (extent r)); ("boundaries", of_option (boundaries r));
       ("document_hash", of_option (document_hash r));
       ("ipfs_hash", of_option (ipfs_hash r));
       ("blockchain_transaction_id", of_option (blockchain_transaction_id r));
       ("verification_status", Str (verification_status r));
       ("created_by", Num (created_by r));
       ("verified_by", of_optionZ (verified_by r));
       ("created_at", Num (created_at r)); ("updated_at", Num (updated_at r))].

(** [blockchainResult.transactionId] as a query parameter. *)
Definition transactionId (result : Value) : option string :=
  match field "transactionId" result with
  | Some (Str s) => Some s
  | _ => None
  end.

Definition server_error (msg : string) : Response :=
  mkResponse 500 (Obj [("error", Str msg)]).

Section Handlers.
Context {L : Type} (rt : Runtime).
Context (BlockchainService : BlockchainService.Service L).
Context (IPFSService : IPFSService.Service).

(** The [users] table, which none of these routes writes. *)
Context (users : gmap Z UserRow).

(** The "Process uploaded document" block of POST /create: the local
    hash first, then the upload, whose failure is swallowed, then the
    removal of the local file.  An object bound to a text parameter is
    sent as its JSON text. *)
Definition process_document (file : option string) (env : Env)
    (fs : gmap string (list byte))
  : Result (option string * option string * gmap string (list byte)) :=
  match file with
  | None => inr (None, None, fs)
  | Some path =>
      match fs !! path with
      | None => inl "ENOENT: no such file or directory"
      | Some fileBuffer =>
          let document_hash := Sha256.sha256_hex fileBuffer in
          let ipfs_hash :=
            match IPFSService.uploadFile IPFSService fs path (Obj []) (random env) with
            | inr up => Some (JSON_stringify rt (IPFSService.Upload_value up))
            | inl _ => None
            end in
          inr (Some document_hash, ipfs_hash, delete path fs)
      end
  end.

(** POST /create, after the role and upload middleware: [user] is
    [req.user.id], [file] is [req.file.path].  A SELECT that throws (its
    parameter has a NUL character) is answered 500.  An UPDATE that throws is
    caught together with a gateway call that throws: the answer is the
    inserted row as it is.  Clock sites: 0 the INSERT, 1 [new Date()],
    2 [Date.now()] of the mock gateway, 3 the UPDATE. *)
Definition create (user : Z) (b : CreateBody) (file : option string)
    (env : Env) (w : World L) : Response * World L :=
  let errors := validate_create b in
  if negb (bool_decide (errors = [])) then
    (mkResponse 400 (Obj [("errors", errors_value errors)]), w)
  else
    let deed_number := default "" (b_deed_number b) in
    let title := default "" (b_title b) in
    let owner_id := default 0 (b_owner_id b) in
    let property_address := default "" (b_property_address b) in
    let extent := default "" (b_extent b) in
    if negb (nul_free deed_number) then (server_error "Failed to create deed", w)
    else
    let existingDeed := select_deeds_by_number deed_number (db w) in
    if decide (0 < size existingDeed)%nat then
      (mkResponse 409 (Obj [("error", Str "Deed with this number already exists")]), w)
    else
      match process_document file env (files w) with
      | inl _ => (server_error "Failed to create deed", w)
      | inr (document_hash, ipfs_hash, fs) =>
          match insert_deed users deed_number title (b_description b) owner_id
                  property_address (b_survey_plan_number b) extent
                  (b_boundaries b) document_hash ipfs_hash user
                  (clock env 0%nat) (db w) with
          | (None, db1) =>
              (server_error "Failed to create deed", mkWorld db1 (ledger w) fs)
          | (Some deed, db1) =>
              match BlockchainService.createDeed rt BlockchainService
                      (BlockchainService.mkDeedData deed_number owner_id
                         property_address document_hash user
                         (toISOString rt (clock env 1%nat)))
                      (clock env 2%nat) (draw env) (ledger w) with
              | (inr blockchainResult, l) =>
                  let tx := transactionId blockchainResult in
                  match assign 255 tx with
                  | Some stored =>
                      let db2 := update_blockchain_transaction_id stored (id deed)
                                   (clock env 3%nat) db1 in
                      let deed :=
                        set_blockchain_transaction_id tx (updated_at deed) deed in
                      (mkResponse 201
                         (Obj [("message", Str "Deed created successfully");
                               ("deed", DeedRow_value deed)]),
                       mkWorld db2 l fs)
                  | None =>
                      (mkResponse 201
                         (Obj [("message", Str "Deed created successfully");
                               ("deed", DeedRow_value deed)]),
                       mkWorld db1 l fs)
                  end
              | (inl _, l) =>
                  (mkResponse 201
                     (Obj [("message", Str "Deed created successfully");
                           ("deed", DeedRow_value deed)]),
                   mkWorld db1 l fs)
              end
          end
      end.

(** [req.body] of POST /:id/verify. *)
Record VerifyBody := mkVerifyBody {
  b_verification_result : option string;
  b_notes : option Value
}.

Definition isString (v : Value) : bool :=
  match v with Str _ => true | _ => false end.

Definition validate_verify (b : VerifyBody) : list string :=
  check (bool_decide (b_verification_result b = Some "verified"
                      \/ b_verification_result b = Some "rejected"))
        "Invalid verification result" ++
  check (match b_notes b with None => true | Some v => isString v end)
        "Notes must be a string".

Definition notes_text (n : option Value) : option string :=
  match n with Some (Str s) => Some s | _ => None end.

(** POST /:id/verify, after the role middleware.  [key] is the path
    parameter as the integer key the query compares with ([None] when the
    text is not an integer: the query throws).  Clock sites: 0 the UPDATE,
    1 the INSERT, 2 [new Date()], 3 [Date.now()] and 4 [new Date()] of the
    mock gateway. *)
Definition verify (user : Z) (key : option Z) (b : VerifyBody) (env : Env)
    (w : World L) : Response * World L :=
  let errors := validate_verify b in
  if negb (bool_decide (errors = [])) then
    (mkResponse 400 (Obj [("errors", errors_value errors)]), w)
  else
    let verification_result := default "" (b_verification_result b) in
    match key with
    | None => (server_error "Failed to verify deed", w)
    | Some key =>
        match deeds (db w) !! key with
        | None => (mkResponse 404 (Obj [("error", Str "Deed not found")]), w)
        | Some deed =>
            let db1 := update_verification verification_result user key
                         (clock env 0%nat) (db w) in
            let db2 := insert_log key user "manual_verification"
                         verification_result (notes_text (b_notes b))
                         (clock env 1%nat) db1 in
            let '(_, l) :=
              BlockchainService.verifyDeed rt BlockchainService (deed_number deed)
                (BlockchainService.mkVerificationData user verification_result
                   (default Null (b_notes b)) (toISOString rt (clock env 2%nat)))
                (clock env 3%nat) (clock env 4%nat) (ledger w) in
            (mkResponse 200
               (Obj [("message", Str "Deed verification completed successfully");
                     ("verification_result", Str verification_result)]),
             mkWorld db2 l (files w))
        end
    end.

End Handlers.

End DeedRoutes.

(* ===================================================================== *)
(** * The verification-request routes                                     *)
(* ===================================================================== *)

Module VerificationRoutes.
Import JS Database.

(** [req.user] as set by [verifyToken]. *)
Record User := mkUser {
  user_id : string;
  role : string;
  email : string
}.

Definition is_hex (a : ascii) : bool :=
  let n := N_of_ascii a in
  ((48 <=? n) && (n <=? 57) || (97 <=? n) && (n <=? 102)
   || (65 <=? n) && (n <=? 70))%N.

Fixpoint uuid_shape (pos : nat) (s : string) : bool :=
  match s with
  | EmptyString => bool_decide (pos = 36%nat)
  | String a s' =>
      (if bool_decide (pos = 8 \/ pos = 13 \/ pos = 18 \/ pos = 23)%nat
       then bool_decide (a = "-"%char) else is_hex a)
      && uuid_shape (S pos) s'
  end.

(** [isUUID()]: 8-4-4-4-12 hexadecimal digits. *)
Definition isUUID (s : string) : bool := uuid_shape 0 s.

Definition check (ok : bool) (msg : string) : list string :=
  if ok then [] else [msg].

Definition errors_value (errors : list string) : Value :=
  Arr (map (fun m => Obj [("msg", Str m)]) errors).

Definition validation_error (errors : list string) : Response :=
  mkResponse 400
    (Obj [("error", Str "Validation Error");
          ("message", Str "Please check your input");
          ("details", errors_value errors)]).

(** [.optional().isLength({ max: 1000 })]. *)
Definition optional_max1000 (f : option string) : bool :=
  match f with
  | None => true
  | Some s => bool_decide (String.length s <= 1000)%nat
  end.

(** [x || null] on an optional text: the empty text is falsy. *)
Definition or_null (f : option string) : option string :=
  match f with
  | Some s => if decide (s = "") then None else Some s
  | None => None
  end.

(** [req.body] of POST /request. *)
Record RequestBody := mkRequestBody {
  deedId : option string;
  requestType : option string;
  requestDetails : option string
}.

Definition request_types : list string := ["ownership"; "authenticity"; "history"].

(** [validateVerificationRequest]. *)
Definition validate_request (b : RequestBody) : list string :=
  check (match deedId b with Some s => isUUID s | None => false end)
        "Valid deed ID is required" ++
  check (match requestType b with
         | Some s => bool_decide (s ∈ request_types)
         | None => false
         end)
        "Request type must be ownership, authenticity, or history" ++
  check (optional_max1000 (requestDetails b))
        "Request details must be less than 1000 characters".

Definition Conflict : Response :=
  mkResponse 409
    (Obj [("error", Str "Conflict");
          ("message",
           Str "A pending verification request already exists for this deed and type")]).

(** POST /request, after the token and role middleware.  [key] is the
    identifier the database generates for the new row, [now] its
    CURRENT_TIMESTAMP. *)
Definition request (user : User) (b : RequestBody) (key : string) (now : Z)
    (d : DB) : Response * DB :=
  let errors := validate_request b in
  if negb (bool_decide (errors = [])) then (validation_error errors, d)
  else
    let deedId := default "" (deedId b) in
    let requestType := default "" (requestType b) in
    match land_deeds d !! deedId with
    | None =>
        (mkResponse 404 (Obj [("error", Str "Not Found");
                              ("message", Str "Deed not found")]), d)
    | Some deed =>
        if decide (ld_owner_id deed <> user_id user /\ role user = "citizen") then
          (mkResponse 403
             (Obj [("error", Str "Forbidden");
                   ("message",
                    Str "You do not have permission to request verification for this deed")]),
           d)
        else if decide (0 < size (select_pending_requests deedId requestType d))%nat
        then (Conflict, d)
        else
          match insert_request key deedId (user_id user) requestType
                  (or_null (requestDetails b)) "pending" now d with
          | None =>
              (mkResponse 500
                 (Obj [("error", Str "Internal Server Error");
                       ("message", Str "Failed to create verification request")]),
               d)
          | Some (newRequest, d') =>
              (mkResponse 201
                 (Obj [("message", Str "Verification request created successfully");
                       ("request",
                        Obj [("id", Str (vr_id newRequest));
                             ("deedId", Str (vr_deed_id newRequest));
                             ("requestType", Str (request_type newRequest));
                             ("status", Str (vr_status newRequest));
                             ("createdAt", Num (vr_created_at newRequest))])]),
               d')
          end
    end.

(** [req.body] of PUT /requests/:id/process. *)
Record ProcessBody := mkProcessBody {
  p_status : option string;
  responseDetails : option string
}.

Definition validate_process (b : ProcessBody) : list string :=
  check (bool_decide (p_status b = Some "approved" \/ p_status b = Some "rejected"))
        "Status must be either approved or rejected" ++
  check (optional_max1000 (responseDetails b))
        "Response details must be less than 1000 characters".

Definition AlreadyProcessed : Response :=
  mkResponse 400
    (Obj [("error", Str "Bad Request");
          ("message", Str "Request has already been processed")]).

(** PUT /requests/:id/process, after the token and role middleware.  The
    request is read joined with its deed; [now] is CURRENT_TIMESTAMP of
    the UPDATE. *)
Definition process (user : User) (key : string) (b : ProcessBody) (now : Z)
    (d : DB) : Response * DB :=
  let errors := validate_process b in
  if negb (bool_decide (errors = [])) then (validation_error errors, d)
  else
    let status := default "" (p_status b) in
    match verification_requests d !! key with
    | None =>
        (mkResponse 404 (Obj [("error", Str "Not Found");
                              ("message", Str "Verification request not found")]), d)
    | Some request =>
        match land_deeds d !! vr_deed_id request with
        | None =>
            (mkResponse 404 (Obj [("error", Str "Not Found");
                                  ("message", Str "Verification request not found")]), d)
        | Some _ =>
            if decide (vr_status request <> "pending") then (AlreadyProcessed, d)
            else
              let response := or_null (responseDetails b) in
              let d' := update_request status response now (user_id user) key d in
              (mkResponse 200
                 (Obj [("message", Str "Verification request processed successfully");
                       ("request",
                        Obj [("id", Str key); ("status", Str status);
                             ("responseDetails", of_option response);
                             ("processedAt", Num now)])]),
               d')
        end
    end.

End VerificationRoutes.

(* ===================================================================== *)
(** * The verification-request routes, statement by statement             *)
(* ===================================================================== *)

Module VerificationSteps.
Import JS Database VerificationRoutes.

(** A handler of these routes reaches the database through [executeQuery]
    only, one awaited statement at a time and with no transaction around
    them: between two statements of one handler, statements of other
    handlers may run.  A handler is what it still has to do: it has
    answered, or it awaits a statement, which changes the database
    ([effect]) and whose result, read off the database the statement ran
    on, decides how the handler goes on ([next]). *)
Inductive Handler :=
| Answered (r : Response)
| Awaits (effect : DB -> DB) (next : DB -> Handler).

(** A SELECT changes nothing. *)
Definition reads (next : DB -> Handler) : Handler := Awaits (fun d => d) next.

(** POST /request: the deed SELECT, the pending SELECT, the INSERT. *)
Definition request_handler (user : User) (b : RequestBody) (key : string)
    (now : Z) : Handler :=
  let errors := validate_request b in
  if negb (bool_decide (errors = [])) then Answered (validation_error errors)
  else
    let deedId := default "" (deedId b) in
    let requestType := default "" (requestType b) in
    reads (fun d =>
      match land_deeds d !! deedId with
      | None =>
          Answered (mkResponse 404 (Obj [("error", Str "Not Found");
                                         ("message", Str "Deed not found")]))
      | Some deed =>
          if decide (ld_owner_id deed <> user_id user /\ role user = "citizen") then
            Answered
              (mkResponse 403
                 (Obj [("error", Str "Forbidden");
                       ("message",
                        Str "You do not have permission to request verification for this deed")]))
          else
            reads (fun d =>
              if decide (0 < size (select_pending_requests deedId requestType d))%nat
              then Answered Conflict
              else
                let insert :=
                  insert_request key deedId (user_id user) requestType
                    (or_null (requestDetails b)) "pending" now in
                Awaits
                  (fun d => match insert d with Some (_, d') => d' | None => d end)
                  (fun d =>
                     match insert d with
                     | None =>
                         Answered
                           (mkResponse 500
                              (Obj [("error", Str "Internal Server Error");
                                    ("message",
                                     Str "Failed to create verification request")]))
                     | Some (newRequest, _) =>
                         Answered
                           (mkResponse 201
                              (Obj [("message",
                                     Str "Verification request created successfully");
                                    ("request",
                                     Obj [("id", Str (vr_id newRequest));
                                          ("deedId", Str (vr_deed_id newRequest));
                                          ("requestType", Str (request_type newRequest));
                                          ("status", Str (vr_status newRequest));
                                          ("createdAt",
                                           Num (vr_created_at newRequest))])]))
                     end))
      end).

(** PUT /requests/:id/process: the joined SELECT, then the UPDATE, whose
    WHERE clause names the row by its id alone.  An UPDATE that finds no
    row returns none, and reading the first one throws. *)
Definition process_handler (user : User) (key : string) (b : ProcessBody)
    (now : Z) : Handler :=
  let errors := validate_process b in
  if negb (bool_decide (errors = [])) then Answered (validation_error errors)
  else
    let status := default "" (p_status b) in
    let not_found :=
      mkResponse 404 (Obj [("error", Str "Not Found");
                           ("message", Str "Verification request not found")]) in
    reads (fun d =>
      match verification_requests d !! key with
      | None => Answered not_found
      | Some request =>
          match land_deeds d !! vr_deed_id request with
          | None => Answered not_found
          | Some _ =>
              if decide (vr_status request <> "pending") then
                Answered AlreadyProcessed
              else
                let response := or_null (responseDetails b) in
                Awaits (update_request status response now (user_id user) key)
                  (fun d =>
                     match verification_requests d !! key with
                     | None =>
                         Answered
                           (mkResponse 500
                              (Obj [("error", Str "Internal Server Error");
                                    ("message",
                                     Str "Failed to process verification request")]))
                     | Some _ =>
                         Answered
                           (mkResponse 200
                              (Obj [("message",
                                     Str "Verification request processed successfully");
                                    ("request",
                                     Obj [("id", Str key); ("status", Str status);
                                          ("responseDetails", of_option response);
                                          ("processedAt", Num now)])]))
                     end)
          end
      end).

(** A handler that runs with no other statement in between. *)
Fixpoint run_alone (h : Handler) (d : DB) : Response * DB :=
  match h with
  | Answered r => (r, d)
  | Awaits effect next => run_alone (next d) (effect d)
  end.

(** The handlers under way and the database they share.  [turn i] lets
    the database run the statement the [i]-th handler awaits;
    [interleave] lets it run statements in the order given. *)
Definition Server : Type := list Handler * DB.

Definition turn (i : nat) (s : Server) : Server :=
  match s.1 !! i with
  | Some (Awaits effect next) => (<[i := next s.2]> s.1, effect s.2)
  | _ => s
  end.

Definition interleave (turns : list nat) (s : Server) : Server :=
  foldl (fun s i => turn i s) s turns.

(** What the handlers have answered so far. *)
Definition answers (s : Server) : list (option Response) :=
  map (fun h => match h with Answered r => Some r | Awaits _ _ => None end) s.1.

End VerificationSteps.

(* ===================================================================== *)
(** * The chaincode, continued: lookup by number and update               *)
(* ===================================================================== *)

Module Registry.
Import Chaincode.

Definition set_VerifiedBy (v : string) (d : Deed) : Deed :=
  mkDeed (ID d) (DeedNumber d) (OwnerID d) (PropertyAddress d) (PropertyType d)
         (LandArea d) (LandAreaUnit d) (IPFSHash d) (Status d)
         (VerificationStatus d) (CreatedAt d) (UpdatedAt d) (VerifiedAt d) v.

Definition set_VerifiedAt (v : option Time) (d : Deed) : Deed :=
  mkDeed (ID d) (DeedNumber d) (OwnerID d) (PropertyAddress d) (PropertyType d)
         (LandArea d) (LandAreaUnit d) (IPFSHash d) (Status d)
         (VerificationStatus d) (CreatedAt d) (UpdatedAt d) v (VerifiedBy d).

(** Evaluating a contract function against world state [w]: its result,
    nothing committed. *)
Definition evaluate {A} (q : M A) (clk : nat -> Time) (w : gmap string Doc)
  : string + A :=
  (q (mkCtx w [] clk 0%nat)).1.

Section ByNumber.

(** The text of a stored JSON document, as [string(bytes)] reads it. *)
Variable json_text : Doc -> string.

(** [string(deedIDBytes)]. *)
Definition bytes_text (v : Doc) : string :=
  match v with
  | Raw s => s
  | _ => json_text v
  end.

(** [GetDeedByNumber]. *)
Definition GetDeedByNumber (deedNumber : string) : M Deed :=
  let* deedNumberKey := CreateCompositeKey "deedNumber" deedNumber in
  let* deedIDBytes := GetState deedNumberKey in
  match deedIDBytes with
  | None => fail ("deed with number " +:+ deedNumber +:+ " does not exist")
  | Some bytes => GetDeed (bytes_text bytes)
  end.

End ByNumber.

(** A value of the decoded [map[string]interface{}]: a JSON string, or
    anything else (number, boolean, null, array, object). *)
Inductive JVal :=
| JString (s : string)
| JOther.

(** The three keys [UpdateDeed] looks up in the decoded update map, each
    absent or present with its value. *)
Record Updates := mkUpdates {
  u_status : option JVal;
  u_verificationStatus : option JVal;
  u_verifiedBy : option JVal
}.

(** The type assertion [v.(string)]: it panics on anything but a string,
    and the transaction fails. *)
Definition assertString (v : JVal) : M string :=
  match v with
  | JString s => ret s
  | JOther => fail "interface conversion: interface {} is not string"
  end.

(** [UpdateDeed].  [updates] is the result of unmarshalling the update
    text into a map: [None] when it does not unmarshal. *)
Definition UpdateDeed (deedID : string) (updates : option Updates) : M unit :=
  let* deed := GetDeed deedID in
  match updates with
  | None => fail "failed to unmarshal update data"
  | Some updateData =>
      let* deed :=
        match u_status updateData with
        | Some status => let* s := assertString status in ret (set_Status s deed)
        | None => ret deed
        end in
      let* deed :=
        match u_verificationStatus updateData with
        | Some verificationStatus =>
            let* s := assertString verificationStatus in
            ret (set_VerificationStatus s deed)
        | None => ret deed
        end in
      let* deed :=
        match u_verifiedBy updateData with
        | Some verifiedBy =>
            let* s := assertString verifiedBy in
            let* now := Now in
            ret (set_VerifiedAt (Some now) (set_VerifiedBy s deed))
        | None => ret deed
        end in
      let* now := Now in
      PutState deedID (DeedJSON (set_UpdatedAt now deed))
  end.

End Registry.

(* ===================================================================== *)
(** * The services, continued: start-up and the remaining store calls     *)
(* ===================================================================== *)

Module GatewaySetup.
Import JS BlockchainService.

Section Init.
Context {L : Type} (rt : Runtime).

(** [new BlockchainService()]: no contract, [mockMode] not set. *)
Definition fresh : Service L := mkService L false None.

(** [initialize()].  [profile] is the text of the connection profile
    ([None] when the file does not exist); [connect] stands for the
    wallet, gateway and network calls made with the parsed profile: the
    contract handle they end in, or the error one of them throws.  Every
    failure is caught and turns mock mode on; success assigns the contract
    and leaves [mockMode] as it is. *)
Definition initialize (this : Service L) (profile : option string)
    (connect : Value -> Result (Contract L)) : Service L :=
  match profile with
  | None => mkService L true (contract this)
  | Some text =>
      match JSON_parse rt text with
      | None => mkService L true (contract this)
      | Some connectionProfile =>
          match connect connectionProfile with
          | inl _ => mkService L true (contract this)
          | inr c => mkService L (mockMode this) (Some c)
          end
      end
  end.

End Init.

End GatewaySetup.

Module DocumentStore.
Import JS IPFSService.

(** The methods of the ipfs-http-client handle beyond [add] and [cat]:
    [version], [pin.add], [pin.rm] and [files.stat] (size and type). *)
Record Node := mkNode {
  version : Result string;
  pin_add : string -> Result unit;
  pin_rm : string -> Result unit;
  files_stat : string -> Result (Z * string)
}.

(** [initialize()].  [create] is the outcome of loading the client
    library and creating the handle.  The handle is assigned before the
    connection test, and stays assigned when the test fails. *)
Definition initialize (this : Service) (create : Result Client) (node : Node)
  : Service :=
  match create with
  | inl _ => mkService (ipfs this) false
  | inr client =>
      match version node with
      | inl _ => mkService (Some client) false
      | inr _ => mkService (Some client) true
      end
  end.

(** What [downloadFile] returns. *)
Record Download := mkDownload {
  d_path : string;
  d_size : Z
}.

Definition not_initialized_download : string :=
  "IPFS not initialized - cannot download file".

(** [fs.writeFileSync(path, data)] as the file system carries it out on
    the local files: the error it throws, if any, and the files it
    leaves. *)
Definition Write : Type :=
  string -> list byte -> gmap string (list byte)
  -> option string * gmap string (list byte).

(** A write that is refused for the paths [refuses] names (the empty
    path, a directory, a path under a missing directory) and otherwise
    puts the data under the path. *)
Definition write_unless (refuses : string -> option string) : Write :=
  fun path data files =>
    match refuses path with
    | Some e => (Some e, files)
    | None => (None, <[path := data]> files)
    end.

(** [downloadFile(ipfsHash, outputPath)] over the local files. *)
Definition downloadFile (this : Service) (writeFileSync : Write)
    (ipfsHash outputPath : string) (files : gmap string (list byte))
  : Result Download * gmap string (list byte) :=
  if negb (initialized this) then (inl not_initialized_download, files)
  else
    match ipfs this with
    | None => (inl null_client, files)
    | Some client =>
        match cat client ipfsHash with
        | inl e => (inl e, files)
        | inr chunks =>
            let fileBuffer := concat chunks in
            match writeFileSync outputPath fileBuffer files with
            | (Some e, files') => (inl e, files')
            | (None, files') =>
                (inr (mkDownload outputPath (Z.of_nat (length fileBuffer))),
                 files')
            end
        end
    end.

(** [pinFile(ipfsHash)]: the [pinned] and [mock] members of the result. *)
Definition pinFile (this : Service) (node : Node) (ipfsHash : string)
  : Result (bool * bool) :=
  if negb (initialized this) then inr (false, true)
  else
    match ipfs this with
    | None => inl null_client
    | Some _ =>
        match pin_add node ipfsHash with
        | inl e => inl e
        | inr _ => inr (true, false)
        end
    end.

(** [unpinFile(ipfsHash)]: the [unpinned] and [mock] members. *)
Definition unpinFile (this : Service) (node : Node) (ipfsHash : string)
  : Result (bool * bool) :=
  if negb (initialized this) then inr (false, true)
  else
    match ipfs this with
    | None => inl null_client
    | Some _ =>
        match pin_rm node ipfsHash with
        | inl e => inl e
        | inr _ => inr (true, false)
        end
    end.

(** What [getFileInfo] returns. *)
Record Info := mkInfo {
  i_hash : string;
  i_size : Z;
  i_type : string;
  i_mock : bool
}.

(** [getFileInfo(ipfsHash)]. *)
Definition getFileInfo (this : Service) (node : Node) (ipfsHash : string)
  : Result Info :=
  if negb (initialized this) then inr (mkInfo ipfsHash 0 "unknown" true)
  else
    match ipfs this with
    | None => inl null_client
    | Some _ =>
        match files_stat node ("/ipfs/" +:+ ipfsHash) with
        | inl e => inl e
        | inr (sz, ty) => inr (mkInfo ipfsHash sz ty false)
        end
    end.

(** [generateHash(filePath)] over the local files. *)
Definition generateHash (files : gmap string (list byte)) (filePath : string)
  : Result string :=
  match files !! filePath with
  | None => inl "ENOENT: no such file or directory"
  | Some fileBuffer => inr (Sha256.sha256_hex fileBuffer)
  end.

End DocumentStore.

(* ===================================================================== *)
(** * Access control (middleware/auth.js) and the error handler           *)
(* ===================================================================== *)

Module Auth.
Import JS Database.

(** What [jwt.verify(token, JWT_SECRET)] does with a token: it returns the
    payload, of which [userId] is read ([None] when it has none), or it
    throws an error of one of the two names the middleware tells apart, or
    another error. *)
Inductive Verified :=
| Decoded (userId : option Z)
| JsonWebTokenError
| TokenExpiredError
| OtherError.

(** [s.split(' ')]. *)
Fixpoint split_go (cur s : string) : list string :=
  match s with
  | EmptyString => [cur]
  | String a s' =>
      if decide (a = " "%char) then cur :: split_go "" s'
      else split_go (cur +:+ String a EmptyString) s'
  end.
Definition split_space (s : string) : list string := split_go "" s.

(** [req.headers.authorization?.split(' ')[1]]. *)
Definition token_of (authorization : option string) : option string :=
  match authorization with
  | None => None
  | Some h => split_space h !! 1%nat
  end.

Definition unauthorized (msg : string) : Response :=
  mkResponse 401 (Obj [("error", Str msg)]).

(** [authMiddleware]: the response it ends the request with, or the user
    row it places in [req.user] before calling [next()]. *)
Definition authMiddleware (verify : string -> Verified)
    (users : gmap Z UserRow) (authorization : option string)
  : Response + UserRow :=
  match token_of authorization with
  | None => inl (unauthorized "Access token required")
  | Some token =>
      if decide (token = "") then inl (unauthorized "Access token required")
      else
        match verify token with
        | Decoded userId =>
            match userId ≫= (fun k => users !! k) with
            | None => inl (unauthorized "Invalid or expired token")
            | Some row =>
                if is_active row then inr row
                else inl (unauthorized "Invalid or expired token")
            end
        | JsonWebTokenError => inl (unauthorized "Invalid token")
        | TokenExpiredError => inl (unauthorized "Token expired")
        | OtherError =>
            inl (mkResponse 500 (Obj [("error", Str "Authentication error")]))
        end
  end.

(** [roleMiddleware(allowedRoles)]: the response it ends the request
    with, or [None] when it calls [next()]. *)
Definition roleMiddleware (allowedRoles : list string) (user : option UserRow)
  : option Response :=
  match user with
  | None => Some (unauthorized "Authentication required")
  | Some u =>
      if bool_decide (usr_role u ∈ allowedRoles) then None
      else Some (mkResponse 403 (Obj [("error", Str "Insufficient permissions")]))
  end.

End Auth.

Module ErrorHandler.
Import JS.

(** The members of a thrown error the handler reads.  [code] is [None]
    when the error has none or it is not a string. *)
Record Error := mkError {
  name : string;
  code : option string;
  message : string;
  stack : string
}.

Definition statusCode_message (error : Error) : Z * string :=
  let r := (500, "Internal Server Error") in
  let r := if decide (name error = "ValidationError")
           then (400, message error) else r in
  let r := if decide (code error = Some "ECONNREFUSED")
           then (503, "Database connection failed") else r in
  let r := if decide (code error = Some "23505")
           then (409, "Resource already exists") else r in
  let r := if decide (code error = Some "23503")
           then (400, "Invalid reference to related resource") else r in
  let r := if decide (name error = "JsonWebTokenError")
           then (401, "Invalid token") else r in
  let r := if decide (name error = "TokenExpiredError")
           then (401, "Token expired") else r in
  let r := if decide (code error = Some "LIMIT_FILE_SIZE")
           then (413, "File too large") else r in
  r.

(** [errorHandler(error, req, res, next)]; [development] is
    [process.env.NODE_ENV === 'development']. *)
Definition errorHandler (development : bool) (error : Error) : Response :=
  let '(statusCode, msg) := statusCode_message error in
  mkResponse statusCode
    (Obj (("error", Str msg)
          :: if development then [("stack", Str (stack error))] else [])).

End ErrorHandler.

(* ===================================================================== *)
(** * The deed routes, continued, and the blockchain routes               *)
(* ===================================================================== *)

Module DeedReads.
Import JS Database DeedRoutes Auth.

Definition officials : list string := ["government_official"; "legal_professional"].

(** The four names the lookup joins in from [users]. *)
Definition name_of (users : gmap Z UserRow) (k : option Z) : Value :=
  match k ≫= (fun k => users !! k) with
  | Some u => of_option (full_name u)
  | None => Null
  end.

Definition email_of (users : gmap Z UserRow) (k : option Z) : Value :=
  match k ≫= (fun k => users !! k) with
  | Some u => Str (usr_email u)
  | None => Null
  end.

(** A row of the joined SELECT of GET /number/:deed_number. *)
Definition joined_value (users : gmap Z UserRow) (r : DeedRow) : Value :=
  Obj (match DeedRow_value r with Obj ms => ms | _ => [] end
       ++ [("owner_name", name_of users (Some (owner_id r)));
           ("owner_email", email_of users (Some (owner_id r)));
           ("created_by_name", name_of users (Some (created_by r)));
           ("verified_by_name", name_of users (verified_by r))]).

(** The object built for callers without access to the sensitive data. *)
Definition limited_value (deed : DeedRow) : Value :=
  Obj [("id", Num (id deed)); ("deed_number", Str (deed_number deed));
       ("title", Str (title deed));
       ("property_address", Str (property_address deed));
       ("extent", Str (extent deed));
       ("verification_status", Str (verification_status deed));
       ("created_at", Num (created_at deed))].

(** [role is official || deed.owner_id === req.user.id]. *)
Definition may_read (user : UserRow) (owner : Z) : bool :=
  bool_decide (usr_role user = "government_official")
  || bool_decide (usr_role user = "legal_professional")
  || bool_decide (owner = usr_id user).

Section Handlers.
Context {L : Type} (rt : Runtime).
Context (BlockchainService : BlockchainService.Service L).
Context (IPFSService : IPFSService.Service).

(** GET /number/:deed_number, after the authentication middleware.  The
    first row of the result is used; [deed_number] is UNIQUE, so there is
    at most one.  [now] is the instant of [new Date()] in the mock
    gateway. *)
Definition by_number (users : gmap Z UserRow) (user : UserRow)
    (deed_number : string) (now : Z) (w : World L) : Response :=
  match map_to_list (select_deeds_by_number deed_number (db w)) with
  | [] => mkResponse 404 (Obj [("error", Str "Deed not found")])
  | (_, deed) :: _ =>
      if negb (may_read user (owner_id deed)) then
        mkResponse 200 (Obj [("deed", limited_value deed)])
      else
        let blockchainData :=
          if decide (Database.deed_number deed = "") then Null
          else
            match BlockchainService.getDeed rt BlockchainService
                    (Database.deed_number deed) now (ledger w) with
            | inr v => v
            | inl _ => Null
            end in
        mkResponse 200 (Obj [("deed", joined_value users deed);
                             ("blockchain", blockchainData)])
  end.

(** GET /:id/document.  [key] is the path parameter as an integer key, as
    in POST /:id/verify.  The retrieval calls [IPFSService.getFile], which
    the service does not have: the call throws and the route's handler for
    thrown errors answers. *)
Definition document (user : UserRow) (key : option Z) (w : World L) : Response :=
  match key with
  | None => server_error "Failed to retrieve document"
  | Some key =>
      match deeds (db w) !! key with
      | None => mkResponse 404 (Obj [("error", Str "Deed not found")])
      | Some deed =>
          if negb (may_read user (owner_id deed)) then
            mkResponse 403 (Obj [("error", Str "Access denied")])
          else
            match ipfs_hash deed with
            | None => mkResponse 404 (Obj [("error", Str "Document not available")])
            | Some h =>
                if decide (h = "") then
                  mkResponse 404 (Obj [("error", Str "Document not available")])
                else server_error "Failed to retrieve document"
            end
      end
  end.

(** POST /create with the middleware in front of it: authentication, then
    the role gate.  The upload middleware runs only past the gate; [file]
    is the path it stored the attachment under. *)
Definition post_create (verify : string -> Verified) (users : gmap Z UserRow)
    (authorization : option string) (b : CreateBody) (file : option string)
    (env : Env) (w : World L) : Response * World L :=
  match authMiddleware verify users authorization with
  | inl response => (response, w)
  | inr user =>
      match roleMiddleware officials (Some user) with
      | Some response => (response, w)
      | None =>
          create rt BlockchainService IPFSService users (usr_id user) b file env w
      end
  end.

(** POST /:id/verify with the middleware in front of it. *)
Definition post_verify (verify : string -> Verified) (users : gmap Z UserRow)
    (authorization : option string) (key : option Z) (b : VerifyBody)
    (env : Env) (w : World L) : Response * World L :=
  match authMiddleware verify users authorization with
  | inl response => (response, w)
  | inr user =>
      match roleMiddleware officials (Some user) with
      | Some response => (response, w)
      | None => DeedRoutes.verify rt BlockchainService (usr_id user) key b env w
      end
  end.

(** POST /verify/:deedNumber of routes/blockchain.js, after its
    middleware: the gateway call first, then the log row, whose [deed_id]
    is the deed number.  [key] is what the database reads the deed number
    as when it takes it for the INTEGER column: the integer, or the error
    it throws for a text that is none.  The body members are taken as
    texts.  Clock sites: 0 [new Date()], 1 [Date.now()] and 2 [new Date()]
    of the mock gateway, 3 the INSERT. *)
Definition blockchain_verify (users : gmap Z UserRow) (user : Z)
    (deedNumber : string) (key : Result Z) (verificationResult : string)
    (notes : option string) (env : Env) (w : World L) : Response * World L :=
  let failed (e : string) :=
    mkResponse 500 (Obj [("error", Str "Failed to verify deed on blockchain");
                         ("message", Str e)]) in
  match BlockchainService.verifyDeed rt BlockchainService deedNumber
          (BlockchainService.mkVerificationData user verificationResult
             (of_option notes) (toISOString rt (clock env 0%nat)))
          (clock env 1%nat) (clock env 2%nat) (ledger w) with
  | (inl e, l) => (failed e, mkWorld (db w) l (files w))
  | (inr result, l) =>
      match key with
      | inl e => (failed e, mkWorld (db w) l (files w))
      | inr key =>
          if negb (integer key) then
            (failed ("value " +:+ quote +:+ deedNumber +:+ quote
                     +:+ " is out of range for type integer"),
             mkWorld (db w) l (files w))
          else
            match try_insert_log users key user "blockchain_verification"
                    verificationResult notes (clock env 3%nat) (db w) with
            | (Some e, d) => (failed e, mkWorld d l (files w))
            | (None, d) => (mkResponse 200 result, mkWorld d l (files w))
            end
      end
  end.

End Handlers.

End DeedReads.

(* ===================================================================== *)
(** * fabricService.js and the ledger check of the verification routes    *)
(* ===================================================================== *)

Module FabricService.
Import JS Database.

Definition not_initialized : string := "Fabric contract not initialized".

Section Calls.
Context {L : Type} (rt : Runtime).

(** The module's [contract] variable: [None] until
    [initializeFabricNetwork] has assigned it. *)
Context (contract : option (BlockchainService.Contract L)).

(** [submitTransaction(functionName, args)]. *)
Definition submitTransaction (functionName : string) (args : Value) (l : L)
  : Result string * L :=
  match contract with
  | None => (inl not_initialized, l)
  | Some c => BlockchainService.submitTransaction c functionName [args] l
  end.

(** [evaluateTransaction(functionName, args)]. *)
Definition evaluateTransaction (functionName : string) (args : Value) (l : L)
  : Result string :=
  match contract with
  | None => inl not_initialized
  | Some c => BlockchainService.evaluateTransaction c functionName [args] l
  end.

(** [verifyOnBlockchain(transactionHash)]; [now] is the instant of
    [new Date()]. *)
Definition verifyOnBlockchain (transactionHash : string) (now : Z) (l : L)
  : Result Value :=
  match contract with
  | None => inl not_initialized
  | Some c =>
      match BlockchainService.evaluateTransaction c "queryDeed"
              [Str transactionHash] l with
      | inl e => inl e
      | inr result =>
          match JSON_parse rt result with
          | None => inl "Unexpected token in JSON"
          | Some deedData =>
              inr (Obj [("verified", Bool true);
                        ("transactionHash", Str transactionHash);
                        ("deedData", deedData);
                        ("timestamp", Str (toISOString rt now))])
          end
      end
  end.

(** [getDeedHistory(deedId)]. *)
Definition getDeedHistory (deedId : string) (l : L) : Result Value :=
  match contract with
  | None => inl not_initialized
  | Some c =>
      match BlockchainService.evaluateTransaction c "getDeedHistory" [Str deedId] l with
      | inl e => inl e
      | inr result =>
          match JSON_parse rt result with
          | None => inl "Unexpected token in JSON"
          | Some history => inr history
          end
      end
  end.

(** [transferDeedOwnership(deedId, fromOwnerId, toOwnerId, transferReason)]. *)
Definition transferDeedOwnership (deedId fromOwnerId toOwnerId transferReason : string)
    (now : Z) (l : L) : Result string * L :=
  match contract with
  | None => (inl not_initialized, l)
  | Some c =>
      BlockchainService.submitTransaction c "transferDeed"
        [Str (JSON_stringify rt
                (Obj [("deedId", Str deedId); ("fromOwnerId", Str fromOwnerId);
                      ("toOwnerId", Str toOwnerId);
                      ("transferReason", Str transferReason);
                      ("timestamp", Str (toISOString rt now))]))] l
  end.

(** [checkFabricHealth()]: the [status] and [message] members. *)
Definition checkFabricHealth (l : L) : string * string :=
  match contract with
  | None => ("disconnected", not_initialized)
  | Some c =>
      match BlockchainService.evaluateTransaction c "queryAllDeeds" [] l with
      | inl e => ("error", e)
      | inr _ => ("connected", "Fabric network is healthy")
      end
  end.

(** POST /blockchain/:deedId of the verification routes, after its
    middleware. *)
Definition blockchain_check (deedId : string) (now : Z) (d : DB) (l : L)
  : Response :=
  match land_deeds d !! deedId with
  | None =>
      mkResponse 404 (Obj [("error", Str "Not Found");
                           ("message", Str "Deed not found")])
  | Some deed =>
      match VerificationRoutes.or_null (ld_transaction_hash deed) with
      | None =>
          mkResponse 400
            (Obj [("error", Str "Bad Request");
                  ("message", Str "Deed does not have a blockchain transaction hash")])
      | Some transaction_hash =>
          match verifyOnBlockchain transaction_hash now l with
          | inr verificationResult =>
              mkResponse 200
                (Obj [("message", Str "Blockchain verification completed successfully");
                      ("deed",
                       Obj [("id", Str (ld_id deed));
                            ("deedNumber", Str (ld_deed_number deed));
                            ("transactionHash", Str transaction_hash);
                            ("verificationStatus", Str (ld_verification_status deed))]);
                      ("blockchainVerification", verificationResult)])
          | inl e =>
              mkResponse 500
                (Obj [("error", Str "Blockchain Verification Error");
                      ("message", Str "Failed to verify deed on blockchain");
                      ("details", Str e)])
          end
      end
  end.

End Calls.

End FabricService.

(* ===================================================================== *)
(** * Properties of the chaincode                                         *)
(* ===================================================================== *)

Module ChaincodeFacts.
Import Chaincode.

Lemma string_length_app (s1 s2 : string) :
  String.length (s1 +:+ s2) = (String.length s1 + String.length s2)%nat.
Proof. induction s1 as [|a s1 IH]; simpl; [done | by rewrite IH]. Qed.

Lemma transferKey_nonempty deedID unix : transferKey deedID unix <> "".
Proof. unfold transferKey. discriminate. Qed.

Lemma transferKey_not_deed deedID unix : transferKey deedID unix <> deedID.
Proof.
  unfold transferKey. intros H.
  apply (f_equal String.length) in H.
  rewrite !string_length_app in H. simpl in H. lia.
Qed.

(** C1. For a deed [d] stored under the transfer's deed identifier (in a
    world state that, as the shim guarantees, holds nothing under the empty
    key): if the transfer's from-owner differs from [d]'s owner,
    [TransferDeed] returns the ownership-mismatch error having issued no
    write, and the submitted transaction leaves the world state as it was;
    if the from-owner matches, the transaction commits, the deed is stored
    with owner = to-owner, status = "transferred" and the update time
    stamped (all other fields kept), the transfer record is stored under
    its generated key, and no other key changes. *)
Theorem TransferDeed_owner_guard
    (w : gmap string Doc) (clk : nat -> Time) (t : Transfer) (d : Deed) :
  w !! "" = None ->
  w !! tDeedID t = Some (DeedJSON d) ->
  (OwnerID d <> FromOwnerID t ->
     TransferDeed (Some t) (mkCtx w [] clk 0%nat)
       = (inl OwnershipMismatch, mkCtx w [] clk 0%nat)
     /\ submit (TransferDeed (Some t)) clk w = (Some OwnershipMismatch, w))
  /\
  (OwnerID d = FromOwnerID t ->
     let d' := set_UpdatedAt (clk 0%nat)
                 (set_Status "transferred" (set_OwnerID (ToOwnerID t) d)) in
     let key := transferKey (tDeedID t) (Unix (clk 1%nat)) in
     let t' := set_tCreatedAt (clk 2%nat) (set_tID key t) in
     exists w',
       submit (TransferDeed (Some t)) clk w = (None, w')
       /\ w' = <[key := TransferJSON t']> (<[tDeedID t := DeedJSON d']> w)
       /\ w' !! tDeedID t = Some (DeedJSON d')
       /\ w' !! key = Some (TransferJSON t')
       /\ forall k, k <> tDeedID t -> k <> key -> w' !! k = w !! k).
Proof.
  intros Hwf Hd.
  assert (Hne : tDeedID t <> "") by (intros E; rewrite E in Hd; congruence).
  split.
  - intros Hown.
    assert (Hrun : TransferDeed (Some t) (mkCtx w [] clk 0%nat)
                   = (inl OwnershipMismatch, mkCtx w [] clk 0%nat)).
    { unfold TransferDeed, bind, GetDeed, bind, GetState. simpl.
      rewrite Hd. simpl. unfold ret. 
      destruct (decide (OwnerID d <> FromOwnerID t)); [done | contradiction]. }
    split; [exact Hrun |].
    unfold submit. by rewrite Hrun.
  - intros Hown d' key t'.
    exists (<[key := TransferJSON t']> (<[tDeedID t := DeedJSON d']> w)).
    assert (Hk : key <> tDeedID t) by apply transferKey_not_deed.
    split; [| split; [done | split; [| split]]].
    + unfold submit, TransferDeed, bind, GetDeed, bind, GetState. simpl.
      rewrite Hd. simpl. unfold ret.
      destruct (decide (OwnerID d <> FromOwnerID t)); [contradiction |].
      unfold Now, PutState. simpl.
      destruct (decide (tDeedID t = "")); [contradiction |]. simpl.
      destruct (decide (transferKey (tDeedID t) (Unix (clk 1%nat)) = ""))
        as [E|_]; [by apply transferKey_nonempty in E |].
      simpl. reflexivity.
    + rewrite lookup_insert_ne by done. apply lookup_insert_eq.
    + apply lookup_insert_eq.
    + intros k Hk1 Hk2. rewrite !lookup_insert_ne by done. done.
Qed.

(** Witness for C1: deed "D1" owned by "alice", moved to "bob". *)
Definition deed_D1 : Deed :=
  mkDeed "D1" "LR-001" "alice" "12 Main St" "residential" 10 "perch"
         "QmX" "pending" "pending" 5 5 None "".

Definition transfer_D1 : Transfer :=
  mkTransfer "" "D1" "alice" "bob" "sale" 7 0.

Lemma TransferDeed_owner_guard_witness :
  submit (TransferDeed (Some transfer_D1)) (fun n => 1000000000 * (Z.of_nat n + 3))
         {["D1" := DeedJSON deed_D1]}
  = (None,
     <["transfer_D1_4" :=
         TransferJSON (mkTransfer "transfer_D1_4" "D1" "alice" "bob" "sale" 7 5000000000)]>
       (<["D1" := DeedJSON (mkDeed "D1" "LR-001" "bob" "12 Main St" "residential"
                                   10 "perch" "QmX" "transferred" "pending"
                                   5 3000000000 None "")]>
          {["D1" := DeedJSON deed_D1]})).
Proof.
  destruct (TransferDeed_owner_guard {["D1" := DeedJSON deed_D1]}
              (fun n => 1000000000 * (Z.of_nat n + 3)) transfer_D1 deed_D1)
    as [_ Hok]; [reflexivity | reflexivity |].
  destruct (Hok eq_refl) as (w' & Hs & Hw & _).
  rewrite Hs, Hw. reflexivity.
Defined.

(** The deed-number index key. *)
Definition indexKey (deedNumber : string) : string :=
  NUL +:+ "deedNumber" +:+ NUL +:+ deedNumber +:+ NUL.

(** The record [CreateDeed] stores for an input deed. *)
Definition created (now : Time) (deed : Deed) : Deed :=
  set_VerificationStatus "pending"
    (set_Status "pending" (set_UpdatedAt now (set_CreatedAt now deed))).

(** [CreateDeed] on an identifier that is present: the error, and the
    world state as it was. *)
Lemma CreateDeed_existing (w : gmap string Doc) (clk : nat -> Time)
    (deed : Deed) (v : Doc) :
  w !! ID deed = Some v ->
  submit (CreateDeed (Some deed)) clk w
  = (Some ("deed with ID " +:+ ID deed +:+ " already exists"), w).
Proof.
  intros Hv. unfold submit, CreateDeed, bind, DeedExists, bind, GetState. simpl.
  rewrite Hv. simpl. reflexivity.
Qed.

(** [CreateDeed] on a fresh identifier: whatever the deed number, used or
    not, the record and the index entry are written. *)
Lemma CreateDeed_fresh (w : gmap string Doc) (clk : nat -> Time) (deed : Deed) :
  w !! ID deed = None ->
  ID deed <> "" ->
  validCompositeKeyAttribute (DeedNumber deed) = true ->
  submit (CreateDeed (Some deed)) clk w
  = (None, <[indexKey (DeedNumber deed) := Raw (ID deed)]>
             (<[ID deed := DeedJSON (created (clk 0%nat) deed)]> w)).
Proof.
  intros Hv Hid Hnum.
  unfold submit, CreateDeed, bind, DeedExists, bind, GetState. simpl.
  rewrite Hv. simpl. unfold PutState, CreateCompositeKey. simpl.
  destruct (decide (ID deed = "")); [done |]. simpl.
  change (validCompositeKeyAttribute "deedNumber") with true.
  rewrite Hnum. simpl. reflexivity.
Qed.

(** The deed number a stored document carries, if it is a deed. *)
Definition doc_number (v : Doc) : option string :=
  match v with DeedJSON d => Some (DeedNumber d) | _ => None end.

Definition deed_A : Deed :=
  mkDeed "A" "LR-001" "alice" "12 Main St" "residential" 10 "perch" "QmX"
         "" "" 0 0 None "".
Definition deed_B : Deed :=
  mkDeed "B" "LR-001" "carol" "9 Lake Rd" "residential" 4 "perch" "QmY"
         "" "" 0 0 None "".

(** Two creates with one deed number and two identifiers: both commit,
    both records stay in the world state, and the index entry of the
    number is repointed from the first identifier to the second. *)
Lemma second_CreateDeed_same_number :
  let s1 := submit (CreateDeed (Some deed_A)) (fun _ => 1) ∅ in
  let s2 := submit (CreateDeed (Some deed_B)) (fun _ => 2) s1.2 in
  s1.1 = None /\ s1.2 !! indexKey "LR-001" = Some (Raw "A")
  /\ s2.1 = None
  /\ (s2.2 !! "A" ≫= doc_number) = Some "LR-001"
  /\ (s2.2 !! "B" ≫= doc_number) = Some "LR-001"
  /\ s2.2 !! indexKey "LR-001" = Some (Raw "B").
Proof. vm_compute. repeat split. Qed.

End ChaincodeFacts.


(* ===================================================================== *)
(** * Properties of hashing                                               *)
(* ===================================================================== *)

Module HashFacts.

Lemma digit_is_digit (n : N) : Hex.is_digit (Hex.digit n) = true.
Proof.
  destruct n as [|p]; [reflexivity |].
  do 4 (destruct p as [p|p|]; try reflexivity).
Qed.

Lemma encode_all_digits (bs : list byte) : Hex.all_digits (Hex.encode bs) = true.
Proof.
  induction bs as [|b bs IH]; [reflexivity |].
  simpl. by rewrite !digit_is_digit, IH.
Qed.

Lemma encode_length (bs : list byte) :
  String.length (Hex.encode bs) = (2 * length bs)%nat.
Proof. induction bs as [|b bs IH]; simpl; [done | rewrite IH; lia]. Qed.

Lemma word_bytes_length (x : N) : length (Sha256.word_bytes x) = 4%nat.
Proof. reflexivity. Qed.

Lemma digest_length (msg : list byte) : length (Sha256.digest msg) = 32%nat.
Proof. unfold Sha256.digest. by rewrite !length_app, !word_bytes_length. Qed.

(** The hex digest is 64 lowercase hexadecimal characters. *)
Lemma sha256_hex_shape (msg : list byte) :
  String.length (Sha256.sha256_hex msg) = 64%nat
  /\ Hex.all_digits (Sha256.sha256_hex msg) = true.
Proof.
  unfold Sha256.sha256_hex. split.
  - by rewrite encode_length, digest_length.
  - apply encode_all_digits.
Qed.

(** FIPS 180-4 test vector. *)
Example sha256_abc :
  Sha256.sha256_hex (list_byte_of_string "abc")
  = "ba7816bf8f01cfea414140de5dae2223b00361a396177a9cb410ff61f20015ad".
Proof. vm_compute. reflexivity. Qed.

Example sha256_empty :
  Sha256.sha256_hex []
  = "e3b0c44298fc1c149afbf4c8996fb92427ae41e4649b934ca495991b7852b855".
Proof. vm_compute. reflexivity. Qed.

End HashFacts.

(** A runtime for the worked examples: its text functions are stand-ins. *)
Definition example_runtime : JS.Runtime :=
  JS.mkRuntime (fun _ => "{}") (fun _ => Some JS.Null) (fun ms => pretty ms).

(* ===================================================================== *)
(** * Properties of the ledger gateway                                    *)
(* ===================================================================== *)

Module GatewayFacts.
Import JS BlockchainService.

Lemma prefixed_pretty_inj (p : string) (x y : Z) :
  p +:+ pretty x = p +:+ pretty y <-> x = y.
Proof.
  split; [| by intros ->].
  intros H. apply (inj (String.app p)) in H. by apply (inj pretty) in H.
Qed.

Lemma mock_prefixes_differ (x y : Z) :
  "mock_tx_" +:+ pretty x <> "mock_verification_" +:+ pretty y.
Proof. simpl. discriminate. Qed.

(** C10. In mock mode [getDeed] returns, for every deed number and
    whatever the ledger holds, a synthesized record with that number and
    the literal status "verified"; it never throws. *)
Theorem mock_getDeed_always_verified {L : Type} (rt : Runtime)
    (c : option (Contract L)) (deedNumber : string) (now : Z) (l : L) :
  let r := getDeed rt (mkService L true c) deedNumber now l in
  r = inr (Obj [("deedNumber", Str deedNumber); ("owner", Str "Mock Owner");
                ("status", Str "verified");
                ("timestamp", Str (toISOString rt now))])
  /\ (exists v, r = inr v /\ field "status" v = Some (Str "verified")
                /\ field "deedNumber" v = Some (Str deedNumber)).
Proof.
  intros r. subst r. unfold getDeed. simpl. split; [reflexivity |].
  eexists. split; [reflexivity |]. split; reflexivity.
Qed.

Definition data_A : DeedData := mkDeedData "LR-001" 4 "12 Main St" None 2 "t".
Definition data_B : DeedData := mkDeedData "LR-002" 5 "9 Lake Rd" None 2 "t".

(** The identifier an envelope carries. *)
Definition envelope_id (r : Result Value) : option Value :=
  match r with inr v => field "transactionId" v | inl _ => None end.

(** C9, refuted as stated: two mock writes for different deeds issued at
    the same clock reading return the same identifier, and the envelope
    has the members transactionId, blockNumber and success only: none of
    them marks it as degraded. *)
Lemma mock_writes_same_instant_collide :
  let this := mkService unit true None in
  let r1 := createDeed example_runtime this data_A 1700000000000 17 tt in
  let r2 := createDeed example_runtime this data_B 1700000000000 402 tt in
  data_A <> data_B
  /\ envelope_id r1.1 = Some (Str "mock_tx_1700000000000")
  /\ envelope_id r2.1 = envelope_id r1.1
  /\ r1.1 = inr (Obj [("transactionId", Str "mock_tx_1700000000000");
                      ("blockNumber", Num 17); ("success", Bool true)])
  /\ (forall v, r1.1 = inr v ->
        keys v = ["transactionId"; "blockNumber"; "success"]
        /\ field "degraded" v = None /\ field "mock" v = None).
Proof.
  simpl. split; [discriminate |].
  split; [vm_compute; reflexivity |].
  split; [vm_compute; reflexivity |].
  split; [vm_compute; reflexivity |].
  intros v Hv. injection Hv as <-. vm_compute. done.
Qed.

(** C9, as the code has it: a mock write leaves the ledger alone and
    returns an envelope without any degraded marker, whose identifier is a
    fixed prefix followed by the clock reading in decimal.  Hence two mock
    writes of the same kind carry distinct identifiers exactly when their
    clock readings differ, and a create identifier never equals a verify
    identifier. *)
Theorem mock_write_envelopes {L : Type} (rt : Runtime)
    (c : option (Contract L)) (d1 d2 : DeedData) (n1 n2 : string)
    (v1 v2 : VerificationData) (now1 now2 now1' now2' draw1 draw2 : Z)
    (l1 l2 : L) :
  let this := mkService L true c in
  let c1 := createDeed rt this d1 now1 draw1 l1 in
  let c2 := createDeed rt this d2 now2 draw2 l2 in
  let w1 := verifyDeed rt this n1 v1 now1 now1' l1 in
  let w2 := verifyDeed rt this n2 v2 now2 now2' l2 in
  c1 = (inr (Obj [("transactionId", Str ("mock_tx_" +:+ pretty now1));
                  ("blockNumber", Num draw1); ("success", Bool true)]), l1)
  /\ w1 = (inr (Obj [("transactionId", Str ("mock_verification_" +:+ pretty now1));
                     ("verified", Bool true);
                     ("timestamp", Str (toISOString rt now1'))]), l1)
  /\ (envelope_id c1.1 = envelope_id c2.1 <-> now1 = now2)
  /\ (envelope_id w1.1 = envelope_id w2.1 <-> now1 = now2)
  /\ envelope_id c1.1 <> envelope_id w2.1.
Proof.
  intros this c1 c2 w1 w2. subst this c1 c2 w1 w2.
  unfold createDeed, verifyDeed. simpl.
  split; [reflexivity |]. split; [reflexivity |].
  split; [| split].
  - split.
    + intros H. injection H as H.
      change (pretty now1 = pretty now2) in H. by apply (inj pretty) in H.
    + by intros ->.
  - split.
    + intros H. injection H as H.
      change (pretty now1 = pretty now2) in H. by apply (inj pretty) in H.
    + by intros ->.
  - discriminate.
Qed.

End GatewayFacts.

(* ===================================================================== *)
(** * Properties of the document store                                    *)
(* ===================================================================== *)

Module DocumentStoreFacts.
Import JS IPFSService.

Definition payload : list byte := list_byte_of_string "deed scan".
Definition drawn : list byte := repeat x2a 32.

(** C8, refuted as stated: the mock backend hands out an address for a
    payload, and [getFileBuffer] on that same backend with that very
    address throws. *)
Lemma mock_get_of_own_address_fails :
  let this := mkService None false in
  exists up,
    uploadBuffer this payload "deed.pdf" (Obj []) drawn = inr up
    /\ hash up = "Qm2a2a2a2a2a2a2a2a2a2a2a2a2a2a2a2a2a2a2a2a2a2a2a2a2a2a2a2a2a2a2a2a"
    /\ getFileBuffer this (hash up) = inl not_initialized_get.
Proof.
  simpl. eexists. split; [reflexivity |]. split; [vm_compute |]; reflexivity.
Qed.

(** C8, as the code has it: the mock [uploadBuffer] stores nothing and
    returns the address "Qm" followed by the drawn bytes in lowercase hex
    (two characters per byte), the payload length as size, the path
    "/ipfs/<address>" and [mock = true]; [getFileBuffer] on the mock
    backend throws for every address, the ones it produced included. *)
Theorem mock_put_then_get (c : option Client) (buffer : list byte)
    (filename : string) (metadata : Value) (random : list byte)
    (address : string) :
  let this := mkService c false in
  uploadBuffer this buffer filename metadata random
    = inr (mkUpload ("Qm" +:+ Hex.encode random) (Z.of_nat (length buffer))
                    ("/ipfs/" +:+ ("Qm" +:+ Hex.encode random)) true)
  /\ String.length (mockHash random) = (2 + 2 * length random)%nat
  /\ Hex.all_digits (Hex.encode random) = true
  /\ getFileBuffer this address = inl not_initialized_get
  /\ getFileBuffer this (mockHash random) = inl not_initialized_get.
Proof.
  intros this. subst this.
  split; [reflexivity |].
  split.
  { unfold mockHash.
    change ("Qm" +:+ Hex.encode random)
      with (String "Q" (String "m" (Hex.encode random))).
    cbn [String.length]. by rewrite HashFacts.encode_length. }
  split; [apply HashFacts.encode_all_digits |].
  split; reflexivity.
Qed.

End DocumentStoreFacts.

(* ===================================================================== *)
(** * Properties of the verification-request routes                       *)
(* ===================================================================== *)

Module VerificationFacts.
Import JS Database VerificationRoutes VerificationSteps.

Lemma check_nil (ok : bool) (msg : string) : check ok msg = [] <-> ok = true.
Proof. destruct ok; simpl; split; congruence. Qed.

Lemma validate_process_ok (b : ProcessBody) :
  validate_process b = [] ->
  p_status b = Some "approved" \/ p_status b = Some "rejected".
Proof.
  unfold validate_process. intros H.
  apply app_eq_nil in H as [H _]. apply check_nil in H.
  by apply bool_decide_eq_true in H.
Qed.

Lemma validate_process_decision (b : ProcessBody) :
  validate_process b = [] ->
  exists st, p_status b = Some st /\ (st = "approved" \/ st = "rejected").
Proof.
  intros H. destruct (validate_process_ok b H) as [E|E]; eauto.
Qed.

(** Run with no other statement in between, the two handlers do what
    [request] and [process] do in one step. *)
Lemma request_alone (user : User) (b : RequestBody) (key : string) (now : Z)
    (d : DB) :
  run_alone (request_handler user b key now) d = request user b key now d.
Proof.
  unfold request_handler, request.
  destruct (negb _); [done |]. cbn [reads run_alone].
  destruct (land_deeds d !! default "" (deedId b)); [| done].
  destruct (decide _); [done |]. cbn [reads run_alone].
  destruct (decide (0 < size _)%nat); [done |]. cbn [run_alone].
  by destruct (insert_request _ _ _ _ _ _ _ _) as [[row d']|].
Qed.

Lemma process_alone (user : User) (key : string) (b : ProcessBody) (now : Z)
    (d : DB) :
  run_alone (process_handler user key b now) d = process user key b now d.
Proof.
  unfold process_handler, process.
  destruct (negb _); [done |]. cbn [reads run_alone].
  destruct (verification_requests d !! key) as [r|] eqn:Hr; [| done].
  destruct (land_deeds d !! vr_deed_id r); [| done].
  destruct (decide _); [done |]. cbn [run_alone]. by rewrite Hr.
Qed.

(** What [process] does, by cases: either nothing changes, or a pending
    request that joins with its deed is rewritten by the UPDATE. *)
Lemma process_cases (user : User) (key : string) (b : ProcessBody) (now : Z)
    (d : DB) :
  (process user key b now d).2 = d
  \/ exists r st,
       p_status b = Some st /\ (st = "approved" \/ st = "rejected")
       /\ verification_requests d !! key = Some r
       /\ vr_status r = "pending"
       /\ (process user key b now d).2
          = update_request st (or_null (responseDetails b)) now (user_id user) key d.
Proof.
  unfold process.
  destruct (bool_decide (validate_process b = [])) eqn:Hv; simpl; [| by left].
  apply bool_decide_eq_true in Hv.
  destruct (validate_process_decision b Hv) as (st & Hst & Hdec).
  destruct (verification_requests d !! key) as [r|] eqn:Hr; [| by left].
  destruct (land_deeds d !! vr_deed_id r); [| by left].
  destruct (decide (vr_status r <> "pending")) as [Hp|Hp]; [by left |].
  right. exists r, st. rewrite Hst. simpl.
  repeat split; try done.
  by destruct (decide (vr_status r = "pending")).
Qed.


(** At most one pending request per (deed, kind). *)
Definition at_most_one_pending (d : DB) : Prop :=
  forall k1 k2 r1 r2,
    verification_requests d !! k1 = Some r1 ->
    verification_requests d !! k2 = Some r2 ->
    vr_status r1 = "pending" -> vr_status r2 = "pending" ->
    vr_deed_id r1 = vr_deed_id r2 -> request_type r1 = request_type r2 ->
    k1 = k2.

Lemma process_preserves (user : User) (key : string) (b : ProcessBody)
    (now : Z) (d : DB) :
  at_most_one_pending d -> at_most_one_pending (process user key b now d).2.
Proof.
  intros Hinv.
  destruct (process_cases user key b now d)
    as [-> | (r & st & _ & Hst & Hr & _ & ->)]; [done |].
  intros k1 k2 r1 r2 H1 H2 P1 P2 Hd Ht.
  unfold update_request, with_requests in H1, H2. simpl in H1, H2.
  apply lookup_alter_Some in H1 as [(<- & x1 & _ & ->) | (N1 & H1)].
  { simpl in P1. destruct Hst; congruence. }
  apply lookup_alter_Some in H2 as [(<- & x2 & _ & ->) | (N2 & H2)].
  { simpl in P2. destruct Hst; congruence. }
  by eapply Hinv.
Qed.

(** What [request] does, by cases: either nothing changes, or a pending
    row is inserted under a fresh key while no pending request of that
    kind exists for that deed. *)
Lemma request_cases (user : User) (b : RequestBody) (key : string) (now : Z)
    (d : DB) :
  (request user b key now d).2 = d
  \/ exists row,
       verification_requests d !! key = None
       /\ select_pending_requests (default "" (deedId b))
            (default "" (requestType b)) d = ∅
       /\ row = mkVRequest key (default "" (deedId b)) (user_id user)
                  (default "" (requestType b)) (or_null (requestDetails b))
                  "pending" None None None now
       /\ (request user b key now d).2
          = with_requests (<[key := row]> (verification_requests d)) d.
Proof.
  unfold request.
  destruct (bool_decide (validate_request b = [])); simpl; [| by left].
  destruct (land_deeds d !! default "" (deedId b)); [| by left].
  destruct (decide _); [by left |].
  destruct (decide (0 < size _)%nat) as [Hs|Hs]; [by left |].
  unfold insert_request.
  destruct (decide (is_Some (verification_requests d !! key))) as [Hk|Hk];
    [by left |].
  right. eexists. split.
  { by apply eq_None_not_Some. }
  split; [| split; [reflexivity | reflexivity]].
  apply map_size_empty_iff. lia.
Qed.

Lemma request_preserves (user : User) (b : RequestBody) (key : string)
    (now : Z) (d : DB) :
  at_most_one_pending d -> at_most_one_pending (request user b key now d).2.
Proof.
  intros Hinv.
  destruct (request_cases user b key now d)
    as [-> | (row & Hfresh & Hnone & -> & ->)]; [done |].
  assert (Hno : forall k r, verification_requests d !! k = Some r ->
                  vr_status r = "pending" ->
                  vr_deed_id r = default "" (deedId b) ->
                  request_type r = default "" (requestType b) -> False).
  { intros k r Hk Hp Hd Ht.
    eapply (map_filter_empty_not_lookup _ _ k r); [exact Hnone | | exact Hk].
    simpl. done. }
  intros k1 k2 r1 r2 H1 H2 P1 P2 Hd Ht.
  unfold with_requests in H1, H2. simpl in H1, H2.
  apply lookup_insert_Some in H1 as [(<- & <-) | (N1 & H1)];
    apply lookup_insert_Some in H2 as [(<- & <-) | (N2 & H2)].
  - done.
  - exfalso. simpl in Hd, Ht. by eapply (Hno k2 r2).
  - exfalso. simpl in Hd, Ht. by eapply (Hno k1 r1).
  - by eapply Hinv.
Qed.

(** The states of the request table the two routes produce, starting
    from an empty table, when every handler runs to its answer before the
    next one starts. *)
Inductive reachable : DB -> Prop :=
| reach_init (d : DB) :
    verification_requests d = ∅ -> reachable d
| reach_request (d : DB) (user : User) (b : RequestBody) (key : string) (now : Z) :
    reachable d -> reachable (request user b key now d).2
| reach_process (d : DB) (user : User) (key : string) (b : ProcessBody) (now : Z) :
    reachable d -> reachable (process user key b now d).2.

Lemma reachable_invariant (d : DB) : reachable d -> at_most_one_pending d.
Proof.
  induction 1 as [d He | d user b key now _ IH | d user key b now _ IH].
  - intros k1 k2 r1 r2 H1. rewrite He in H1. by rewrite lookup_empty in H1.
  - by apply request_preserves.
  - by apply process_preserves.
Qed.

(** A pending request of the same kind for the same deed makes [request]
    answer 409 and leave the database as it is. *)
Lemma request_conflict (user : User) (b : RequestBody) (key : string)
    (now : Z) (d : DB) (deed : LandDeed) (k : string) (pending : VRequest) :
  validate_request b = [] ->
  land_deeds d !! default "" (deedId b) = Some deed ->
  ~ (ld_owner_id deed <> user_id user /\ role user = "citizen") ->
  verification_requests d !! k = Some pending ->
  vr_deed_id pending = default "" (deedId b) ->
  request_type pending = default "" (requestType b) ->
  vr_status pending = "pending" ->
  request user b key now d = (Conflict, d).
Proof.
  intros Hv Hdeed Hperm Hk Hd Ht Hp. unfold request.
  rewrite bool_decide_eq_true_2 by done. simpl. rewrite Hdeed.
  destruct (decide _) as [?|_]; [done |].
  destruct (decide (0 < size _)%nat) as [_|Hs]; [done |].
  exfalso. assert (He : select_pending_requests (default "" (deedId b))
                          (default "" (requestType b)) d = ∅).
  { apply map_size_empty_iff. lia. }
  eapply (map_filter_empty_not_lookup _ _ k pending); [exact He | | exact Hk].
  simpl. done.
Qed.

(** With every handler run to its answer before the next one starts: in
    every state the two routes reach, at most one pending request exists
    per (deed, kind); there, creating a request (valid body, existing
    deed, requester allowed) while a pending one of the same kind exists
    for the same deed is answered with Conflict and inserts nothing; and
    each of the two operations, on any input, leads again to a state with
    at most one pending request per (deed, kind). *)
Theorem one_pending_request_per_deed_and_kind (d : DB) :
  reachable d ->
  at_most_one_pending d
  /\ (forall user b key now deed k pending,
        validate_request b = [] ->
        land_deeds d !! default "" (deedId b) = Some deed ->
        ~ (ld_owner_id deed <> user_id user /\ role user = "citizen") ->
        verification_requests d !! k = Some pending ->
        vr_deed_id pending = default "" (deedId b) ->
        request_type pending = default "" (requestType b) ->
        vr_status pending = "pending" ->
        request user b key now d = (Conflict, d))
  /\ (forall user b key now, at_most_one_pending (request user b key now d).2)
  /\ (forall user key b now, at_most_one_pending (process user key b now d).2).
Proof.
  intros Hr. pose proof (reachable_invariant d Hr) as Hinv.
  split; [exact Hinv |]. split; [| split].
  - intros. by eapply request_conflict.
  - intros. by apply request_preserves.
  - intros. by apply process_preserves.
Qed.

(** Worked example: one deed, its owner, one request already filed. *)
Definition deed_uuid : string := "123e4567-e89b-12d3-a456-426614174000".
Definition alice : User := mkUser "u-alice" "citizen" "alice@example.org".
Definition officer : User := mkUser "u-officer" "government_official" "o@example.org".

Definition db0 : DB :=
  mkDB ∅ 0 [] 0
       {[deed_uuid := mkLandDeed deed_uuid "LR-001" "u-alice" "pending" None]} ∅.

Definition ownership_request : RequestBody :=
  mkRequestBody (Some deed_uuid) (Some "ownership") (Some "please check").

Definition db1 : DB := (request alice ownership_request "R1" 100 db0).2.

Lemma db1_reachable : reachable db1.
Proof. apply reach_request, reach_init. reflexivity. Qed.

Lemma one_pending_request_per_deed_and_kind_witness :
  at_most_one_pending db1
  /\ request alice ownership_request "R2" 101 db1 = (Conflict, db1).
Proof.
  destruct (one_pending_request_per_deed_and_kind db1 db1_reachable)
    as (Hinv & Hconf & _).
  split; [exact Hinv |].
  eapply (Hconf alice ownership_request "R2" 101 _ "R1").
  - vm_compute. reflexivity.
  - vm_compute. reflexivity.
  - intros [H _]. by apply H.
  - vm_compute. reflexivity.
  - reflexivity.
  - reflexivity.
  - reflexivity.
Defined.




Definition approve : ProcessBody := mkProcessBody (Some "approved") (Some "ok").
Definition reject : ProcessBody := mkProcessBody (Some "rejected") None.



(** Two officials process the same pending request at once: both SELECTs
    run before either UPDATE.  Both are answered 200, and the request
    carries the decision whose UPDATE ran last. *)
Example concurrent_processing_applies_both :
  let first := process_handler officer "R1" approve 200 in
  let second := process_handler officer "R1" reject 201 in
  let together := interleave [0; 1; 0; 1]%nat ([first; second], db1) in
  map (fmap status) (answers together) = [Some 200; Some 200]
  /\ (vr_status <$> verification_requests together.2 !! "R1") = Some "rejected".
Proof. vm_compute. split; reflexivity. Qed.

(** C6, where the code breaks it.  The owner's request for a deed and kind
    is sent twice and the two handlers run together: each one's SELECT for
    a pending request runs before the other's INSERT.  Both are answered
    201 and the table holds two pending requests for the one (deed, kind)
    pair.  With the same two handlers run one after the other, the second
    is answered 409 and one pending request is there. *)
Lemma concurrent_requests_leave_two_pending :
  let first := request_handler alice ownership_request "R1" 100 in
  let second := request_handler alice ownership_request "R2" 101 in
  let together := interleave [0; 1; 0; 1; 0; 1]%nat ([first; second], db0) in
  let in_turn := run_alone second (run_alone first db0).2 in
  map (fmap status) (answers together) = [Some 201; Some 201]
  /\ size (select_pending_requests deed_uuid "ownership" together.2) = 2%nat
  /\ ~ at_most_one_pending together.2
  /\ status in_turn.1 = 409
  /\ size (select_pending_requests deed_uuid "ownership" in_turn.2) = 1%nat.
Proof.
  cbv zeta. split; [vm_compute; reflexivity |]. split; [vm_compute; reflexivity |].
  split; [| split; vm_compute; reflexivity].
  intros Hinv.
  assert (H : "R1" = "R2"); [| discriminate].
  eapply (Hinv "R1" "R2"
            (mkVRequest "R1" deed_uuid "u-alice" "ownership" (Some "please check")
                        "pending" None None None 100)
            (mkVRequest "R2" deed_uuid "u-alice" "ownership" (Some "please check")
                        "pending" None None None 101));
    vm_compute; reflexivity.
Qed.






End VerificationFacts.

(* ===================================================================== *)
(** * Properties of the deed routes                                       *)
(* ===================================================================== *)

Module DeedRouteFacts.
Import JS Database DeedRoutes.


(** Each deed number names at most one row of [deeds]. *)
Definition unique_numbers (d : DB) : Prop :=
  forall k1 k2 r1 r2,
    deeds d !! k1 = Some r1 -> deeds d !! k2 = Some r2 ->
    deed_number r1 = deed_number r2 -> k1 = k2.

Lemma select_empty_no_row (n : string) (d : DB) (k : Z) (r : DeedRow) :
  select_deeds_by_number n d = ∅ -> deeds d !! k = Some r -> deed_number r <> n.
Proof.
  intros He Hk Hn.
  by eapply (map_filter_empty_not_lookup _ _ k r); [exact He | | exact Hk].
Qed.

Lemma select_nonempty (n : string) (d : DB) (k : Z) (r : DeedRow) :
  deeds d !! k = Some r -> deed_number r = n ->
  (0 < size (select_deeds_by_number n d))%nat.
Proof.
  intros Hk Hn.
  assert (size (select_deeds_by_number n d) <> 0%nat); [| lia].
  apply map_size_non_empty_iff. intros He.
  by eapply select_empty_no_row.
Qed.

Lemma char_length_le (s : string) : (char_length s <= String.length s)%nat.
Proof.
  induction s as [|a s IH]; simpl; [lia |]. destruct (continuation a); lia.
Qed.

Lemma varchar_fits (n : nat) (s : string) :
  (char_length s <= n)%nat -> varchar n s = Some s.
Proof.
  intros H. unfold varchar. by rewrite (proj2 (Nat.leb_le _ _) H).
Qed.

Lemma varchar_null_fits (n : nat) (o : option string) :
  (forall s, o = Some s -> (char_length s <= n)%nat) ->
  varchar_null n o = Some o.
Proof.
  intros H. destruct o as [s|]; [| done]. simpl. by rewrite varchar_fits by auto.
Qed.

Lemma nul_free_take (n : nat) (s : string) :
  nul_free s = true -> nul_free (take_chars n s) = true.
Proof.
  revert n. induction s as [|a s IH]; intros n; simpl; [done |].
  intros [Ha Hs]%andb_true_iff.
  destruct (continuation a); [| destruct n as [|n]; [done |]];
    simpl; rewrite Ha; by apply IH.
Qed.

Lemma varchar_nul_free (n : nat) (s t : string) :
  nul_free s = true -> varchar n s = Some t -> nul_free t = true.
Proof.
  intros Hs. unfold varchar. destruct (char_length s <=? n)%nat.
  - by intros [= <-].
  - destruct (all_spaces _); [| done]. intros [= <-]. by apply nul_free_take.
Qed.

Lemma digits_nul_free (s : string) : Hex.all_digits s = true -> nul_free s = true.
Proof.
  induction s as [|a s IH]; simpl; [done |].
  intros [Ha Hs]%andb_true_iff. rewrite (IH Hs), andb_true_r.
  apply negb_true_iff, bool_decide_eq_false. intros ->. discriminate.
Qed.

Lemma new_deed_row_number key number title description owner_id
    property_address survey_plan_number extent boundaries document_hash
    ipfs_hash created_by now (row : DeedRow) :
  new_deed_row key number title description owner_id property_address
    survey_plan_number extent boundaries document_hash ipfs_hash created_by now
  = Some row ->
  varchar 100 number = Some (deed_number row).
Proof.
  unfold new_deed_row. destruct (varchar 100 number) as [n|]; [| done].
  cbn [mbind option_bind].
  destruct (varchar 255 title); [| done]. cbn [mbind option_bind].
  destruct (varchar_null 100 survey_plan_number); [| done]. cbn [mbind option_bind].
  destruct (varchar 100 extent); [| done]. cbn [mbind option_bind].
  destruct (varchar_null 255 document_hash); [| done]. cbn [mbind option_bind].
  destruct (varchar_null 255 ipfs_hash); [| done]. cbn [mbind option_bind].
  by intros [= <-].
Qed.

(** What [insert_deed] does, by cases: it refuses the row and leaves the
    table as it is, or it stores the row the columns make of the
    parameters, under a free key, with a number no other row has, owner
    and creator being rows of [users]. *)
Lemma insert_deed_cases users number title description owner_id
    property_address survey_plan_number extent boundaries document_hash
    ipfs_hash created_by now (d : DB) :
  let res := insert_deed users number title description owner_id
               property_address survey_plan_number extent boundaries
               document_hash ipfs_hash created_by now d in
  let key := deeds_seq d + 1 in
  (res.1 = None /\ deeds res.2 = deeds d)
  \/ (exists row,
        res.1 = Some row
        /\ new_deed_row key number title description owner_id property_address
             survey_plan_number extent boundaries document_hash ipfs_hash
             created_by now = Some row
        /\ nul_free (deed_number row) = true
        /\ deeds d !! key = None
        /\ select_deeds_by_number (deed_number row) d = ∅
        /\ is_Some (users !! owner_id) /\ is_Some (users !! created_by)
        /\ deeds res.2 = <[key := row]> (deeds d)).
Proof.
  intros res key. subst res key. unfold insert_deed.
  destruct (negb _) eqn:Hpar; [by left |].
  destruct (new_deed_row _ _ _ _ _ _ _ _ _ _ _ _ _) as [row|] eqn:Hrow;
    [| by left].
  destruct (decide (is_Some (deeds d !! (deeds_seq d + 1)))) as [Hk|Hk];
    [by left |].
  destruct (decide (select_deeds_by_number (deed_number row) d <> ∅)) as [Hn|Hn];
    [by left |].
  destruct (bool_decide (is_Some (users !! owner_id))) eqn:Ho; [| by left].
  destruct (bool_decide (is_Some (users !! created_by))) eqn:Hc; [| by left].
  right. exists row. cbn [fst snd negb andb].
  apply bool_decide_eq_true in Ho, Hc.
  apply negb_false_iff in Hpar. rewrite !andb_true_iff in Hpar.
  repeat split; try done.
  - eapply varchar_nul_free; [| by eapply new_deed_row_number]. tauto.
  - by apply eq_None_not_Some.
  - by destruct (decide (select_deeds_by_number (deed_number row) d = ∅)).
Qed.

(** The row a create body describes, as the table stores it when every
    text is within its column. *)
Definition described (key : Z) (b : CreateBody) (document_hash ipfs_hash :
    option string) (user now : Z) : DeedRow :=
  mkDeedRow key (default "" (b_deed_number b)) (default "" (b_title b))
            (b_description b) (default 0 (b_owner_id b))
            (default "" (b_property_address b)) (b_survey_plan_number b)
            (default "" (b_extent b)) (b_boundaries b) document_hash ipfs_hash
            None "pending" user None now now.

(** A text the [VARCHAR(n)] column stores as it is. *)
Definition fits (n : nat) (s : string) : Prop :=
  nul_free s = true /\ (char_length s <= n)%nat.

(** What 001_initial_schema.sql asks of the row a create body describes,
    [user] being the caller: the texts without NUL and within their
    VARCHAR columns, owner and caller rows of [users] and within INTEGER,
    the next key of the sequence within INTEGER and free. *)
Definition admissible (users : gmap Z UserRow) (user : Z) (b : CreateBody)
    (d : DB) : Prop :=
  fits 100 (default "" (b_deed_number b))
  /\ fits 255 (default "" (b_title b))
  /\ fits 100 (default "" (b_survey_plan_number b))
  /\ fits 100 (default "" (b_extent b))
  /\ nul_free (default "" (b_description b)) = true
  /\ nul_free (default "" (b_property_address b)) = true
  /\ nul_free (default "" (b_boundaries b)) = true
  /\ is_Some (users !! default 0 (b_owner_id b))
  /\ integer (default 0 (b_owner_id b)) = true
  /\ is_Some (users !! user) /\ integer user = true
  /\ deeds d !! (deeds_seq d + 1) = None
  /\ integer (deeds_seq d + 1) = true.

Lemma nul_free_default (o : option string) :
  nul_free (default "" o) = true -> nul_free_null o = true.
Proof. by destruct o. Qed.

(** An admissible row with a new number, a document hash and a storage
    address that fit their columns is inserted as described. *)
Lemma insert_admissible users (user : Z) (b : CreateBody)
    (document_hash ipfs_hash : option string) (now : Z) (d : DB) :
  admissible users user b d ->
  select_deeds_by_number (default "" (b_deed_number b)) d = ∅ ->
  (forall s, document_hash = Some s -> fits 255 s) ->
  (forall s, ipfs_hash = Some s -> fits 255 s) ->
  let key := deeds_seq d + 1 in
  let row := described key b document_hash ipfs_hash user now in
  insert_deed users (default "" (b_deed_number b)) (default "" (b_title b))
    (b_description b) (default 0 (b_owner_id b))
    (default "" (b_property_address b)) (b_survey_plan_number b)
    (default "" (b_extent b)) (b_boundaries b) document_hash ipfs_hash user now d
  = (Some row,
     with_deeds (<[key := row]> (deeds d))
       (mkDB (deeds d) key (verification_logs d) (logs_seq d) (land_deeds d)
             (verification_requests d))).
Proof.
  intros ([Hn0 Hn] & [Ht0 Ht] & [Hs0 Hs] & [He0 He] & Hd0 & Ha0 & Hb0 & Ho & Hoi
          & Hu & Hui & Hfree & Hki) Hnone Hdh Hih key row.
  subst row key. unfold insert_deed. rewrite Hoi, Hui, Hki, Hn0, Ht0, He0, Ha0.
  rewrite (nul_free_default _ Hd0), (nul_free_default _ Hs0),
    (nul_free_default _ Hb0).
  assert (Hdh0 : nul_free_null document_hash = true).
  { destruct document_hash as [x|]; [| done]. by destruct (Hdh x eq_refl). }
  assert (Hih0 : nul_free_null ipfs_hash = true).
  { destruct ipfs_hash as [x|]; [| done]. by destruct (Hih x eq_refl). }
  rewrite Hdh0, Hih0. cbn [andb negb].
  unfold new_deed_row.
  rewrite (varchar_fits 100 _ Hn), (varchar_fits 255 _ Ht),
    (varchar_fits 100 _ He).
  rewrite (varchar_null_fits 255 document_hash).
  2:{ intros x Hx. by destruct (Hdh x Hx). }
  rewrite (varchar_null_fits 255 ipfs_hash).
  2:{ intros x Hx. by destruct (Hih x Hx). }
  rewrite (varchar_null_fits 100 (b_survey_plan_number b)).
  2:{ intros x Hsome. by rewrite Hsome in Hs. }
  cbn [mbind option_bind deed_number]. rewrite Hfree.
  destruct (decide (is_Some None)) as [Hk|_]; [by destruct Hk |].
  destruct (decide (select_deeds_by_number (default "" (b_deed_number b)) d <> ∅))
    as [Hx|_]; [done |].
  by rewrite !bool_decide_eq_true_2.
Qed.

Lemma insert_unique (d : DB) (m : gmap Z DeedRow) (key : Z) (row : DeedRow) :
  unique_numbers d ->
  select_deeds_by_number (deed_number row) d = ∅ ->
  m = <[key := row]> (deeds d) ->
  forall k1 k2 r1 r2,
    m !! k1 = Some r1 -> m !! k2 = Some r2 ->
    deed_number r1 = deed_number r2 -> k1 = k2.
Proof.
  intros Hinv He -> k1 k2 r1 r2 H1 H2 Hn.
  apply lookup_insert_Some in H1 as [(<- & <-) | (N1 & H1)];
    apply lookup_insert_Some in H2 as [(<- & <-) | (N2 & H2)].
  - done.
  - exfalso. by eapply (select_empty_no_row _ d k2 r2).
  - exfalso. by eapply (select_empty_no_row _ d k1 r1).
  - by eapply Hinv.
Qed.

Lemma alter_unique (m : gmap Z DeedRow) (f : DeedRow -> DeedRow) (key : Z) :
  (forall r, deed_number (f r) = deed_number r) ->
  (forall k1 k2 r1 r2, m !! k1 = Some r1 -> m !! k2 = Some r2 ->
     deed_number r1 = deed_number r2 -> k1 = k2) ->
  forall k1 k2 r1 r2,
    alter f key m !! k1 = Some r1 -> alter f key m !! k2 = Some r2 ->
    deed_number r1 = deed_number r2 -> k1 = k2.
Proof.
  intros Hf Hinv k1 k2 r1 r2 H1 H2 Hn.
  apply lookup_alter_Some in H1 as [(_ & x1 & H1 & ->) | (_ & H1)];
    apply lookup_alter_Some in H2 as [(_ & x2 & H2 & ->) | (_ & H2)];
    rewrite ?Hf in Hn; by eapply Hinv.
Qed.

Section Routes.
Context {L : Type}.

(** The 409 response of POST /create. *)
Definition Conflict : Response :=
  mkResponse 409 (Obj [("error", Str "Deed with this number already exists")]).

(** A create whose deed number is already in the table is answered 409
    before anything is touched. *)
Lemma create_conflict rt bc ipfs users (user : Z) (b : CreateBody)
    (file : option string) (env : Env) (w : World L) (k : Z) (r : DeedRow) :
  validate_create b = [] ->
  deeds (db w) !! k = Some r ->
  nul_free (deed_number r) = true ->
  deed_number r = default "" (b_deed_number b) ->
  create rt bc ipfs users user b file env w = (Conflict, w).
Proof.
  intros Hv Hk Hclean Hn. unfold create.
  rewrite bool_decide_eq_true_2 by done. cbn [negb].
  rewrite <- Hn, Hclean. cbn [negb].
  destruct (decide (0 < size _)%nat) as [_|Hs]; [done |].
  exfalso. apply Hs. by eapply select_nonempty.
Qed.

(** With the gateway in mock mode the create route never writes to the
    ledger. *)
Lemma create_mock_ledger rt c ipfs users (user : Z) (b : CreateBody)
    (file : option string) (env : Env) (w : World L) :
  ledger (create rt (BlockchainService.mkService L true c) ipfs users user b
                 file env w).2
  = ledger w.
Proof.
  unfold create.
  destruct (negb _); [done |].
  destruct (negb _); [done |].
  destruct (decide (0 < size _)%nat); [done |].
  destruct (process_document rt ipfs file env (files w))
    as [e | [[document_hash ipfs_hash] fs]]; [done |].
  destruct (insert_deed _ _ _ _ _ _ _ _ _ _ _ _ _ _) as [[deed|] db1]; [| done].
  cbn [BlockchainService.createDeed BlockchainService.mockMode].
  by destruct (assign 255 _).
Qed.

(** The deed numbers in the table are texts the server has taken. *)
Definition clean_numbers (d : DB) : Prop :=
  forall k r, deeds d !! k = Some r -> nul_free (deed_number r) = true.

Lemma alter_clean (m : gmap Z DeedRow) (f : DeedRow -> DeedRow) (key : Z) :
  (forall r, deed_number (f r) = deed_number r) ->
  (forall k r, m !! k = Some r -> nul_free (deed_number r) = true) ->
  forall k r, alter f key m !! k = Some r -> nul_free (deed_number r) = true.
Proof.
  intros Hf Hinv k r H.
  apply lookup_alter_Some in H as [(_ & x & H & ->) | (_ & H)];
    rewrite ?Hf; by eapply Hinv.
Qed.

Lemma create_preserves rt bc ipfs users (user : Z) (b : CreateBody)
    (file : option string) (env : Env) (w : World L) :
  unique_numbers (db w) /\ clean_numbers (db w) ->
  unique_numbers (db (create rt bc ipfs users user b file env w).2)
  /\ clean_numbers (db (create rt bc ipfs users user b file env w).2).
Proof.
  intros [Hinv Hclean]. unfold create.
  destruct (negb _); [done |].
  destruct (negb _); [done |].
  destruct (decide (0 < size _)%nat); [done |].
  destruct (process_document rt ipfs file env (files w))
    as [e | [[document_hash ipfs_hash] fs]]; [done |].
  match goal with |- context [insert_deed ?u ?a ?b ?c ?d ?e ?f ?g ?h ?i ?j ?k ?l ?m] =>
    pose proof (insert_deed_cases u a b c d e f g h i j k l m) as Hcases;
    destruct (insert_deed u a b c d e f g h i j k l m) as [[deed|] db1] eqn:Hins
  end; simpl in Hcases.
  - destruct Hcases
      as [[? _] | (row & Hrow & _ & Hnul & Hfresh & Hnone & _ & _ & Hdeeds)];
      [done |].
    injection Hrow as <-.
    assert (Hdb1 : unique_numbers db1 /\ clean_numbers db1).
    { split.
      - unfold unique_numbers. eapply insert_unique; [exact Hinv | | exact Hdeeds].
        exact Hnone.
      - intros k r. rewrite Hdeeds.
        intros [(_ & <-) | (_ & H)]%lookup_insert_Some; [done | by eapply Hclean]. }
    destruct Hdb1 as [Hu1 Hc1].
    destruct (BlockchainService.createDeed _ _ _ _ _ _) as [[e|res] l]; [done |].
    destruct (assign 255 _); [| done].
    simpl. unfold unique_numbers, clean_numbers, update_blockchain_transaction_id,
      with_deeds.
    simpl. split; [by apply alter_unique | by apply alter_clean].
  - destruct Hcases as [[_ Hdeeds] | (row & ? & _)]; [| done].
    simpl. unfold unique_numbers, clean_numbers. by rewrite Hdeeds.
Qed.

Lemma verify_preserves rt bc (user : Z) (key : option Z) (b : VerifyBody)
    (env : Env) (w : World L) :
  unique_numbers (db w) /\ clean_numbers (db w) ->
  unique_numbers (db (verify rt bc user key b env w).2)
  /\ clean_numbers (db (verify rt bc user key b env w).2).
Proof.
  intros [Hinv Hclean]. unfold verify.
  destruct (negb _); [done |].
  destruct key as [key|]; [| done].
  destruct (deeds (db w) !! key); [| done].
  destruct (BlockchainService.verifyDeed _ _ _ _ _ _ _) as [? l].
  simpl. unfold unique_numbers, clean_numbers, insert_log, update_verification,
    with_deeds.
  simpl. split; [by apply alter_unique | by apply alter_clean].
Qed.

(** The worlds the two deed routes can produce, starting from an empty
    [deeds] table; the services may differ from call to call. *)
Inductive reachable : World L -> Prop :=
| reach_init (w : World L) : deeds (db w) = ∅ -> reachable w
| reach_create (w : World L) rt bc ipfs users user b file env :
    reachable w -> reachable (create rt bc ipfs users user b file env w).2
| reach_verify (w : World L) rt bc user key b env :
    reachable w -> reachable (verify rt bc user key b env w).2.

Lemma reachable_numbers (w : World L) :
  reachable w -> unique_numbers (db w) /\ clean_numbers (db w).
Proof.
  induction 1 as [w He | w rt bc ipfs users user b file env _ IH
                 | w rt bc user key b env _ IH].
  - split.
    + intros k1 k2 r1 r2 H1. rewrite He in H1. by rewrite lookup_empty in H1.
    + intros k r H1. rewrite He in H1. by rewrite lookup_empty in H1.
  - by apply create_preserves.
  - by apply verify_preserves.
Qed.

Lemma reachable_unique (w : World L) : reachable w -> unique_numbers (db w).
Proof. intros H. by apply reachable_numbers. Qed.

(** C2, as the code has it.  In every world the deed routes can reach,
    each deed number names at most one row of the relational store, and a
    valid create request whose deed number is already there is answered
    409 and leaves database, ledger and upload directory exactly as they
    were.  The ledger's own [CreateDeed] guards the identifier, not the
    number: on a present identifier it fails and commits nothing; on a
    fresh identifier it commits, whatever the number, and points the
    number's index entry at the new identifier.  A gateway in mock mode
    writes nothing to the ledger, whatever the create request. *)
Theorem deed_number_conflict (w : World L) :
  reachable w ->
  unique_numbers (db w)
  /\ (forall rt bc ipfs users user b file env k r,
        validate_create b = [] ->
        deeds (db w) !! k = Some r ->
        deed_number r = default "" (b_deed_number b) ->
        create rt bc ipfs users user b file env w = (Conflict, w))
  /\ (forall rt c ipfs users user b file env,
        ledger (create rt (BlockchainService.mkService L true c) ipfs users user b
                       file env w).2 = ledger w)
  /\ (forall (ledger : gmap string Chaincode.Doc) clk deed v,
        ledger !! Chaincode.ID deed = Some v ->
        Chaincode.submit (Chaincode.CreateDeed (Some deed)) clk ledger
        = (Some ("deed with ID " +:+ Chaincode.ID deed +:+ " already exists"),
           ledger))
  /\ (forall (ledger : gmap string Chaincode.Doc) clk deed,
        ledger !! Chaincode.ID deed = None ->
        Chaincode.ID deed <> "" ->
        Chaincode.validCompositeKeyAttribute (Chaincode.DeedNumber deed) = true ->
        exists ledger',
          Chaincode.submit (Chaincode.CreateDeed (Some deed)) clk ledger
          = (None, ledger')
          /\ ledger' !! ChaincodeFacts.indexKey (Chaincode.DeedNumber deed)
             = Some (Chaincode.Raw (Chaincode.ID deed))
          /\ (Chaincode.ID deed <> ChaincodeFacts.indexKey (Chaincode.DeedNumber deed) ->
              ledger' !! Chaincode.ID deed
              = Some (Chaincode.DeedJSON
                        (ChaincodeFacts.created (clk 0%nat) deed)))).
Proof.
  intros Hr. split; [by apply reachable_unique |]. split; [| split; [| split]].
  - intros rt bc ipfs users user b file env k r Hv Hk Hn.
    eapply create_conflict; [done | exact Hk | | done].
    by eapply (proj2 (reachable_numbers w Hr)).
  - intros. apply create_mock_ledger.
  - intros. by eapply ChaincodeFacts.CreateDeed_existing.
  - intros ledger clk deed Hnone Hid Hnum. eexists. split.
    + by apply ChaincodeFacts.CreateDeed_fresh.
    + split; [apply lookup_insert_eq |].
      intros Hne. rewrite lookup_insert_ne by done. apply lookup_insert_eq.
Qed.

(** The columns of a [deeds] row as a response carries them. *)
Definition deed_columns : list string :=
  ["id"; "deed_number"; "title"; "description"; "owner_id";
   "property_address"; "survey_plan_number"; "extent"; "boundaries";
   "document_hash"; "ipfs_hash"; "blockchain_transaction_id";
   "verification_status"; "created_by"; "verified_by"; "created_at";
   "updated_at"].

(** C3, as the code has it.  A create request that passes validation,
    carries an attachment, has a deed number not in the store yet and
    describes a row the schema admits (texts without NUL and within their
    columns, owner and caller rows of [users], the storage address, if
    the upload returns one, within its column) is answered 201 whatever else the
    document store and the ledger gateway do, also when either call
    throws.  The stored row and the returned row carry the SHA-256 of the
    attachment bytes as 64 lowercase hexadecimal characters.  The body has
    the members message and deed only, and deed has the columns of the
    table only.  A failed upload shows as a null ipfs_hash, a failed
    ledger call as a null blockchain_transaction_id; after an upload that
    returns, ipfs_hash is the JSON text of the whole object it returned,
    its mock member included. *)
Theorem create_with_failing_backends rt bc ipfs users (user : Z)
    (b : CreateBody) (path : string) (bytes : list byte) (env : Env)
    (w : World L) :
  validate_create b = [] ->
  select_deeds_by_number (default "" (b_deed_number b)) (db w) = ∅ ->
  admissible users user b (db w) ->
  files w !! path = Some bytes ->
  (forall up,
     IPFSService.uploadFile ipfs (files w) path (Obj []) (random env) = inr up ->
     fits 255 (JSON_stringify rt (IPFSService.Upload_value up))) ->
  let res := create rt bc ipfs users user b (Some path) env w in
  let key := deeds_seq (db w) + 1 in
  let digest := Sha256.sha256_hex bytes in
  let upload :=
    IPFSService.uploadFile ipfs (files w) path (Obj []) (random env) in
  let ledger_call :=
    BlockchainService.createDeed rt bc
      (BlockchainService.mkDeedData (default "" (b_deed_number b))
         (default 0 (b_owner_id b)) (default "" (b_property_address b))
         (Some digest) user (toISOString rt (clock env 1%nat)))
      (clock env 2%nat) (draw env) (ledger w) in
  exists stored returned,
    res.1 = mkResponse 201 (Obj [("message", Str "Deed created successfully");
                                 ("deed", DeedRow_value returned)])
    /\ keys (body res.1) = ["message"; "deed"]
    /\ keys (DeedRow_value returned) = deed_columns
    /\ deeds (db res.2) !! key = Some stored
    /\ document_hash stored = Some digest
    /\ document_hash returned = Some digest
    /\ String.length digest = 64%nat
    /\ Hex.all_digits digest = true
    /\ ((exists e, upload = inl e) ->
        ipfs_hash stored = None /\ ipfs_hash returned = None)
    /\ (forall up, upload = inr up ->
        ipfs_hash stored = Some (JSON_stringify rt (IPFSService.Upload_value up))
        /\ ipfs_hash returned = ipfs_hash stored)
    /\ ((exists e, ledger_call.1 = inl e) ->
        blockchain_transaction_id stored = None
        /\ blockchain_transaction_id returned = None).
Proof.
  intros Hv Hnone Hadm Hfile Hfits res key digest upload ledger_call.
  destruct (HashFacts.sha256_hex_shape bytes) as [Hlen Hhex].
  subst res. unfold create.
  rewrite bool_decide_eq_true_2 by done. cbn [negb].
  rewrite (proj1 (proj1 Hadm)). cbn [negb].
  destruct (decide (0 < size _)%nat) as [Hs|_].
  { rewrite Hnone, map_size_empty in Hs. lia. }
  unfold process_document. rewrite Hfile.
  fold digest in Hlen, Hhex |- *. fold upload in Hfits |- *.
  assert (Hdigest : forall s, Some digest = Some s -> fits 255 s).
  { intros s [= <-]. split; [by apply digits_nul_free |].
    pose proof (char_length_le digest). lia. }
  set (address := match upload with
                  | inr up => Some (JSON_stringify rt (IPFSService.Upload_value up))
                  | inl _ => None
                  end).
  assert (Haddress : forall s, address = Some s -> fits 255 s).
  { intros s. subst address. destruct upload as [e|up]; [done |].
    intros [= <-]. by apply Hfits. }
  rewrite (insert_admissible users user b (Some digest) address (clock env 0%nat)
             (db w) Hadm Hnone Hdigest Haddress).
  fold key. fold ledger_call.
  assert (Hup : (exists e, upload = inl e) -> address = None).
  { intros [e He]. subst address. by rewrite He. }
  assert (Hup' : forall up, upload = inr up ->
            address = Some (JSON_stringify rt (IPFSService.Upload_value up))).
  { intros up He. subst address. by rewrite He. }
  clearbody address upload ledger_call. clearbody digest.
  destruct ledger_call as [[e|blockchainResult] l]; cbn [fst snd].
  - eexists _, _. split; [reflexivity |]. split; [reflexivity |].
    split; [reflexivity |].
    split; [apply lookup_insert_eq |].
    cbn [described document_hash ipfs_hash blockchain_transaction_id].
    split; [reflexivity |]. split; [reflexivity |].
    split; [exact Hlen |]. split; [exact Hhex |].
    split; [intros He; split; by apply Hup |].
    split; [intros up He; split; [by apply Hup' | reflexivity] |].
    intros _. split; reflexivity.
  - destruct (assign 255 (transactionId blockchainResult)) as [tx|];
      cbn [fst snd].
    + eexists _, _. split; [reflexivity |]. split; [reflexivity |].
      split; [reflexivity |].
      split.
      { unfold update_blockchain_transaction_id, with_deeds. cbn [deeds db].
        rewrite lookup_alter_eq, lookup_insert_eq. reflexivity. }
      cbn [described document_hash ipfs_hash blockchain_transaction_id
           set_blockchain_transaction_id].
      split; [reflexivity |]. split; [reflexivity |].
      split; [exact Hlen |]. split; [exact Hhex |].
      split; [intros He; split; by apply Hup |].
      split; [intros up He; split; [by apply Hup' | reflexivity] |].
      intros [e' He']. discriminate.
    + eexists _, _. split; [reflexivity |]. split; [reflexivity |].
      split; [reflexivity |].
      split; [apply lookup_insert_eq |].
      cbn [described document_hash ipfs_hash blockchain_transaction_id].
      split; [reflexivity |]. split; [reflexivity |].
      split; [exact Hlen |]. split; [exact Hhex |].
      split; [intros He; split; by apply Hup |].
      split; [intros up He; split; [by apply Hup' | reflexivity] |].
      intros [e' He']. discriminate.
Qed.


End Routes.

(** ** Worked examples *)

(** A gateway in mock mode, one whose peer is down, a document store
    whose node refuses the upload. *)
Definition mock_gateway {L} : BlockchainService.Service L :=
  BlockchainService.mkService L true None.

Definition down_gateway : BlockchainService.Service unit :=
  BlockchainService.mkService unit false
    (Some (BlockchainService.mkContract unit
             (fun _ _ l => (inl "14 UNAVAILABLE: failed to connect", l))
             (fun _ _ _ => inl "14 UNAVAILABLE: failed to connect"))).

Definition mock_store : IPFSService.Service := IPFSService.mkService None false.

Definition failing_store : IPFSService.Service :=
  IPFSService.mkService
    (Some (IPFSService.mkClient (fun _ _ _ => inl "connect ECONNREFUSED")
                                (fun _ => inl "connect ECONNREFUSED")))
    true.

(** The users of the examples: a registry clerk and two owners. *)
Definition users0 : gmap Z UserRow :=
  {[2 := mkUserRow 2 "clerk" "clerk@example.org" "government_official"
                   (Some "Registry Clerk") true;
    4 := mkUserRow 4 "amal" "amal@example.org" "citizen" (Some "Amal") true;
    5 := mkUserRow 5 "bimal" "bimal@example.org" "citizen" None true]}.

Definition env0 : Env := mkEnv (fun n => 1700000000000 + Z.of_nat n) (repeat x2a 32) 17.

Definition body_LR1 : CreateBody :=
  mkCreateBody (Some "LR-001") (Some "Plot 12") None (Some 4)
               (Some "12 Main St") None (Some "10 perches") None.

Definition body_LR1_again : CreateBody :=
  mkCreateBody (Some "LR-001") (Some "Plot 12, second filing") None (Some 5)
               (Some "12 Main St") None (Some "10 perches") None.

Definition world0 : World (gmap string Chaincode.Doc) :=
  mkWorld Database.empty ∅ ∅.

Definition world1 : World (gmap string Chaincode.Doc) :=
  (create example_runtime mock_gateway mock_store users0 2 body_LR1 None env0 world0).2.

Lemma world1_reachable : reachable world1.
Proof. apply reach_create, reach_init. reflexivity. Qed.

Lemma deed_number_conflict_witness :
  unique_numbers (db world1)
  /\ create example_runtime mock_gateway mock_store users0 2 body_LR1_again None env0 world1
     = (Conflict, world1).
Proof.
  destruct (deed_number_conflict world1 world1_reachable) as (Hinv & Hconf & _).
  split; [exact Hinv |].
  eapply (Hconf _ _ _ _ _ _ _ _ 1).
  - reflexivity.
  - vm_compute. reflexivity.
  - reflexivity.
Defined.

(** C2, refuted as stated.  On the ledger, a second create that reuses a
    deed number under a new identifier commits: two records carry the
    number and the index is repointed.  Through the create route with the
    gateway in mock mode, the first create is answered 201, the second
    409, the relational store holds one row for the number, and the
    ledger holds no record at all. *)
Lemma one_number_two_ledger_records :
  (let s1 := Chaincode.submit (Chaincode.CreateDeed (Some ChaincodeFacts.deed_A))
               (fun _ => 1) ∅ in
   let s2 := Chaincode.submit (Chaincode.CreateDeed (Some ChaincodeFacts.deed_B))
               (fun _ => 2) s1.2 in
   s1.1 = None /\ s2.1 = None
   /\ (s2.2 !! "A" ≫= ChaincodeFacts.doc_number) = Some "LR-001"
   /\ (s2.2 !! "B" ≫= ChaincodeFacts.doc_number) = Some "LR-001"
   /\ s2.2 !! ChaincodeFacts.indexKey "LR-001" = Some (Chaincode.Raw "B"))
  /\
  (let r1 := create example_runtime mock_gateway mock_store users0 2 body_LR1 None env0 world0 in
   let r2 := create example_runtime mock_gateway mock_store users0 2 body_LR1_again None env0 r1.2 in
   status r1.1 = 201 /\ status r2.1 = 409
   /\ size (select_deeds_by_number "LR-001" (db r2.2)) = 1%nat
   /\ ledger r2.2 = ∅).
Proof.
  split.
  - pose proof ChaincodeFacts.second_CreateDeed_same_number as H.
    cbv zeta in H. cbv zeta. tauto.
  - vm_compute. repeat split.
Qed.

Definition scan : list byte := list_byte_of_string "deed scan".

Definition world_upload : World unit :=
  mkWorld Database.empty tt {["uploads/deeds/deed-1.pdf" := scan]}.

(** The ledger status of a response body, as the interface of the
    coordinator names it. *)
Definition ledgerStatus (body : Value) : option Value := field "ledgerStatus" body.

(** C3, refuted as stated.  With the document store refusing the upload
    and the ledger peer down, the create is answered 201 and the stored
    row carries the digest of the attachment, but nothing in the response
    flags it as degraded: the body has the members message and deed, and
    no ledgerStatus. *)
Lemma degraded_create_is_not_flagged :
  let res := create example_runtime down_gateway failing_store users0 2 body_LR1
               (Some "uploads/deeds/deed-1.pdf") env0 world_upload in
  status res.1 = 201
  /\ keys (body res.1) = ["message"; "deed"]
  /\ ledgerStatus (body res.1) = None
  /\ field "degraded" (body res.1) = None
  /\ (document_hash <$> deeds (db res.2) !! 1)
     = Some (Some "852f0a1f2ef1e34913d8b994b7a9cc61368e866b63901d01b8e6f64f374f622d")
  /\ (ipfs_hash <$> deeds (db res.2) !! 1) = Some None
  /\ (blockchain_transaction_id <$> deeds (db res.2) !! 1) = Some None.
Proof. vm_compute. repeat split. Qed.

Lemma create_with_failing_backends_witness :
  let res := create example_runtime down_gateway failing_store users0 2 body_LR1
               (Some "uploads/deeds/deed-1.pdf") env0 world_upload in
  status res.1 = 201
  /\ (document_hash <$> deeds (db res.2) !! 1) = Some (Some (Sha256.sha256_hex scan)).
Proof.
  cbv zeta.
  destruct (create_with_failing_backends example_runtime down_gateway failing_store
              users0 2 body_LR1 "uploads/deeds/deed-1.pdf" scan env0 world_upload)
    as (stored & returned & Hres & _ & _ & Hlook & Hhash & _).
  - reflexivity.
  - reflexivity.
  - unfold admissible, fits.
    repeat split; try (vm_compute; lia); try reflexivity; by eexists.
  - reflexivity.
  - intros up. vm_compute. discriminate.
  - split.
    + rewrite Hres. reflexivity.
    + change (deeds_seq (db world_upload) + 1) with 1 in Hlook.
      rewrite Hlook. simpl. by rewrite Hhash.
Defined.






End DeedRouteFacts.

(* ===================================================================== *)
(** * Properties of the chaincode, continued                              *)
(* ===================================================================== *)

Module RegistryFacts.
Import Chaincode Registry.

(** ** Transactions write through [PutState] only *)

Definition nonempty_keys (ws : list (string * Doc)) : Prop :=
  Forall (fun kv => kv.1 <> "") ws.

(** A computation is tame when it leaves the committed state alone and
    adds only writes under non-empty keys. *)
Definition tame {A} (m : M A) : Prop :=
  forall c, committed (m c).2 = committed c
            /\ (nonempty_keys (writes c) -> nonempty_keys (writes (m c).2)).

Lemma tame_ret {A} (a : A) : tame (ret a).
Proof. intros c. done. Qed.

Lemma tame_fail {A} (e : string) : tame (@fail A e).
Proof. intros c. done. Qed.

Lemma tame_bind {A B} (m : M A) (k : A -> M B) :
  tame m -> (forall a, tame (k a)) -> tame (bind m k).
Proof.
  intros Hm Hk c. unfold bind. destruct (Hm c) as [H1 H2].
  destruct (m c) as [[e|a] c'] eqn:E; simpl in *; [done |].
  destruct (Hk a c') as [H3 H4]. split; [congruence | auto].
Qed.

Lemma tame_GetState (key : string) : tame (GetState key).
Proof. intros c. done. Qed.

Lemma tame_Now : tame Now.
Proof. intros c. done. Qed.

Lemma tame_PutState (key : string) (v : Doc) : tame (PutState key v).
Proof.
  intros c. unfold PutState. destruct (decide (key = "")); [done |].
  simpl. split; [done |]. intros H. apply Forall_app. split; [done |].
  by apply Forall_singleton.
Qed.

Lemma tame_CreateCompositeKey (o a : string) : tame (CreateCompositeKey o a).
Proof.
  unfold CreateCompositeKey. destruct (_ && _); [apply tame_ret | apply tame_fail].
Qed.

Lemma tame_GetDeed (deedID : string) : tame (GetDeed deedID).
Proof.
  unfold GetDeed. apply tame_bind; [apply tame_GetState |].
  intros [v|]; [| apply tame_fail].
  destruct (unmarshalDeed v); [apply tame_fail | apply tame_ret].
Qed.

Lemma tame_assertString (v : JVal) : tame (assertString v).
Proof. destruct v; [apply tame_ret | apply tame_fail]. Qed.

Create HintDb tame.
#[local] Hint Resolve tame_ret tame_fail tame_GetState tame_Now tame_PutState
  tame_CreateCompositeKey tame_GetDeed tame_assertString : tame.

Ltac tame_step :=
  first [ solve [auto with tame] | apply tame_bind; [| intros ?] ].

Lemma tame_CreateDeed (deedData : option Deed) : tame (CreateDeed deedData).
Proof.
  destruct deedData as [deed|]; [| apply tame_fail]. unfold CreateDeed, DeedExists.
  repeat tame_step. destruct a; repeat tame_step.
Qed.

Lemma tame_TransferDeed (transferData : option Transfer) :
  tame (TransferDeed transferData).
Proof.
  destruct transferData as [t|]; [| apply tame_fail]. unfold TransferDeed.
  repeat tame_step. destruct (decide _); repeat tame_step.
Qed.

Lemma tame_UpdateDeed (deedID : string) (updates : option Updates) :
  tame (UpdateDeed deedID updates).
Proof.
  unfold UpdateDeed. apply tame_bind; [apply tame_GetDeed |]. intros deed.
  destruct updates as [[[s|] [vs|] [vb|]]|]; repeat tame_step.
Qed.

Lemma apply_writes_empty_key (ws : list (string * Doc)) (w : gmap string Doc) :
  nonempty_keys ws -> w !! "" = None -> apply_writes ws w !! "" = None.
Proof.
  unfold apply_writes. revert w.
  induction ws as [|[k v] ws IH]; intros w Hws Hw; [done |].
  simpl. inversion Hws as [|? ? Hk Hrest]; subst. apply IH; [done |].
  simpl in Hk. by rewrite lookup_insert_ne.
Qed.

Lemma submit_tame (tx : M unit) (clk : nat -> Time) (w : gmap string Doc) :
  tame tx -> w !! "" = None -> (submit tx clk w).2 !! "" = None.
Proof.
  intros Ht Hw. unfold submit.
  destruct (Ht (mkCtx w [] clk 0%nat)) as [_ Hws].
  destruct (tx _) as [[e|[]] c]; simpl in *; [done |].
  apply apply_writes_empty_key; [| done]. apply Hws. constructor.
Qed.

(** Nothing is ever stored under the empty key: whatever their input,
    [CreateDeed], [UpdateDeed] and [TransferDeed] keep a world state free
    of it. *)
Theorem empty_key_never_written (w : gmap string Doc) (clk : nat -> Time)
    (deedData : option Deed) (deedID : string) (updates : option Updates)
    (transferData : option Transfer) :
  w !! "" = None ->
  (submit (CreateDeed deedData) clk w).2 !! "" = None
  /\ (submit (UpdateDeed deedID updates) clk w).2 !! "" = None
  /\ (submit (TransferDeed transferData) clk w).2 !! "" = None.
Proof.
  intros Hw. repeat split; apply submit_tame; try done.
  - apply tame_CreateDeed.
  - apply tame_UpdateDeed.
  - apply tame_TransferDeed.
Qed.

Lemma empty_key_never_written_witness :
  (submit (CreateDeed (Some ChaincodeFacts.deed_A)) (fun _ => 1) ∅).2 !! "" = None.
Proof.
  destruct (empty_key_never_written ∅ (fun _ => 1) (Some ChaincodeFacts.deed_A)
              "" None None) as [H _]; [reflexivity | exact H].
Defined.

(** ** Reading back what was written *)

Lemma GetDeed_run (w : gmap string Doc) (ws : list (string * Doc))
    (clk : nat -> Time) (n : nat) (k : string) (d : Deed) :
  w !! k = Some (DeedJSON d) ->
  GetDeed k (mkCtx w ws clk n) = (inr d, mkCtx w ws clk n).
Proof. intros H. unfold GetDeed, bind, GetState. simpl. by rewrite H. Qed.

Lemma GetDeedByNumber_run json_text (w : gmap string Doc) (clk : nat -> Time)
    (num id : string) (d : Deed) :
  validCompositeKeyAttribute num = true ->
  w !! ChaincodeFacts.indexKey num = Some (Raw id) ->
  w !! id = Some (DeedJSON d) ->
  evaluate (GetDeedByNumber json_text num) clk w = inr d.
Proof.
  intros Hv Hi Hd. unfold evaluate, GetDeedByNumber, bind, CreateCompositeKey.
  change (validCompositeKeyAttribute "deedNumber") with true.
  rewrite Hv. simpl. unfold GetState. simpl.
  change (NUL +:+ "deedNumber" +:+ NUL +:+ num +:+ NUL)
    with (ChaincodeFacts.indexKey num).
  rewrite Hi. simpl. by rewrite (GetDeed_run _ _ _ _ _ d).
Qed.

(** Create, then read by number: the deed comes back as stored, that is
    with the caller's fields except status and verification status, which
    are "pending", and the two timestamps, which are the commit's clock
    reading, whatever the caller had put there. *)
Theorem create_then_get_by_number json_text (w : gmap string Doc)
    (clk clk' : nat -> Time) (deed : Deed) :
  w !! ID deed = None ->
  ID deed <> "" ->
  validCompositeKeyAttribute (DeedNumber deed) = true ->
  ID deed <> ChaincodeFacts.indexKey (DeedNumber deed) ->
  let w' := (submit (CreateDeed (Some deed)) clk w).2 in
  let stored := ChaincodeFacts.created (clk 0%nat) deed in
  evaluate (GetDeedByNumber json_text (DeedNumber deed)) clk' w' = inr stored
  /\ evaluate (GetDeed (ID deed)) clk' w' = inr stored
  /\ Status stored = "pending" /\ VerificationStatus stored = "pending"
  /\ CreatedAt stored = clk 0%nat /\ UpdatedAt stored = clk 0%nat
  /\ OwnerID stored = OwnerID deed /\ IPFSHash stored = IPFSHash deed.
Proof.
  intros Hfresh Hid Hnum Hne w' stored. subst w'.
  rewrite ChaincodeFacts.CreateDeed_fresh by done. cbn [fst snd].
  assert (Hd : (<[ChaincodeFacts.indexKey (DeedNumber deed) := Raw (ID deed)]>
                  (<[ID deed := DeedJSON stored]> w)) !! ID deed
               = Some (DeedJSON stored)).
  { rewrite lookup_insert_ne by congruence. apply lookup_insert_eq. }
  split.
  { eapply GetDeedByNumber_run; [done | apply lookup_insert_eq | exact Hd]. }
  split.
  { unfold evaluate. by rewrite (GetDeed_run _ _ _ _ _ stored). }
  repeat split.
Qed.

Definition plain_text (v : Doc) : string := "{}".

Lemma create_then_get_by_number_witness :
  evaluate (GetDeedByNumber plain_text "LR-001") (fun _ => 9)
    (submit (CreateDeed (Some ChaincodeFacts.deed_A)) (fun _ => 1) ∅).2
  = inr (ChaincodeFacts.created 1 ChaincodeFacts.deed_A).
Proof.
  destruct (create_then_get_by_number plain_text ∅ (fun _ => 1) (fun _ => 9)
              ChaincodeFacts.deed_A) as [H _];
    [reflexivity | discriminate | reflexivity | discriminate | exact H].
Defined.

(** A second deed created under a number already in use takes the number
    over: lookup by number yields the second deed, and the first, still
    stored, is reachable by its identifier only. *)
Theorem second_create_takes_over_number json_text (w : gmap string Doc)
    (clk1 clk2 clk' : nat -> Time) (dA dB : Deed) :
  w !! ID dA = None -> w !! ID dB = None ->
  ID dA <> "" -> ID dB <> "" -> ID dA <> ID dB ->
  DeedNumber dB = DeedNumber dA ->
  validCompositeKeyAttribute (DeedNumber dA) = true ->
  ID dA <> ChaincodeFacts.indexKey (DeedNumber dA) ->
  ID dB <> ChaincodeFacts.indexKey (DeedNumber dA) ->
  let w1 := (submit (CreateDeed (Some dA)) clk1 w).2 in
  let r2 := submit (CreateDeed (Some dB)) clk2 w1 in
  r2.1 = None
  /\ evaluate (GetDeedByNumber json_text (DeedNumber dA)) clk' r2.2
     = inr (ChaincodeFacts.created (clk2 0%nat) dB)
  /\ evaluate (GetDeed (ID dA)) clk' r2.2
     = inr (ChaincodeFacts.created (clk1 0%nat) dA).
Proof.
  intros HA HB HnA HnB Hne Hnum Hv HkA HkB w1 r2. subst r2 w1.
  assert (HkA' : ChaincodeFacts.indexKey (DeedNumber dA) <> ID dA) by congruence.
  assert (HkB' : ChaincodeFacts.indexKey (DeedNumber dA) <> ID dB) by congruence.
  assert (Hne' : ID dB <> ID dA) by congruence.
  rewrite (ChaincodeFacts.CreateDeed_fresh w clk1 dA) by done. cbn [fst snd].
  rewrite ChaincodeFacts.CreateDeed_fresh; try done.
  2:{ rewrite lookup_insert_ne by done. rewrite lookup_insert_ne by done. done. }
  2:{ by rewrite Hnum. }
  cbn [fst snd]. split; [done |]. rewrite Hnum. split.
  - eapply GetDeedByNumber_run; [done | apply lookup_insert_eq |].
    rewrite lookup_insert_ne by done. apply lookup_insert_eq.
  - unfold evaluate. erewrite GetDeed_run; [done |].
    rewrite lookup_insert_ne by done.
    rewrite lookup_insert_ne by done.
    rewrite lookup_insert_ne by done. apply lookup_insert_eq.
Qed.

Lemma second_create_takes_over_number_witness :
  evaluate (GetDeedByNumber plain_text "LR-001") (fun _ => 9)
    (submit (CreateDeed (Some ChaincodeFacts.deed_B)) (fun _ => 2)
       (submit (CreateDeed (Some ChaincodeFacts.deed_A)) (fun _ => 1) ∅).2).2
  = inr (ChaincodeFacts.created 2 ChaincodeFacts.deed_B).
Proof.
  destruct (second_create_takes_over_number plain_text ∅ (fun _ => 1)
              (fun _ => 2) (fun _ => 9) ChaincodeFacts.deed_A ChaincodeFacts.deed_B)
    as (_ & H & _);
    [reflexivity | reflexivity | discriminate | discriminate | discriminate
    | reflexivity | reflexivity | discriminate | discriminate | exact H].
Defined.

(** ** Update *)

(** The fields no update can change. *)
Definition same_identity (d d' : Deed) : Prop :=
  ID d' = ID d /\ DeedNumber d' = DeedNumber d /\ OwnerID d' = OwnerID d
  /\ PropertyAddress d' = PropertyAddress d /\ PropertyType d' = PropertyType d
  /\ LandArea d' = LandArea d /\ LandAreaUnit d' = LandAreaUnit d
  /\ IPFSHash d' = IPFSHash d /\ CreatedAt d' = CreatedAt d.

(** [UpdateDeed] on a stored deed, whatever the update: either it fails
    and the world state is as before, or it rewrites that one key with a
    deed of the same identifier, number, owner, property data, document
    hash and creation time.  A present "status" that is not a string makes
    it fail. *)
Theorem UpdateDeed_keeps_identity (w : gmap string Doc) (clk : nat -> Time)
    (deedID : string) (updates : option Updates) (d : Deed) :
  w !! deedID = Some (DeedJSON d) ->
  let r := submit (UpdateDeed deedID updates) clk w in
  ((r.1 <> None /\ r.2 = w)
   \/ (exists d', r.1 = None /\ r.2 = <[deedID := DeedJSON d']> w
                  /\ same_identity d d'))
  /\ (forall u, updates = Some u -> u_status u = Some JOther ->
        r.1 <> None /\ r.2 = w).
Proof.
  intros Hd r. remember (submit (UpdateDeed deedID updates) clk w) as res eqn:Hr.
  subst r. unfold submit, UpdateDeed in Hr. unfold bind at 1 in Hr.
  rewrite (GetDeed_run _ _ _ _ _ d Hd) in Hr.
  destruct updates as [[st vs vb]|].
  2:{ simpl in Hr. subst res. split; [by left | intros u Hu; discriminate]. }
  destruct st as [[s|]|], vs as [[s'|]|], vb as [[s''|]|];
    unfold bind, assertString, ret, fail, Now, PutState in Hr; simpl in Hr;
    destruct (decide (deedID = "")); simpl in Hr; subst res;
    (split; [first [ by left | right; eexists; repeat split; reflexivity ]
            | intros u [= <-]; simpl; first [ discriminate | by intros _ ] ]).
Qed.

Lemma UpdateDeed_keeps_identity_witness :
  (submit (UpdateDeed "D1" (Some (mkUpdates (Some (JString "verified")) None None)))
          (fun _ => 8) {["D1" := DeedJSON ChaincodeFacts.deed_D1]}).2
  = <["D1" := DeedJSON (set_UpdatedAt 8 (set_Status "verified" ChaincodeFacts.deed_D1))]>
      {["D1" := DeedJSON ChaincodeFacts.deed_D1]}.
Proof.
  destruct (UpdateDeed_keeps_identity {["D1" := DeedJSON ChaincodeFacts.deed_D1]}
              (fun _ => 8) "D1"
              (Some (mkUpdates (Some (JString "verified")) None None))
              ChaincodeFacts.deed_D1) as [_ _]; [reflexivity |].
  reflexivity.
Defined.

(** [UpdateDeed] with string values: exactly the supplied fields are
    applied; the verification time is stamped exactly when a verifier is
    supplied, and the update time is the last clock reading taken. *)
Theorem UpdateDeed_applies_supplied_fields (w : gmap string Doc)
    (clk : nat -> Time) (deedID : string) (st vs vb : option string) (d : Deed) :
  w !! "" = None ->
  w !! deedID = Some (DeedJSON d) ->
  let updates := mkUpdates (JString <$> st) (JString <$> vs) (JString <$> vb) in
  exists d',
    submit (UpdateDeed deedID (Some updates)) clk w
    = (None, <[deedID := DeedJSON d']> w)
    /\ Status d' = default (Status d) st
    /\ VerificationStatus d' = default (VerificationStatus d) vs
    /\ VerifiedBy d' = default (VerifiedBy d) vb
    /\ VerifiedAt d' = match vb with
                       | Some _ => Some (clk 0%nat)
                       | None => VerifiedAt d
                       end
    /\ UpdatedAt d' = match vb with
                      | Some _ => clk 1%nat
                      | None => clk 0%nat
                      end
    /\ OwnerID d' = OwnerID d.
Proof.
  intros Hw Hd updates. subst updates.
  assert (Hne : deedID <> "") by (intros ->; congruence).
  remember (submit (UpdateDeed deedID
              (Some (mkUpdates (JString <$> st) (JString <$> vs) (JString <$> vb))))
              clk w) as res eqn:Hr.
  unfold submit, UpdateDeed in Hr. unfold bind at 1 in Hr.
  rewrite (GetDeed_run _ _ _ _ _ d Hd) in Hr.
  destruct st as [s|], vs as [s'|], vb as [s''|];
    unfold bind, assertString, ret, fail, Now, PutState in Hr; simpl in Hr;
    destruct (decide (deedID = "")); try done; simpl in Hr; subst res;
    eexists; repeat split.
Qed.

Lemma UpdateDeed_applies_supplied_fields_witness :
  exists d',
    submit (UpdateDeed "D1" (Some (mkUpdates None (Some (JString "verified"))
                                            (Some (JString "officer-7")))))
           (fun n => 100 + Z.of_nat n) {["D1" := DeedJSON ChaincodeFacts.deed_D1]}
    = (None, <["D1" := DeedJSON d']> {["D1" := DeedJSON ChaincodeFacts.deed_D1]})
    /\ VerifiedAt d' = Some 100 /\ UpdatedAt d' = 101.
Proof.
  destruct (UpdateDeed_applies_supplied_fields {["D1" := DeedJSON ChaincodeFacts.deed_D1]}
              (fun n => 100 + Z.of_nat n) "D1" None (Some "verified")
              (Some "officer-7") ChaincodeFacts.deed_D1)
    as (d' & Hs & _ & _ & _ & Hat & Hup & _); [reflexivity | reflexivity |].
  exists d'. split; [exact Hs |]. split; [exact Hat | exact Hup].
Defined.

(** ** Transfer *)

(** The deed and the record a matching transfer commits. *)
Definition transferred (clk : nat -> Time) (t : Transfer) (d : Deed) : Deed :=
  set_UpdatedAt (clk 0%nat) (set_Status "transferred" (set_OwnerID (ToOwnerID t) d)).

Definition recorded (clk : nat -> Time) (t : Transfer) : Transfer :=
  set_tCreatedAt (clk 2%nat) (set_tID (transferKey (tDeedID t) (Unix (clk 1%nat))) t).

Lemma TransferDeed_commit (w : gmap string Doc) (clk : nat -> Time)
    (t : Transfer) (d : Deed) :
  w !! "" = None ->
  w !! tDeedID t = Some (DeedJSON d) ->
  OwnerID d = FromOwnerID t ->
  submit (TransferDeed (Some t)) clk w
  = (None, <[transferKey (tDeedID t) (Unix (clk 1%nat)) := TransferJSON (recorded clk t)]>
             (<[tDeedID t := DeedJSON (transferred clk t d)]> w)).
Proof.
  intros Hw Hd Hown.
  assert (Hne : tDeedID t <> "") by (intros E; rewrite E in Hd; congruence).
  unfold submit, TransferDeed, bind at 1. rewrite (GetDeed_run _ _ _ _ _ d Hd).
  destruct (decide (OwnerID d <> FromOwnerID t)); [contradiction |].
  unfold bind, Now, PutState. simpl.
  destruct (decide (tDeedID t = "")); [contradiction |]. simpl.
  destruct (decide (transferKey (tDeedID t) (Unix (clk 1%nat)) = ""))
    as [E|_]; [by apply ChaincodeFacts.transferKey_nonempty in E |].
  reflexivity.
Qed.

Lemma TransferDeed_mismatch (w : gmap string Doc) (clk : nat -> Time)
    (t : Transfer) (d : Deed) :
  w !! tDeedID t = Some (DeedJSON d) ->
  OwnerID d <> FromOwnerID t ->
  submit (TransferDeed (Some t)) clk w = (Some OwnershipMismatch, w).
Proof.
  intros Hd Hown.
  unfold submit, TransferDeed, bind at 1. rewrite (GetDeed_run _ _ _ _ _ d Hd).
  by destruct (decide (OwnerID d <> FromOwnerID t)).
Qed.

(** A transfer cannot be replayed: once it has committed and moved the
    deed to a different owner, submitting the same transfer again, at any
    time, fails on the ownership guard and changes nothing. *)
Theorem transfer_replay_rejected (w : gmap string Doc) (clk clk' : nat -> Time)
    (t : Transfer) (d : Deed) :
  w !! "" = None ->
  w !! tDeedID t = Some (DeedJSON d) ->
  OwnerID d = FromOwnerID t ->
  ToOwnerID t <> FromOwnerID t ->
  let r1 := submit (TransferDeed (Some t)) clk w in
  r1.1 = None
  /\ submit (TransferDeed (Some t)) clk' r1.2 = (Some OwnershipMismatch, r1.2).
Proof.
  intros Hw Hd Hown Hto r1. subst r1.
  rewrite (TransferDeed_commit w clk t d) by done. cbn [fst snd]. split; [done |].
  eapply TransferDeed_mismatch.
  - rewrite lookup_insert_ne by apply ChaincodeFacts.transferKey_not_deed.
    apply lookup_insert_eq.
  - done.
Qed.

Definition one_deed : gmap string Doc := {["D1" := DeedJSON ChaincodeFacts.deed_D1]}.

Lemma transfer_replay_rejected_witness :
  let w1 := (submit (TransferDeed (Some ChaincodeFacts.transfer_D1)) (fun _ => 5) one_deed).2 in
  submit (TransferDeed (Some ChaincodeFacts.transfer_D1)) (fun _ => 6) w1
  = (Some OwnershipMismatch, w1).
Proof.
  cbv zeta.
  destruct (transfer_replay_rejected one_deed (fun _ => 5) (fun _ => 6)
              ChaincodeFacts.transfer_D1 ChaincodeFacts.deed_D1) as [_ H];
    [reflexivity | reflexivity | reflexivity | discriminate | exact H].
Defined.

(** Transfer records are keyed by deed and second.  Two transfers of one
    deed that commit within the same second share their key: the second
    record replaces the first, and after both the world state holds one
    key more than before, not two. *)
Theorem transfers_in_one_second_share_a_record (w : gmap string Doc)
    (clk1 clk2 : nat -> Time) (t1 t2 : Transfer) (d : Deed) :
  w !! "" = None ->
  w !! tDeedID t1 = Some (DeedJSON d) ->
  OwnerID d = FromOwnerID t1 ->
  tDeedID t2 = tDeedID t1 ->
  FromOwnerID t2 = ToOwnerID t1 ->
  Unix (clk2 1%nat) = Unix (clk1 1%nat) ->
  let key := transferKey (tDeedID t1) (Unix (clk1 1%nat)) in
  let r1 := submit (TransferDeed (Some t1)) clk1 w in
  let r2 := submit (TransferDeed (Some t2)) clk2 r1.2 in
  r1.1 = None /\ r2.1 = None
  /\ r1.2 !! key = Some (TransferJSON (recorded clk1 t1))
  /\ r2.2 !! key = Some (TransferJSON (recorded clk2 t2))
  /\ dom r2.2 = dom w ∪ {[key]}.
Proof.
  intros Hw Hd Hown Hid Hfrom Hsec key r1 r2. subst r2 r1.
  rewrite (TransferDeed_commit w clk1 t1 d) by done. cbn [fst snd].
  assert (Hk : key <> tDeedID t1) by apply ChaincodeFacts.transferKey_not_deed.
  rewrite (TransferDeed_commit _ clk2 t2 (transferred clk1 t1 d)).
  - cbn [fst snd]. rewrite Hid, Hsec. fold key.
    split; [done |]. split; [done |].
    split; [apply lookup_insert_eq |]. split; [apply lookup_insert_eq |].
    rewrite !dom_insert_L.
    assert (Hin : tDeedID t1 ∈ dom w) by (apply elem_of_dom; eauto).
    apply set_eq. intros x. rewrite !elem_of_union, !elem_of_singleton.
    intuition (subst; auto).
  - rewrite lookup_insert_ne by (apply ChaincodeFacts.transferKey_nonempty).
    rewrite lookup_insert_ne; [done |].
    intros E. rewrite E in Hd. congruence.
  - rewrite Hid. rewrite lookup_insert_ne by done. apply lookup_insert_eq.
  - by rewrite Hfrom.
Qed.

Definition transfer_back : Transfer :=
  mkTransfer "" "D1" "bob" "carol" "gift" 8 0.

Lemma transfers_in_one_second_share_a_record_witness :
  let r1 := submit (TransferDeed (Some ChaincodeFacts.transfer_D1))
              (fun n => 1000000000 * 4 + Z.of_nat n) one_deed in
  let r2 := submit (TransferDeed (Some transfer_back))
              (fun n => 1000000000 * 4 + 500 + Z.of_nat n) r1.2 in
  dom r2.2 = dom one_deed ∪ {["transfer_D1_4"]}.
Proof.
  cbv zeta.
  destruct (transfers_in_one_second_share_a_record one_deed
              (fun n => 1000000000 * 4 + Z.of_nat n)
              (fun n => 1000000000 * 4 + 500 + Z.of_nat n)
              ChaincodeFacts.transfer_D1 transfer_back ChaincodeFacts.deed_D1)
    as (_ & _ & _ & _ & H); [reflexivity .. | exact H].
Defined.

(** A transfer leaves the deed-number index alone: a deed that was
    reachable by number before is reachable by number after, with its new
    owner and status "transferred" and with its identifier, number and
    document hash unchanged. *)
Theorem transfer_keeps_number_lookup json_text (w : gmap string Doc)
    (clk clk' : nat -> Time) (t : Transfer) (d : Deed) :
  w !! "" = None ->
  w !! tDeedID t = Some (DeedJSON d) ->
  OwnerID d = FromOwnerID t ->
  validCompositeKeyAttribute (DeedNumber d) = true ->
  w !! ChaincodeFacts.indexKey (DeedNumber d) = Some (Raw (tDeedID t)) ->
  let w' := (submit (TransferDeed (Some t)) clk w).2 in
  exists d',
    evaluate (GetDeedByNumber json_text (DeedNumber d)) clk' w' = inr d'
    /\ OwnerID d' = ToOwnerID t /\ Status d' = "transferred"
    /\ ID d' = ID d /\ DeedNumber d' = DeedNumber d /\ IPFSHash d' = IPFSHash d.
Proof.
  intros Hw Hd Hown Hv Hi w'. subst w'.
  rewrite (TransferDeed_commit w clk t d) by done. cbn [fst snd].
  exists (transferred clk t d). split; [| done].
  assert (Hk1 : transferKey (tDeedID t) (Unix (clk 1%nat))
                <> ChaincodeFacts.indexKey (DeedNumber d)) by discriminate.
  assert (Hk2 : tDeedID t <> ChaincodeFacts.indexKey (DeedNumber d)).
  { intros E. rewrite E in Hd. congruence. }
  eapply GetDeedByNumber_run; [done | |].
  - rewrite !lookup_insert_ne by done. exact Hi.
  - rewrite lookup_insert_ne by apply ChaincodeFacts.transferKey_not_deed.
    apply lookup_insert_eq.
Qed.

Lemma transfer_keeps_number_lookup_witness :
  let w0 := (submit (CreateDeed (Some ChaincodeFacts.deed_D1)) (fun _ => 1) ∅).2 in
  let w1 := (submit (TransferDeed (Some ChaincodeFacts.transfer_D1)) (fun _ => 5) w0).2 in
  exists d', evaluate (GetDeedByNumber plain_text "LR-001") (fun _ => 9) w1 = inr d'
             /\ OwnerID d' = "bob".
Proof.
  cbv zeta.
  destruct (transfer_keeps_number_lookup plain_text
              (submit (CreateDeed (Some ChaincodeFacts.deed_D1)) (fun _ => 1) ∅).2
              (fun _ => 5) (fun _ => 9) ChaincodeFacts.transfer_D1
              (ChaincodeFacts.created 1 ChaincodeFacts.deed_D1))
    as (d' & Hget & Hown & _); [reflexivity .. |].
  exists d'. split; [exact Hget | exact Hown].
Defined.

End RegistryFacts.

(* ===================================================================== *)
(** * Properties of the services, continued                               *)
(* ===================================================================== *)

Module GatewaySetupFacts.
Import JS BlockchainService GatewaySetup.

(** Mock mode is never left.  A service in mock mode stays in mock mode
    through [initialize], also when the connection succeeds and a contract
    is assigned: its writes still return mock envelopes and leave the
    ledger alone.  A fresh service comes out of [initialize] either in
    mock mode without a contract, or connected, which takes an existing
    profile that parses and a connection that succeeds. *)
Theorem mock_mode_is_never_left {L : Type} (rt : Runtime)
    (c0 : option (Contract L)) (profile : option string)
    (connect : Value -> Result (Contract L)) (d : DeedData) (now draw : Z) (l : L) :
  let this := initialize rt (mkService L true c0) profile connect in
  let started := initialize rt fresh profile connect in
  mockMode this = true
  /\ createDeed rt this d now draw l
     = (inr (Obj [("transactionId", Str ("mock_tx_" +:+ pretty now));
                  ("blockNumber", Num draw); ("success", Bool true)]), l)
  /\ (started = mkService L true None
      \/ exists text v c,
           profile = Some text /\ JSON_parse rt text = Some v
           /\ connect v = inr c /\ started = mkService L false (Some c)).
Proof.
  intros this started. subst this started. unfold initialize, fresh.
  destruct profile as [text|]; simpl.
  2:{ repeat split. by left. }
  destruct (JSON_parse rt text) as [v|] eqn:Hp; simpl.
  2:{ repeat split. by left. }
  destruct (connect v) as [e|c] eqn:Hc; simpl.
  - repeat split. by left.
  - repeat split. right. by exists text, v, c.
Qed.

End GatewaySetupFacts.

Module StoreFacts.
Import JS IPFSService DocumentStore.

(** ** Hex encoding is injective *)

Definition undigit (a : ascii) : N :=
  let n := N_of_ascii a in
  if (n <=? 57)%N then (n - 48)%N else (n - 87)%N.

Lemma undigit_digit (n : N) : (n < 16)%N -> undigit (Hex.digit n) = n.
Proof.
  intros H. destruct n as [|p]; [reflexivity |].
  do 4 (destruct p as [p|p|]; try reflexivity); lia.
Qed.

Lemma byte_of_nibbles (b1 b2 : byte) :
  Hex.digit (Byte.to_N b1 / 16) = Hex.digit (Byte.to_N b2 / 16) ->
  Hex.digit (Byte.to_N b1 mod 16) = Hex.digit (Byte.to_N b2 mod 16) ->
  b1 = b2.
Proof.
  intros Hhi Hlo.
  pose proof (Byte.to_N_bounded b1) as B1. pose proof (Byte.to_N_bounded b2) as B2.
  apply (f_equal undigit) in Hhi, Hlo.
  rewrite !undigit_digit in Hhi, Hlo;
    try (apply N.mod_lt; lia); try (apply N.Div0.div_lt_upper_bound; lia).
  assert (E : Byte.to_N b1 = Byte.to_N b2).
  { rewrite (N.div_mod (Byte.to_N b1) 16), (N.div_mod (Byte.to_N b2) 16) by lia.
    by rewrite Hhi, Hlo. }
  apply (f_equal Byte.of_N) in E. rewrite !Byte.of_to_N in E. congruence.
Qed.

Lemma encode_inj (bs1 bs2 : list byte) :
  Hex.encode bs1 = Hex.encode bs2 -> bs1 = bs2.
Proof.
  revert bs2. induction bs1 as [|b1 bs1 IH]; intros [|b2 bs2] H; simpl in H;
    try done.
  injection H as Hhi Hlo Hrest.
  f_equal; [by apply byte_of_nibbles | by apply IH].
Qed.

(** The mock address is not a content address: it is fixed by the random
    draw alone.  Two mock uploads return the same address exactly when
    their draws are equal, whatever the two payloads are: equal payloads
    get different addresses under different draws, different payloads the
    same address under one draw. *)
Theorem mock_address_ignores_content (c : option Client)
    (buffer1 buffer2 : list byte) (name1 name2 : string) (md1 md2 : Value)
    (random1 random2 : list byte) :
  let this := mkService c false in
  exists up1 up2,
    uploadBuffer this buffer1 name1 md1 random1 = inr up1
    /\ uploadBuffer this buffer2 name2 md2 random2 = inr up2
    /\ (hash up1 = hash up2 <-> random1 = random2).
Proof.
  intros this. subst this. unfold uploadBuffer. simpl.
  eexists _, _. split; [reflexivity |]. split; [reflexivity |]. simpl.
  unfold mockHash. split.
  - intros H. injection H as H. by apply encode_inj.
  - by intros ->.
Qed.

(** [uploadFile] is [uploadBuffer] on the file's content under the file's
    base name, on either backend. *)
Theorem uploadFile_reads_then_uploads (this : Service)
    (files : gmap string (list byte)) (filePath : string) (content : list byte)
    (metadata : Value) (random : list byte) :
  files !! filePath = Some content ->
  uploadFile this files filePath metadata random
  = uploadBuffer this content (basename filePath) metadata random.
Proof.
  intros H. unfold uploadFile, uploadBuffer. rewrite H.
  by destruct (negb (initialized this)).
Qed.

Lemma uploadFile_reads_then_uploads_witness :
  uploadFile DeedRouteFacts.failing_store
    {["uploads/deeds/deed-1.pdf" := DeedRouteFacts.scan]}
    "uploads/deeds/deed-1.pdf" (Obj []) []
  = uploadBuffer DeedRouteFacts.failing_store DeedRouteFacts.scan "deed-1.pdf"
      (Obj []) [].
Proof.
  rewrite (uploadFile_reads_then_uploads DeedRouteFacts.failing_store
             {["uploads/deeds/deed-1.pdf" := DeedRouteFacts.scan]}
             "uploads/deeds/deed-1.pdf" DeedRouteFacts.scan (Obj []) []);
    reflexivity.
Defined.

(** [downloadFile] makes one write, of exactly what [getFileBuffer]
    returns.  When the retrieval fails the download fails and nothing is
    written.  When it succeeds, the bytes retrieved are written to the
    output path: the download succeeds exactly when the write does, with
    the number of bytes as size, it fails with the write's error when the
    write throws, and the files afterwards are those the write leaves.
    With a file system that refuses some paths and otherwise stores the
    data, a refused output path makes the download fail with no file
    changed; any other output path holds the retrieved bytes afterwards
    and no other file changes. *)
Theorem download_writes_what_get_returns (this : Service)
    (writeFileSync : Write) (refuses : string -> option string)
    (ipfsHash outputPath : string) (files : gmap string (list byte)) :
  let r := downloadFile this writeFileSync ipfsHash outputPath files in
  let r' := downloadFile this (write_unless refuses) ipfsHash outputPath files in
  match getFileBuffer this ipfsHash with
  | inl e =>
      (exists e', r.1 = inl e') /\ r.2 = files
      /\ (initialized this = true -> r.1 = inl e)
  | inr bytes =>
      r.2 = (writeFileSync outputPath bytes files).2
      /\ r.1 = match (writeFileSync outputPath bytes files).1 with
               | Some e => inl e
               | None => inr (mkDownload outputPath (Z.of_nat (length bytes)))
               end
      /\ match refuses outputPath with
         | Some e => r' = (inl e, files)
         | None =>
             r'.1 = inr (mkDownload outputPath (Z.of_nat (length bytes)))
             /\ r'.2 !! outputPath = Some bytes
             /\ forall p, p <> outputPath -> r'.2 !! p = files !! p
         end
  end.
Proof.
  intros r r'. subst r r'. unfold downloadFile, getFileBuffer.
  destruct (initialized this); simpl.
  2:{ split; [by eauto |]. split; [done | discriminate]. }
  destruct (ipfs this) as [client|].
  2:{ split; [by eauto |]. done. }
  destruct (cat client ipfsHash) as [e|chunks]; simpl.
  { split; [by eauto |]. done. }
  split; [by destruct (writeFileSync _ _ _) as [[e|] files'] |].
  split; [by destruct (writeFileSync _ _ _) as [[e|] files'] |].
  unfold write_unless. destruct (refuses outputPath) as [e|]; [done |].
  cbn [fst snd]. split; [done |]. split; [apply lookup_insert_eq |].
  intros p Hp. by rewrite lookup_insert_ne.
Qed.

(** Every result names the backend that served it: whatever the service
    state, a result of [uploadFile], [uploadBuffer], [pinFile],
    [unpinFile] or [getFileInfo] has [mock = true] exactly when the
    service is not initialized; and the mock never reports a pin. *)
Theorem results_name_their_backend (this : Service) (node : Node)
    (files : gmap string (list byte)) (filePath filename ipfsHash : string)
    (buffer : list byte) (metadata : Value) (random : list byte) :
  (forall up, uploadFile this files filePath metadata random = inr up ->
     mock up = negb (initialized this))
  /\ (forall up, uploadBuffer this buffer filename metadata random = inr up ->
     mock up = negb (initialized this))
  /\ (forall pinned m, pinFile this node ipfsHash = inr (pinned, m) ->
     m = negb (initialized this) /\ pinned = initialized this)
  /\ (forall unpinned m, unpinFile this node ipfsHash = inr (unpinned, m) ->
     m = negb (initialized this) /\ unpinned = initialized this)
  /\ (forall info, getFileInfo this node ipfsHash = inr info ->
     i_mock info = negb (initialized this)).
Proof.
  unfold uploadFile, uploadBuffer, pinFile, unpinFile, getFileInfo.
  destruct (initialized this); simpl; repeat split;
    intros; repeat (match goal with
                    | H : context [match ?x with _ => _ end] |- _ =>
                        destruct x eqn:?; simplify_eq
                    end); simplify_eq; done.
Qed.

(** After [initialize] the service is initialized only with a handle in
    place, so an initialized service never fails for want of one; and a
    failed connection test turns an initialized service back into the
    mock. *)
Theorem initialize_sets_the_backend (this : Service) (create : Result Client)
    (node : Node) :
  let this' := DocumentStore.initialize this create node in
  (initialized this' = true ->
     exists client v, create = inr client /\ version node = inr v
                      /\ ipfs this' = Some client)
  /\ ((forall client, create <> inr client) \/ (exists e, version node = inl e) ->
      initialized this' = false).
Proof.
  intros this'. subst this'. unfold DocumentStore.initialize.
  destruct create as [e|client]; simpl.
  - split; [done |]. done.
  - destruct (version node) as [e|v] eqn:Hv; simpl.
    + split; [done |]. done.
    + split; [by eauto |]. intros [H | [e He]]; [by destruct (H client) | done].
Qed.

End StoreFacts.

(* ===================================================================== *)
(** * Properties of access control and of the error handler               *)
(* ===================================================================== *)

Module AuthFacts.
Import JS Database Auth.

Lemma rejection_status (verify : string -> Verified) (users : gmap Z UserRow)
    (authorization : option string) (response : Response) :
  authMiddleware verify users authorization = inl response ->
  status response = 401 \/ status response = 500.
Proof.
  unfold authMiddleware.
  destruct (token_of authorization) as [token|]; [| intros [= <-]; by left].
  destruct (decide (token = "")); [intros [= <-]; by left |].
  destruct (verify token) as [[k|]| | |]; simpl;
    try (intros [= <-]; by auto).
  destruct (users !! k) as [u|]; simpl; [| intros [= <-]; by left].
  destruct (is_active u); [done | intros [= <-]; by left].
Qed.

(** [authMiddleware] lets a request through exactly when the header
    carries a non-empty token in second place, the token verifies, its
    user id names a row of [users] and that row is active; the user handed
    on is that row, so the role checked later is the database's, not the
    token's.  Every other request is answered 401, or 500 when
    verification throws an error of another kind. *)
Theorem authentication_admits_active_users_only (verify : string -> Verified)
    (users : gmap Z UserRow) (authorization : option string) :
  (forall row,
     authMiddleware verify users authorization = inr row <->
     exists token k,
       token_of authorization = Some token /\ token <> ""
       /\ verify token = Decoded (Some k)
       /\ users !! k = Some row /\ is_active row = true)
  /\ (forall response,
        authMiddleware verify users authorization = inl response ->
        status response = 401 \/ status response = 500)
  /\ (forall token response,
        token_of authorization = Some token ->
        verify token <> OtherError ->
        authMiddleware verify users authorization = inl response ->
        status response = 401).
Proof.
  unfold authMiddleware. split; [| split].
  - intros row. split.
    + destruct (token_of authorization) as [token|]; [| done].
      destruct (decide (token = "")); [done |].
      destruct (verify token) as [[k|]| | |] eqn:Hv; simpl; try done.
      destruct (users !! k) as [u|] eqn:Hu; simpl; [| done].
      destruct (is_active u) eqn:Ha; [| done].
      intros [= <-]. by exists token, k.
    + intros (token & k & -> & Hne & -> & Hu & Ha). simpl.
      destruct (decide (token = "")); [done |]. rewrite Hu. simpl. by rewrite Ha.
  - intros response. apply rejection_status.
  - intros token response -> Hv.
    destruct (decide (token = "")); [by intros [= <-] |].
    destruct (verify token) as [[k|]| | |] eqn:E; simpl;
      try (by intros [= <-]); try done.
    destruct (users !! k) as [u|]; simpl; [| by intros [= <-]].
    destruct (is_active u); [done | by intros [= <-]].
Qed.

End AuthFacts.

Module ErrorHandlerFacts.
Import JS ErrorHandler.

Definition fixed_messages : list string :=
  ["Internal Server Error"; "Database connection failed";
   "Resource already exists"; "Invalid reference to related resource";
   "Invalid token"; "Token expired"; "File too large"].

Ltac rules :=
  unfold errorHandler, statusCode_message; cbn [name code message stack];
  repeat (match goal with |- context [decide ?P] => destruct (decide P) end);
  cbn [status body].

Lemma status_in_range development n c m s :
  status (errorHandler development (mkError n c m s)) ∈ [400; 401; 409; 413; 500; 503].
Proof. rules; set_solver. Qed.

Lemma file_size_wins development n c m s :
  c = Some "LIMIT_FILE_SIZE" ->
  status (errorHandler development (mkError n c m s)) = 413
  /\ field "error" (body (errorHandler development (mkError n c m s)))
     = Some (Str "File too large").
Proof. intros ->. rules; done. Qed.

Lemma duplicate_beats_validation development n c m s :
  c = Some "23505" -> n = "ValidationError" ->
  status (errorHandler development (mkError n c m s)) = 409.
Proof. intros -> ->. rules; done. Qed.

Lemma message_is_fixed development n c m s :
  n <> "ValidationError" ->
  exists t, field "error" (body (errorHandler development (mkError n c m s)))
            = Some (Str t) /\ t ∈ fixed_messages.
Proof.
  intros Hn. rules; try done.
  all: match goal with
       | |- exists t, field _ (Obj ((_, Str ?x) :: _)) = _ /\ _ => exists x
       end; (split; [reflexivity | set_solver]).
Qed.

Lemma stack_in_development development n c m s :
  is_Some (field "stack" (body (errorHandler development (mkError n c m s))))
  <-> development = true.
Proof.
  unfold errorHandler. destruct (statusCode_message _) as [st msg].
  destruct development; cbn; split; intros H; try done.
  all: first [by eexists | by destruct H].
Qed.

Lemma default_only_when_nothing_matches development n c m s :
  status (errorHandler development (mkError n c m s)) = 500 <->
  n <> "ValidationError" /\ n <> "JsonWebTokenError" /\ n <> "TokenExpiredError"
  /\ c <> Some "ECONNREFUSED" /\ c <> Some "23505" /\ c <> Some "23503"
  /\ c <> Some "LIMIT_FILE_SIZE".
Proof. rules; split; intros H; try done; intuition congruence. Qed.

(** The error handler answers with one of six status codes.  Later rules
    win over earlier ones: an oversized upload is 413 whatever else the
    error says, and a duplicate key is 409 also for an error named
    ValidationError.  The text of the thrown error reaches the client only
    for an error named ValidationError; every other message is one of
    seven fixed texts.  The stack is sent exactly in development. *)
Theorem error_handler_outcomes (development : bool) (error : Error) :
  let r := errorHandler development error in
  status r ∈ [400; 401; 409; 413; 500; 503]
  /\ (code error = Some "LIMIT_FILE_SIZE" ->
      status r = 413 /\ field "error" (body r) = Some (Str "File too large"))
  /\ (code error = Some "23505" -> name error = "ValidationError" ->
      status r = 409)
  /\ (name error <> "ValidationError" ->
      exists m, field "error" (body r) = Some (Str m) /\ m ∈ fixed_messages)
  /\ (is_Some (field "stack" (body r)) <-> development = true)
  /\ (status r = 500 <->
      name error <> "ValidationError" /\ name error <> "JsonWebTokenError"
      /\ name error <> "TokenExpiredError"
      /\ code error <> Some "ECONNREFUSED" /\ code error <> Some "23505"
      /\ code error <> Some "23503" /\ code error <> Some "LIMIT_FILE_SIZE").
Proof.
  intros r. subst r. destruct error as [n c m s].
  split; [apply status_in_range |].
  split; [apply file_size_wins |].
  split; [apply duplicate_beats_validation |].
  split; [apply message_is_fixed |].
  split; [apply stack_in_development |].
  apply default_only_when_nothing_matches.
Qed.

End ErrorHandlerFacts.

(* ===================================================================== *)
(** * Properties of the deed routes, continued                            *)
(* ===================================================================== *)

Module DeedReadFacts.
Import JS Database DeedRoutes Auth DeedReads.

Lemma select_single (d : DB) (k : Z) (r : DeedRow) :
  DeedRouteFacts.unique_numbers d ->
  deeds d !! k = Some r ->
  select_deeds_by_number (deed_number r) d = {[k := r]}.
Proof.
  intros Hu Hk. apply map_eq. intros i. destruct (decide (i = k)) as [->|Hne].
  - rewrite lookup_singleton_eq. by apply map_lookup_filter_Some_2.
  - rewrite lookup_singleton_ne by done. apply eq_None_not_Some. intros [x Hx].
    apply map_lookup_filter_Some in Hx as [Hx Hp]. simpl in Hp.
    apply Hne. by eapply Hu.
Qed.

Lemma filter_insert_fresh (m : gmap Z DeedRow) (n : string) (key : Z)
    (row : DeedRow) :
  filter (fun kv : Z * DeedRow => deed_number kv.2 = n) m = ∅ ->
  deed_number row = n ->
  filter (fun kv : Z * DeedRow => deed_number kv.2 = n) (<[key := row]> m)
  = {[key := row]}.
Proof.
  intros He Hn. rewrite map_filter_insert_True by done. rewrite He.
  apply insert_empty.
Qed.

Section Routes.
Context {L : Type}.

Lemma by_number_found rt bc users user (w : World L) (k : Z) (deed : DeedRow)
    (now : Z) :
  DeedRouteFacts.unique_numbers (db w) ->
  deeds (db w) !! k = Some deed ->
  by_number rt bc users user (deed_number deed) now w
  = if negb (may_read user (owner_id deed)) then
      mkResponse 200 (Obj [("deed", limited_value deed)])
    else
      mkResponse 200
        (Obj [("deed", joined_value users deed);
              ("blockchain",
               if decide (deed_number deed = "") then Null
               else match BlockchainService.getDeed rt bc (deed_number deed) now
                            (ledger w) with
                    | inr v => v
                    | inl _ => Null
                    end)]).
Proof.
  intros Hu Hk. unfold by_number.
  by rewrite (select_single _ k deed Hu Hk), map_to_list_singleton.
Qed.

(** A caller who is neither an official nor the owner gets the limited
    view of a deed: seven members, none of them the owner, the document
    hash, the storage address or the ledger data, and the same answer
    whatever the gateway is or holds. *)
Theorem limited_view_for_strangers rt bc bc' users user (w : World L) (l' : L)
    (k : Z) (deed : DeedRow) (now now' : Z) :
  DeedRouteFacts.unique_numbers (db w) ->
  deeds (db w) !! k = Some deed ->
  may_read user (owner_id deed) = false ->
  let r := by_number rt bc users user (deed_number deed) now w in
  r = mkResponse 200 (Obj [("deed", limited_value deed)])
  /\ keys (limited_value deed)
     = ["id"; "deed_number"; "title"; "property_address"; "extent";
        "verification_status"; "created_at"]
  /\ keys (body r) = ["deed"]
  /\ r = by_number rt bc' users user (deed_number deed) now'
           (mkWorld (db w) l' (files w)).
Proof.
  intros Hu Hk Hno r. subst r.
  rewrite (by_number_found rt bc users user w k deed now Hu Hk).
  rewrite (by_number_found rt bc' users user (mkWorld (db w) l' (files w)) k deed
             now' Hu Hk).
  rewrite Hno. done.
Qed.

(** With the gateway in mock mode, a caller with access is shown ledger
    data saying "verified" for every deed that has a number, whatever the
    deed's verification status in the database is. *)
Theorem mock_ledger_data_says_verified rt c users user (w : World L)
    (k : Z) (deed : DeedRow) (now : Z) :
  DeedRouteFacts.unique_numbers (db w) ->
  deeds (db w) !! k = Some deed ->
  may_read user (owner_id deed) = true ->
  deed_number deed <> "" ->
  let r := by_number rt (BlockchainService.mkService L true c) users user
             (deed_number deed) now w in
  status r = 200
  /\ field "deed" (body r) = Some (joined_value users deed)
  /\ (field "deed" (body r) ≫= field "verification_status")
     = Some (Str (verification_status deed))
  /\ (field "blockchain" (body r) ≫= field "status") = Some (Str "verified").
Proof.
  intros Hu Hk Hyes Hn r. subst r.
  rewrite (by_number_found _ _ _ _ _ k deed now Hu Hk). rewrite Hyes.
  destruct (decide (deed_number deed = "")); [done |]. simpl. done.
Qed.

(** The document route never serves a document: it answers 403, 404 or
    500, never 200; a caller with access to a deed that has a stored
    address is answered 500. *)
Theorem document_is_never_served (user : UserRow) (key : option Z) (w : World L) :
  let r := document user key w in
  status r ∈ [403; 404; 500]
  /\ (forall k deed h,
        key = Some k -> deeds (db w) !! k = Some deed ->
        may_read user (owner_id deed) = true ->
        ipfs_hash deed = Some h -> h <> "" ->
        r = server_error "Failed to retrieve document").
Proof.
  intros r. subst r. unfold document. split.
  - destruct key as [k|]; [| set_solver].
    destruct (deeds (db w) !! k) as [deed|]; [| set_solver].
    destruct (negb _); [set_solver |].
    destruct (ipfs_hash deed) as [h|]; [| set_solver].
    destruct (decide (h = "")); set_solver.
  - intros k deed h -> -> -> -> Hh. simpl. by destruct (decide (h = "")).
Qed.

(** The route in front of [create] admits officials only: any request
    that does not authenticate as an active user whose role in the
    database is government_official or legal_professional is answered
    401, 403 or 500, and nothing is touched: no row, no ledger write, no
    file. *)
Theorem create_is_for_officials rt bc ipfs verify users authorization
    (b : CreateBody) (file : option string) (env : Env) (w : World L) :
  (forall row, authMiddleware verify users authorization = inr row ->
               usr_role row ∉ officials) ->
  let r := post_create rt bc ipfs verify users authorization b file env w in
  r.2 = w /\ status r.1 ∈ [401; 403; 500].
Proof.
  intros Hrole r. subst r. unfold post_create.
  destruct (authMiddleware verify users authorization) as [resp|row] eqn:Ha.
  - split; [done |]. cbn [fst].
    destruct (AuthFacts.rejection_status _ _ _ _ Ha) as [-> | ->]; set_solver.
  - unfold roleMiddleware. rewrite bool_decide_eq_false_2 by auto.
    split; [done |]. cbn [fst status]. set_solver.
Qed.

(** Create, then look up by number.  For a valid body with a new number
    that describes a row the schema admits (texts without NUL and within
    their columns, owner and caller rows of [users]; an attachment, if any, being
    there, and the storage address its upload returns, if any, within its
    column), the answer is 201 and the number then resolves to exactly one
    row, the one just stored, which carries the submitted number, title,
    owner, address and extent, the creator, and status "pending"; and an
    official who looks the number up is answered 200 with that row. *)
Theorem create_then_lookup rt bc ipfs users (user : Z) (b : CreateBody)
    (file : option string) (env : Env) (w : World L) :
  validate_create b = [] ->
  select_deeds_by_number (default "" (b_deed_number b)) (db w) = ∅ ->
  DeedRouteFacts.admissible users user b (db w) ->
  match file with
  | Some p =>
      is_Some (files w !! p)
      /\ forall up,
           IPFSService.uploadFile ipfs (files w) p (Obj []) (random env) = inr up ->
           DeedRouteFacts.fits 255 (JSON_stringify rt (IPFSService.Upload_value up))
  | None => True
  end ->
  let n := default "" (b_deed_number b) in
  let res := create rt bc ipfs users user b file env w in
  exists stored,
    status res.1 = 201
    /\ select_deeds_by_number n (db res.2) = {[deeds_seq (db w) + 1 := stored]}
    /\ deed_number stored = n
    /\ title stored = default "" (b_title b)
    /\ owner_id stored = default 0 (b_owner_id b)
    /\ property_address stored = default "" (b_property_address b)
    /\ extent stored = default "" (b_extent b)
    /\ created_by stored = user
    /\ verification_status stored = "pending"
    /\ forall rt' bc' users' reader now,
         usr_role reader ∈ officials ->
         status (by_number rt' bc' users' reader n now res.2) = 200
         /\ field "deed" (body (by_number rt' bc' users' reader n now res.2))
            = Some (joined_value users' stored).
Proof.
  intros Hv Hnone Hadm Hfile n res. subst res.
  assert (Hdoc : exists dh ih fs,
            process_document rt ipfs file env (files w) = inr (dh, ih, fs)
            /\ (forall s, dh = Some s -> DeedRouteFacts.fits 255 s)
            /\ (forall s, ih = Some s -> DeedRouteFacts.fits 255 s)).
  { unfold process_document. destruct file as [p|].
    - destruct Hfile as [[bytes Hb] Hfits]. rewrite Hb.
      eexists _, _, _. split; [reflexivity |]. split.
      + intros s [= <-]. destruct (HashFacts.sha256_hex_shape bytes) as [Hl Hx].
        split; [by apply DeedRouteFacts.digits_nul_free |].
        pose proof (DeedRouteFacts.char_length_le (Sha256.sha256_hex bytes)). lia.
      + intros s.
        destruct (IPFSService.uploadFile ipfs (files w) p (Obj []) (random env))
          as [e|up] eqn:Hu; [done |].
        intros [= <-]. by apply Hfits.
    - eexists None, None, _. split; [reflexivity |]. split; intros s; discriminate. }
  destruct Hdoc as (dh & ih & fs & Hdoc & Hdh & Hih).
  assert (Hlook : forall (w' : World L) stored,
            select_deeds_by_number n (db w') = {[deeds_seq (db w) + 1 := stored]} ->
            forall rt' bc' users' reader now,
              usr_role reader ∈ officials ->
              status (by_number rt' bc' users' reader n now w') = 200
              /\ field "deed" (body (by_number rt' bc' users' reader n now w'))
                 = Some (joined_value users' stored)).
  { intros w' stored Hsel rt' bc' users' reader now Hrole.
    unfold by_number. rewrite Hsel, map_to_list_singleton.
    assert (Hmay : may_read reader (owner_id stored) = true).
    { unfold may_read, officials in *.
      apply elem_of_cons in Hrole as [-> | Hrole]; [done |].
      apply elem_of_cons in Hrole as [-> | Hrole]; [done |].
      by apply elem_of_nil in Hrole. }
    rewrite Hmay. done. }
  assert (Hsel : forall row,
            deed_number row = n ->
            select_deeds_by_number n
              (with_deeds (<[deeds_seq (db w) + 1 := row]> (deeds (db w)))
                 (mkDB (deeds (db w)) (deeds_seq (db w) + 1)
                       (verification_logs (db w)) (logs_seq (db w))
                       (land_deeds (db w)) (verification_requests (db w))))
            = {[deeds_seq (db w) + 1 := row]}).
  { intros row Hrow. unfold select_deeds_by_number, with_deeds. cbn [deeds].
    by apply filter_insert_fresh. }
  unfold create. rewrite bool_decide_eq_true_2 by done. cbn [negb].
  rewrite (proj1 (proj1 Hadm)). cbn [negb].
  destruct (decide (0 < size _)%nat) as [Hs|_].
  { rewrite Hnone, map_size_empty in Hs. lia. }
  rewrite Hdoc.
  rewrite (DeedRouteFacts.insert_admissible users user b dh ih (clock env 0%nat)
             (db w) Hadm Hnone Hdh Hih).
  destruct (BlockchainService.createDeed _ _ _ _ _ _) as [[e|result] l];
    cbn [fst snd status db].
  - eexists. split; [reflexivity |].
    split; [by apply Hsel |].
    do 7 (split; [reflexivity |]).
    apply Hlook. cbn [db]. by apply Hsel.
  - destruct (assign 255 (transactionId result)) as [tx|];
      cbn [fst snd status db].
    + eexists. split; [reflexivity |].
      assert (Hsel' : forall row t,
                deed_number row = n ->
                select_deeds_by_number n
                  (update_blockchain_transaction_id tx (deeds_seq (db w) + 1) t
                     (with_deeds (<[deeds_seq (db w) + 1 := row]> (deeds (db w)))
                        (mkDB (deeds (db w)) (deeds_seq (db w) + 1)
                              (verification_logs (db w)) (logs_seq (db w))
                              (land_deeds (db w)) (verification_requests (db w)))))
                = {[deeds_seq (db w) + 1 := set_blockchain_transaction_id tx t row]}).
      { intros row t Hrow.
        unfold select_deeds_by_number, update_blockchain_transaction_id, with_deeds.
        cbn [deeds]. rewrite alter_insert_eq. by apply filter_insert_fresh. }
      split; [by apply Hsel' |].
      do 7 (split; [reflexivity |]).
      apply Hlook. cbn [db]. by apply Hsel'.
    + eexists. split; [reflexivity |].
      split; [by apply Hsel |].
      do 7 (split; [reflexivity |]).
      apply Hlook. cbn [db]. by apply Hsel.
Qed.

(** The uploaded attachment is removed from the upload directory only
    once the request is past validation and the duplicate check: after a
    201 it is gone, after a 400 or a 409 it is still there. *)
Theorem rejected_upload_stays_on_disk rt bc ipfs users (user : Z)
    (b : CreateBody) (path : string) (bytes : list byte) (env : Env)
    (w : World L) :
  files w !! path = Some bytes ->
  let res := create rt bc ipfs users user b (Some path) env w in
  (status res.1 = 400 \/ status res.1 = 409 -> files res.2 !! path = Some bytes)
  /\ (status res.1 = 201 -> files res.2 !! path = None).
Proof.
  intros Hfile res. subst res. unfold create.
  destruct (negb _); [by split |].
  destruct (negb _).
  { cbn [fst snd status server_error]. split; [intros [?|?]; done | done]. }
  destruct (decide (0 < size _)%nat); [by split |].
  unfold process_document. rewrite Hfile.
  destruct (insert_deed _ _ _ _ _ _ _ _ _ _ _ _ _ _) as [[deed|] db1].
  - destruct (BlockchainService.createDeed _ _ _ _ _ _) as [[e|result] l];
      [| destruct (assign 255 _)];
      cbn [fst snd status files];
      (split; [intros [?|?]; done | intros _; apply lookup_delete_eq]).
  - cbn [fst snd status files server_error]. split; [intros [?|?]; done | done].
Qed.

(** What [try_insert_log] does to a row of type "blockchain_verification",
    by cases. *)
Lemma try_insert_log_cases users (k user : Z) (result : string)
    (notes : option string) (now : Z) (d : DB) :
  let r := try_insert_log users k user "blockchain_verification" result notes
             now d in
  let accepted :=
    exists stored,
      nul_free result = true /\ nul_free_null notes = true
      /\ integer (logs_seq d + 1) = true /\ varchar 50 result = Some stored
      /\ is_Some (deeds d !! k) /\ is_Some (users !! user) in
  deeds r.2 = deeds d
  /\ (r.1 = None <-> accepted)
  /\ (forall stored, r.1 = None -> varchar 50 result = Some stored ->
        r.2 = insert_log k user "blockchain_verification" stored notes now d)
  /\ (r.1 <> None -> verification_logs r.2 = verification_logs d).
Proof.
  intros r accepted. subst r accepted. unfold try_insert_log.
  change (varchar 100 "blockchain_verification")
    with (Some "blockchain_verification").
  change (nul_free "blockchain_verification") with true. cbn [andb].
  destruct (nul_free result); cbn [andb negb].
  2:{ split; [done |]. split; [| done]. split; [done |].
      by intros (? & ? & _). }
  destruct (nul_free_null notes); cbn [andb negb].
  2:{ split; [done |]. split; [| done]. split; [done |].
      by intros (? & _ & ? & _). }
  destruct (integer (logs_seq d + 1)); cbn [negb].
  2:{ split; [done |]. split; [| done]. split; [done |].
      by intros (? & _ & _ & ? & _). }
  destruct (varchar 50 result) as [stored|].
  2:{ split; [done |]. split; [| done]. split; [done |].
      by intros (? & _ & _ & _ & ? & _). }
  destruct (bool_decide (is_Some (deeds d !! k))) eqn:Hk; cbn [negb].
  2:{ apply bool_decide_eq_false in Hk. split; [done |]. split; [| done].
      split; [done |]. by intros (? & _ & _ & _ & _ & ? & _). }
  destruct (bool_decide (is_Some (users !! user))) eqn:Hu; cbn [negb].
  2:{ apply bool_decide_eq_false in Hu. split; [done |]. split; [| done].
      split; [done |]. by intros (? & _ & _ & _ & _ & _ & ?). }
  apply bool_decide_eq_true in Hk, Hu.
  split; [done |]. split; [| split; [| done]].
  - split; [| done]. intros _. by exists stored.
  - intros ? _ [= <-]. done.
Qed.

(** The ledger verification route of routes/blockchain.js never changes a
    deed: whatever it is sent, the [deeds] table, and with it every
    deed's verification status, is as before, and the answer is 200 or
    500.  When the gateway call throws, the answer is 500 and the database
    is as before.  With the gateway in mock mode the ledger is left alone
    and the answer is 200 exactly when the database takes the log row:
    the deed number, which is used as [deed_id], reads as an integer
    within INTEGER that is the id of a row of [deeds], the caller is a row
    of [users], result and notes are texts without NUL, the result text is
    taken by its VARCHAR(50) column and the log sequence has a key left.  Then exactly one row of type
    "blockchain_verification" is appended; on a 500 the log is as
    before. *)
Theorem ledger_verification_writes_no_deed rt bc users (user : Z)
    (deedNumber : string) (key : Result Z) (verificationResult : string)
    (notes : option string) (env : Env) (w : World L) :
  let r := blockchain_verify rt bc users user deedNumber key verificationResult
             notes env w in
  deeds (db r.2) = deeds (db w)
  /\ (status r.1 = 200 \/ status r.1 = 500)
  /\ (forall e l,
        BlockchainService.verifyDeed rt bc deedNumber
          (BlockchainService.mkVerificationData user verificationResult
             (of_option notes) (toISOString rt (clock env 0%nat)))
          (clock env 1%nat) (clock env 2%nat) (ledger w) = (inl e, l) ->
        status r.1 = 500 /\ db r.2 = db w)
  /\ (BlockchainService.mockMode bc = true ->
      ledger r.2 = ledger w
      /\ (status r.1 = 200 <->
          exists k stored,
            key = inr k /\ integer k = true
            /\ nul_free verificationResult = true /\ nul_free_null notes = true
            /\ integer (logs_seq (db w) + 1) = true
            /\ varchar 50 verificationResult = Some stored
            /\ is_Some (deeds (db w) !! k) /\ is_Some (users !! user))
      /\ (forall k stored,
            status r.1 = 200 -> key = inr k ->
            varchar 50 verificationResult = Some stored ->
            verification_logs (db r.2)
            = (verification_logs (db w)
               ++ [mkLogRow (logs_seq (db w) + 1) k user "blockchain_verification"
                            stored notes (clock env 3%nat)])%list)
      /\ (status r.1 = 500 ->
          verification_logs (db r.2) = verification_logs (db w))).
Proof.
  intros r. subst r. unfold blockchain_verify.
  split; [| split; [| split]].
  - destruct (BlockchainService.verifyDeed _ _ _ _ _ _ _) as [[e|res] l]; [done |].
    destruct key as [e|k]; [done |]. destruct (integer k); [| done].
    cbn [negb].
    destruct (try_insert_log_cases users k user verificationResult notes
                (clock env 3%nat) (db w)) as (Hd & _).
    by destruct (try_insert_log _ _ _ _ _ _ _ _) as [[e|] d].
  - destruct (BlockchainService.verifyDeed _ _ _ _ _ _ _) as [[e|res] l];
      [by right |].
    destruct key as [e|k]; [by right |]. destruct (integer k); [| by right].
    cbn [negb].
    destruct (try_insert_log _ _ _ _ _ _ _ _) as [[e|] d]; [by right | by left].
  - intros e l ->. done.
  - intros Hm. unfold BlockchainService.verifyDeed. rewrite Hm.
    destruct key as [e|k].
    { split; [done |]. split; [| done]. split; [done |].
      by intros (? & ? & ? & _). }
    destruct (integer k) eqn:Hik; cbn [negb].
    2:{ split; [done |]. split; [| done]. split; [done |].
        intros (? & ? & [= <-] & ? & _). congruence. }
    destruct (try_insert_log_cases users k user verificationResult notes
                (clock env 3%nat) (db w)) as (_ & Hacc & Hrow & Hkeep).
    destruct (try_insert_log _ _ _ _ _ _ _ _) as [[e|] d]; cbn [fst snd] in *.
    + split; [done |]. split; [| split; [done |]].
      * split; [done |].
        intros (k' & stored & [= <-] & _ & Hr & Hn & Hs & Hv & Hk & Hu).
        exfalso. assert (Hnone : Some e = None); [| done].
        apply Hacc. by exists stored.
      * intros _. by apply Hkeep.
    + split; [done |]. split; [| split; [| done]].
      * split; [| done]. intros _.
        destruct (proj1 Hacc eq_refl) as (stored & ? & ? & ? & ? & ? & ?).
        by exists k, stored.
      * intros k' stored _ [= <-] Hv. by rewrite (Hrow stored eq_refl Hv).
Qed.

End Routes.

(** ** Worked examples *)

Lemma unique_singleton (k : Z) (r : DeedRow) seq logs lseq lds reqs :
  DeedRouteFacts.unique_numbers (mkDB {[k := r]} seq logs lseq lds reqs).
Proof.
  intros k1 k2 r1 r2 H1 H2 _. simpl in H1, H2.
  apply lookup_singleton_Some in H1 as [<- _].
  by apply lookup_singleton_Some in H2 as [<- _].
Qed.

Definition stranger : UserRow :=
  mkUserRow 8 "dana" "dana@example.org" "citizen" (Some "Dana") true.

Definition registrar : UserRow :=
  mkUserRow 7 "ravi" "ravi@example.org" "government_official" (Some "Ravi") true.

Definition rejected_deed : DeedRow :=
  mkDeedRow 1 "LR-001" "Plot 12" None 4 "12 Main St" None "10 perches" None
            None None None "rejected" 2 (Some 7) 10 50.

Definition world_rejected : World unit :=
  mkWorld (mkDB {[1 := rejected_deed]} 1 [] 0 ∅ ∅) tt ∅.

Lemma limited_view_for_strangers_witness :
  by_number example_runtime DeedRouteFacts.mock_gateway ∅ stranger "LR-001" 0
    world_rejected
  = mkResponse 200 (Obj [("deed", limited_value rejected_deed)]).
Proof.
  destruct (limited_view_for_strangers example_runtime DeedRouteFacts.mock_gateway
              DeedRouteFacts.mock_gateway ∅ stranger world_rejected tt 1
              rejected_deed 0 0) as [H _];
    [apply unique_singleton | reflexivity | reflexivity | exact H].
Defined.

Lemma mock_ledger_data_says_verified_witness :
  let r := by_number example_runtime DeedRouteFacts.mock_gateway ∅ registrar
             "LR-001" 0 world_rejected in
  (field "deed" (body r) ≫= field "verification_status") = Some (Str "rejected")
  /\ (field "blockchain" (body r) ≫= field "status") = Some (Str "verified").
Proof.
  cbv zeta.
  destruct (mock_ledger_data_says_verified example_runtime None ∅ registrar
              world_rejected 1 rejected_deed 0) as (_ & _ & H1 & H2);
    [apply unique_singleton | reflexivity | reflexivity | discriminate |].
  split; [exact H1 | exact H2].
Defined.

Definition citizen_token (t : string) : Verified := Decoded (Some 8).

Lemma create_is_for_officials_witness :
  post_create example_runtime DeedRouteFacts.mock_gateway DeedRouteFacts.mock_store
    citizen_token {[8 := stranger]} (Some "Bearer abc") DeedRouteFacts.body_LR1
    None DeedRouteFacts.env0 DeedRouteFacts.world0
  = (mkResponse 403 (Obj [("error", Str "Insufficient permissions")]),
     DeedRouteFacts.world0).
Proof.
  destruct (create_is_for_officials example_runtime DeedRouteFacts.mock_gateway
              DeedRouteFacts.mock_store citizen_token {[8 := stranger]}
              (Some "Bearer abc") DeedRouteFacts.body_LR1 None DeedRouteFacts.env0
              DeedRouteFacts.world0) as [H _].
  - intros row. vm_compute. intros [= <-]. simpl.
    intros H. repeat (apply elem_of_cons in H as [H | H]; [discriminate |]).
    by apply elem_of_nil in H.
  - reflexivity.
Defined.

Lemma create_then_lookup_witness :
  let res := create example_runtime DeedRouteFacts.mock_gateway
               DeedRouteFacts.mock_store DeedRouteFacts.users0 2
               DeedRouteFacts.body_LR1 None DeedRouteFacts.env0
               DeedRouteFacts.world0 in
  status res.1 = 201
  /\ size (select_deeds_by_number "LR-001" (db res.2)) = 1%nat.
Proof.
  cbv zeta.
  destruct (create_then_lookup example_runtime DeedRouteFacts.mock_gateway
              DeedRouteFacts.mock_store DeedRouteFacts.users0 2
              DeedRouteFacts.body_LR1 None DeedRouteFacts.env0
              DeedRouteFacts.world0)
    as (stored & Hst & Hsel & _).
  - reflexivity.
  - reflexivity.
  - unfold DeedRouteFacts.admissible, DeedRouteFacts.fits.
    repeat split; try (vm_compute; lia); try reflexivity; by eexists.
  - exact I.
  - split; [exact Hst |].
    change (default "" (b_deed_number DeedRouteFacts.body_LR1))
      with "LR-001" in Hsel. rewrite Hsel. apply map_size_singleton.
Defined.

Lemma rejected_upload_stays_on_disk_witness :
  let res := create example_runtime DeedRouteFacts.down_gateway
               DeedRouteFacts.failing_store DeedRouteFacts.users0 2
               DeedRouteFacts.body_LR1 (Some "uploads/deeds/deed-1.pdf")
               DeedRouteFacts.env0 DeedRouteFacts.world_upload in
  status res.1 = 201 /\ files res.2 !! "uploads/deeds/deed-1.pdf" = None.
Proof.
  cbv zeta.
  destruct (rejected_upload_stays_on_disk example_runtime DeedRouteFacts.down_gateway
              DeedRouteFacts.failing_store DeedRouteFacts.users0 2
              DeedRouteFacts.body_LR1 "uploads/deeds/deed-1.pdf"
              DeedRouteFacts.scan DeedRouteFacts.env0
              DeedRouteFacts.world_upload) as [_ H]; [reflexivity |].
  assert (Hst : status (create example_runtime DeedRouteFacts.down_gateway
               DeedRouteFacts.failing_store DeedRouteFacts.users0 2
               DeedRouteFacts.body_LR1 (Some "uploads/deeds/deed-1.pdf")
               DeedRouteFacts.env0 DeedRouteFacts.world_upload).1 = 201)
    by (vm_compute; reflexivity).
  split; [exact Hst | exact (H Hst)].
Defined.

(** The ledger verification of "deed number" 1 by the registrar, where a
    deed with id 1 exists, and of number 42, where no deed has that id. *)
Lemma ledger_verification_writes_no_deed_witness :
  let users := {[7 := registrar]} in
  let r1 := blockchain_verify example_runtime DeedRouteFacts.mock_gateway users 7
              "1" (inr 1) "verified" None DeedRouteFacts.env0 world_rejected in
  let r42 := blockchain_verify example_runtime DeedRouteFacts.mock_gateway users 7
               "42" (inr 42) "verified" None DeedRouteFacts.env0 world_rejected in
  status r1.1 = 200 /\ length (verification_logs (db r1.2)) = 1%nat
  /\ deeds (db r1.2) = deeds (db world_rejected)
  /\ status r42.1 = 500 /\ verification_logs (db r42.2) = [].
Proof.
  cbv zeta.
  destruct (ledger_verification_writes_no_deed example_runtime
              DeedRouteFacts.mock_gateway {[7 := registrar]} 7 "1" (inr 1)
              "verified" None DeedRouteFacts.env0 world_rejected)
    as (Hdeeds & _ & _ & Hmock).
  destruct (Hmock eq_refl) as (_ & Hiff & Hrow & _).
  assert (H200 : status (blockchain_verify example_runtime
              DeedRouteFacts.mock_gateway {[7 := registrar]} 7 "1" (inr 1)
              "verified" None DeedRouteFacts.env0 world_rejected).1 = 200).
  { apply Hiff. exists 1, "verified". repeat split; by eexists. }
  split; [exact H200 |].
  split; [rewrite (Hrow 1 "verified" H200 eq_refl eq_refl); reflexivity |].
  split; [exact Hdeeds |].
  vm_compute. split; reflexivity.
Defined.

End DeedReadFacts.

(* ===================================================================== *)
(** * Properties of the verification-request routes, continued            *)
(* ===================================================================== *)

Module RequestLifecycle.
Import JS Database VerificationRoutes VerificationFacts.

(** A 201 from [request] means a row was inserted: the body was valid,
    the deed exists, and the new row is pending, carries the requester and
    sits under the generated key. *)
Lemma request_created (user : User) (b : RequestBody) (key : string) (now : Z)
    (d : DB) :
  status (request user b key now d).1 = 201 ->
  validate_request b = []
  /\ is_Some (land_deeds d !! default "" (deedId b))
  /\ (request user b key now d).2
     = with_requests
         (<[key := mkVRequest key (default "" (deedId b)) (user_id user)
                     (default "" (requestType b)) (or_null (requestDetails b))
                     "pending" None None None now]> (verification_requests d)) d.
Proof.
  unfold request.
  destruct (bool_decide (validate_request b = [])) eqn:Hv; simpl; [| done].
  apply bool_decide_eq_true in Hv.
  destruct (land_deeds d !! default "" (deedId b)) eqn:Hd; [| done].
  destruct (decide _); [done |].
  destruct (decide (0 < size _)%nat); [done |].
  unfold insert_request.
  destruct (decide (is_Some (verification_requests d !! key))); [done |].
  simpl. intros _. split; [done |]. split; [by eauto | done].
Qed.

(** The access guard comes before the duplicate check.  A citizen who
    does not own the deed is answered 403 and nothing is inserted, whether
    or not a pending request exists; anyone who owns the deed or is not a
    citizen gets past the guard and is answered 409, 201 or 500. *)
Theorem request_access_guard (user : User) (b : RequestBody) (key : string)
    (now : Z) (d : DB) (deed : LandDeed) :
  validate_request b = [] ->
  land_deeds d !! default "" (deedId b) = Some deed ->
  let r := request user b key now d in
  (ld_owner_id deed <> user_id user -> role user = "citizen" ->
     status r.1 = 403 /\ r.2 = d)
  /\ (ld_owner_id deed = user_id user \/ role user <> "citizen" ->
     status r.1 ∈ [409; 201; 500]).
Proof.
  intros Hv Hd r. subst r. unfold request.
  rewrite bool_decide_eq_true_2 by done. cbn [negb]. rewrite Hd. split.
  - intros Ho Hr. destruct (decide _) as [_|Hn]; [done |]. by destruct Hn.
  - intros Hok. destruct (decide _) as [[Ho Hr]|_].
    { destruct Hok; contradiction. }
    destruct (decide (0 < size _)%nat); [cbn; set_solver |].
    destruct (insert_request _ _ _ _ _ _ _ _) as [[row d']|]; cbn; set_solver.
Qed.

Lemma request_access_guard_witness :
  let r := request (mkUser "u-bob" "citizen" "bob@example.org") ownership_request
             "R9" 100 db1 in
  status r.1 = 403 /\ r.2 = db1.
Proof.
  cbv zeta.
  destruct (request_access_guard (mkUser "u-bob" "citizen" "bob@example.org")
              ownership_request "R9" 100 db1
              (mkLandDeed deed_uuid "LR-001" "u-alice" "pending" None))
    as [H _]; [reflexivity | vm_compute; reflexivity |].
  apply H; [discriminate | reflexivity].
Defined.

(** A request that was accepted blocks its twin: after a 201, any further
    valid request for the same deed and kind, by whoever is allowed to ask
    and under whatever key, is answered Conflict and inserts nothing. *)
Theorem accepted_request_blocks_its_twin (user : User) (b : RequestBody)
    (key : string) (now : Z) (d : DB) (user2 : User) (b2 : RequestBody)
    (key2 : string) (now2 : Z) (deed : LandDeed) :
  status (request user b key now d).1 = 201 ->
  validate_request b2 = [] ->
  deedId b2 = deedId b -> requestType b2 = requestType b ->
  land_deeds d !! default "" (deedId b) = Some deed ->
  ~ (ld_owner_id deed <> user_id user2 /\ role user2 = "citizen") ->
  let d' := (request user b key now d).2 in
  request user2 b2 key2 now2 d' = (Conflict, d').
Proof.
  intros Hst Hv2 Hid Hty Hdeed Hperm d'. subst d'.
  destruct (request_created user b key now d Hst) as (Hv & _ & ->).
  eapply (request_conflict user2 b2 key2 now2 _ deed key).
  - done.
  - by rewrite Hid.
  - done.
  - unfold with_requests. cbn [verification_requests]. apply lookup_insert_eq.
  - cbn. by rewrite Hid.
  - cbn. by rewrite Hty.
  - done.
Qed.

Lemma accepted_request_blocks_its_twin_witness :
  request officer ownership_request "R2" 101 db1 = (Conflict, db1).
Proof.
  apply (accepted_request_blocks_its_twin alice ownership_request "R1" 100 db0
           officer ownership_request "R2" 101
           (mkLandDeed deed_uuid "LR-001" "u-alice" "pending" None)).
  - reflexivity.
  - reflexivity.
  - reflexivity.
  - reflexivity.
  - vm_compute. reflexivity.
  - intros [_ H]. discriminate.
Defined.



(** A request row is in one of two shapes. *)
Definition row_shape (k : string) (r : VRequest) : Prop :=
  vr_id r = k
  /\ ((vr_status r = "pending" /\ processed_at r = None /\ processed_by r = None
       /\ response_details r = None)
      \/ ((vr_status r = "approved" \/ vr_status r = "rejected")
          /\ is_Some (processed_at r) /\ is_Some (processed_by r))).

(** In every state the two routes can reach, each request row sits under
    its own identifier and is either pending with no processing stamp and
    no response, or approved/rejected with processing time and processor
    set: no request is decided without a stamp, none goes back to pending. *)
Theorem request_rows_keep_their_shape (d : DB) :
  reachable d ->
  forall k r, verification_requests d !! k = Some r -> row_shape k r.
Proof.
  induction 1 as [d He | d user b key now _ IH | d user key b now _ IH];
    intros k r Hk.
  - rewrite He in Hk. by rewrite lookup_empty in Hk.
  - destruct (request_cases user b key now d) as [E | (row & _ & _ & -> & E)];
      rewrite E in Hk; [by apply IH |].
    unfold with_requests in Hk. cbn [verification_requests] in Hk.
    apply lookup_insert_Some in Hk as [(<- & <-) | (_ & Hk)]; [| by apply IH].
    split; [done |]. left. done.
  - destruct (process_cases user key b now d)
      as [E | (r0 & st & _ & Hdec & Hr0 & _ & E)];
      rewrite E in Hk; [by apply IH |].
    unfold update_request, with_requests in Hk. cbn [verification_requests] in Hk.
    apply lookup_alter_Some in Hk as [(<- & x & Hx & ->) | (_ & Hk)];
      [| by apply IH].
    destruct (IH _ _ Hx) as [Hid _]. split; [done |]. right.
    cbn. split; [done |]. split; by eexists.
Qed.

Lemma request_rows_keep_their_shape_witness :
  row_shape "R1" (mkVRequest "R1" deed_uuid "u-alice" "ownership"
                             (Some "please check") "pending" None None None 100).
Proof.
  apply (request_rows_keep_their_shape db1 db1_reachable "R1").
  vm_compute. reflexivity.
Defined.

End RequestLifecycle.

(* ===================================================================== *)
(** * Properties of fabricService.js and of the ledger check              *)
(* ===================================================================== *)

Module FabricFacts.
Import JS Database FabricService.

(** Before [initializeFabricNetwork] has assigned the contract, no call
    reaches the ledger: every call throws "Fabric contract not
    initialized" and leaves the ledger as it is, the health check reports
    "disconnected", and the ledger check of a deed that has a transaction
    hash is answered 500 with that message as details. *)
Theorem nothing_before_initialization {L : Type} (rt : Runtime)
    (functionName a b c e : string) (args : Value) (now : Z) (l : L) (d : DB)
    (deed : LandDeed) (h : string) :
  land_deeds d !! a = Some deed ->
  ld_transaction_hash deed = Some h -> h <> "" ->
  submitTransaction None functionName args l = (inl not_initialized, l)
  /\ evaluateTransaction None functionName args l = inl not_initialized
  /\ verifyOnBlockchain rt None h now l = inl not_initialized
  /\ getDeedHistory rt None a l = inl not_initialized
  /\ transferDeedOwnership rt None a b c e now l = (inl not_initialized, l)
  /\ checkFabricHealth None l = ("disconnected", not_initialized)
  /\ status (blockchain_check rt None a now d l) = 500
  /\ field "details" (body (blockchain_check rt None a now d l))
     = Some (Str not_initialized).
Proof.
  intros Hd Hh Hne. repeat (split; [reflexivity |]).
  unfold blockchain_check. rewrite Hd, Hh. cbn.
  destruct (decide (h = "")); [done |]. done.
Qed.

Definition hashed_deed : LandDeed :=
  mkLandDeed "123e4567-e89b-12d3-a456-426614174000" "LR-001" "u-alice" "pending"
             (Some "tx-77").

Lemma nothing_before_initialization_witness :
  status (blockchain_check (L := unit) example_runtime None
            "123e4567-e89b-12d3-a456-426614174000" 0
            (mkDB ∅ 0 [] 0 {["123e4567-e89b-12d3-a456-426614174000" := hashed_deed]} ∅)
            tt) = 500.
Proof.
  destruct (nothing_before_initialization (L := unit) example_runtime "f"
              "123e4567-e89b-12d3-a456-426614174000" "b" "c" "e" Null 0 tt
              (mkDB ∅ 0 [] 0
                    {["123e4567-e89b-12d3-a456-426614174000" := hashed_deed]} ∅)
              hashed_deed "tx-77")
    as (_ & _ & _ & _ & _ & _ & H & _);
    [vm_compute; reflexivity | reflexivity | discriminate | exact H].
Defined.

(** The ledger check says "verified" whenever it gets an answer.  It is
    answered 200 exactly when the deed exists, has a non-empty transaction
    hash, the contract is assigned, and the query for that hash returns
    text that parses; the verification it then reports has
    [verified = true] and echoes the hash, whatever the returned data says
    and whatever the deed's own verification status is. *)
Theorem ledger_check_verifies_any_answer {L : Type} (rt : Runtime)
    (contract : option (BlockchainService.Contract L)) (deedId : string)
    (now : Z) (d : DB) (l : L) :
  let r := blockchain_check rt contract deedId now d l in
  (status r = 200 <->
   exists deed h c result deedData,
     land_deeds d !! deedId = Some deed
     /\ ld_transaction_hash deed = Some h /\ h <> ""
     /\ contract = Some c
     /\ BlockchainService.evaluateTransaction c "queryDeed" [Str h] l = inr result
     /\ JSON_parse rt result = Some deedData)
  /\ (status r = 200 ->
      (field "blockchainVerification" (body r) ≫= field "verified")
      = Some (Bool true)
      /\ (field "blockchainVerification" (body r) ≫= field "transactionHash")
         = (field "deed" (body r) ≫= field "transactionHash")).
Proof.
  intros r. subst r. unfold blockchain_check, verifyOnBlockchain.
  assert (Hor : forall h : string, h <> "" -> VerificationRoutes.or_null (Some h) = Some h).
  { intros h Hh. unfold VerificationRoutes.or_null. by destruct (decide (h = "")). }
  destruct (land_deeds d !! deedId) as [deed|] eqn:Hd.
  2:{ split; [split; [done |] | done].
      intros (? & ? & ? & ? & ? & ? & _). congruence. }
  destruct (ld_transaction_hash deed) as [h|] eqn:Hh;
    cbn [VerificationRoutes.or_null].
  2:{ split; [split; [done |] | done].
      intros (? & ? & ? & ? & ? & ? & ? & _). congruence. }
  destruct (decide (h = "")) as [->|Hne].
  { split; [split; [done |] | done].
    intros (? & ? & ? & ? & ? & ? & ? & ? & _). congruence. }
  destruct contract as [c|].
  2:{ split; [split; [done |] | done].
      intros (? & ? & ? & ? & ? & _ & _ & _ & ? & _). done. }
  destruct (BlockchainService.evaluateTransaction c "queryDeed" [Str h] l)
    as [e|result] eqn:He.
  { split; [split; [done |] | done].
    intros (? & ? & ? & ? & ? & ? & ? & _ & ? & Hq & _).
    simplify_eq; congruence. }
  destruct (JSON_parse rt result) as [deedData|] eqn:Hp.
  - split; [| done]. split; [| done]. intros _.
    by exists deed, h, c, result, deedData.
  - split; [split; [done |] | done].
    intros (? & ? & ? & ? & ? & ? & ? & _ & ? & Hq & Hp').
    simplify_eq; congruence.
Qed.

End FabricFacts.

